(** * EcoSort: the reward and transaction core

    A shallow embedding of the point-bearing parts of the EcoSort client
    (the scanner hook, the marketplace hook, the admin review panels, the
    guest migration of the sign-in page) and of the listing compliance
    endpoint, followed by the properties checked against them.

    Conventions.
    - JavaScript numbers that hold point totals are integers here ([Z]);
      multipliers are exact rationals ([Q]).  [Math.round] is
      [floor (x + 1/2)], which is what the engine computes for every product
      of an integer below 2^40 with one of the multipliers of the table.
    - The remote store is a record of tables.  Every call to it gets a
      [Reply] from the environment: the call is executed, or it comes back
      with [error] set, or it is filtered to zero rows without an error.
    - Timestamps ([updated_at], [scanned_at]) and timers are left out. *)

From Stdlib Require Import ZArith QArith Qround Lia Bool Ascii String.
From stdpp Require Import gmap strings list fin_maps.

Local Open Scope string_scope.
Local Open Scope Z_scope.

(* ===================================================================== *)
(** ** JavaScript helpers *)
(* ===================================================================== *)

Module Js.

(** [x || d] on a number: [0] (and [NaN], [undefined]) are falsy. *)
Definition or_num (x d : Z) : Z := if x =? 0 then d else x.

(** [o.field || d] where the field may be missing or [null]. *)
Definition or_field (o : option Z) (d : Z) : Z :=
  match o with
  | Some x => or_num x d
  | None => d
  end.

(** [x || d] on a rational multiplier. *)
Definition or_mult (o : option Q) (d : Q) : Q :=
  match o with
  | Some m => if Qeq_bool m 0 then d else m
  | None => d
  end.

(** [Math.round]: nearest integer, ties towards plus infinity. *)
Definition Math_round (x : Q) : Z := Qfloor (x + (1 # 2)).

(** A string value is truthy unless it is empty. *)
Definition truthy (s : string) : bool :=
  match s with
  | EmptyString => false
  | String _ _ => true
  end.

End Js.

(* ===================================================================== *)
(** ** types/waste.ts *)
(* ===================================================================== *)

Module Waste.

Inductive WasteCategory :=
| clothing | electronics | compost | recyclable | hazardous | other.

Inductive DisposalChoice := donate | trade | recycle | discard | special.

Inductive ScanStatus := pending | approved | rejected.

#[global] Instance WasteCategory_eq_dec : EqDecision WasteCategory.
Proof. solve_decision. Defined.
#[global] Instance DisposalChoice_eq_dec : EqDecision DisposalChoice.
Proof. solve_decision. Defined.
#[global] Instance ScanStatus_eq_dec : EqDecision ScanStatus.
Proof. solve_decision. Defined.

Record WasteItem := {
  id : string;
  name : string;
  category : WasteCategory;
  points : Z;
  imageUrl : option string;
  status : ScanStatus;
  disposalChoice : option DisposalChoice;
  basePoints : Z;
  finalPoints : Z;
  aiSuggestion : option string;
  hasCreativePotential : bool;
  creativeSuggestion : option string;
  isHuman : bool;
  isRetry : bool
}.

Record UserStats := {
  totalPoints : Z;
  level : Z;
  scansToday : Z;
  streak : Z;
  itemsRecycled : Z;
  pendingPoints : Z
}.

Record Choice := {
  value : DisposalChoice;
  pointsMultiplier : Q;
  isPrimary : bool
}.

Record Info := {
  needsChoice : bool;
  choices : option (list Choice)
}.

(** The table [categoryInfo]; labels, colours and tips are presentation. *)
Definition categoryInfo (c : WasteCategory) : Info :=
  match c with
  | clothing =>
      {| needsChoice := true;
         choices := Some [ {| value := donate; pointsMultiplier := 2; isPrimary := true |};
                           {| value := trade; pointsMultiplier := 18 # 10; isPrimary := true |};
                           {| value := discard; pointsMultiplier := 1; isPrimary := false |} ] |}
  | electronics =>
      {| needsChoice := true;
         choices := Some [ {| value := trade; pointsMultiplier := 2; isPrimary := true |};
                           {| value := recycle; pointsMultiplier := 15 # 10; isPrimary := true |};
                           {| value := discard; pointsMultiplier := 5 # 10; isPrimary := false |} ] |}
  | compost =>
      {| needsChoice := true;
         choices := Some [ {| value := recycle; pointsMultiplier := 15 # 10; isPrimary := true |};
                           {| value := discard; pointsMultiplier := 1; isPrimary := false |} ] |}
  | recyclable =>
      {| needsChoice := true;
         choices := Some [ {| value := trade; pointsMultiplier := 15 # 10; isPrimary := true |};
                           {| value := recycle; pointsMultiplier := 15 # 10; isPrimary := true |};
                           {| value := discard; pointsMultiplier := 1; isPrimary := false |} ] |}
  | hazardous =>
      {| needsChoice := true;
         choices := Some [ {| value := special; pointsMultiplier := 2; isPrimary := true |} ] |}
  | other =>
      {| needsChoice := false; choices := None |}
  end.

(** [category.choices?.find(c => c.value === choice)] *)
Definition findChoice (c : WasteCategory) (choice : DisposalChoice) : option Choice :=
  match choices (categoryInfo c) with
  | Some l => List.find (fun x => bool_decide (value x = choice)) l
  | None => None
  end.

End Waste.

(* ===================================================================== *)
(** ** types/marketplace.ts *)
(* ===================================================================== *)

Module Market.

Module ListingStatus.
Inductive t := draft | pending_review | active | sold | cancelled.
#[global] Instance eq_dec : EqDecision t.
Proof. solve_decision. Defined.
End ListingStatus.

Module OrderStatus.
Inductive t := pending | completed | cancelled.
#[global] Instance eq_dec : EqDecision t.
Proof. solve_decision. Defined.
End OrderStatus.

(** [MarketplaceListing], as the hooks hand it around (a snapshot of a row);
    the seller name, the dates, the condition, the pickup method and the risk
    score are not read by the code below. *)
Record MarketplaceListing := {
  id : string;
  sellerId : string;
  scanId : option string;
  title : string;
  description : option string;
  imageUrl : option string;
  category : string;
  pricePoints : Z;
  status : ListingStatus.t
}.

End Market.

(* ===================================================================== *)
(** ** The remote store (Supabase tables) and the browser's localStorage *)
(* ===================================================================== *)

Module Store.

(** How one call to the store comes back. *)
Inductive Reply :=
| ok        (* executed *)
| failed    (* [error] is set, nothing is written or read *)
| blocked.  (* no error, but zero rows are matched (row-level security) *)

Definition errored (r : Reply) : bool :=
  match r with failed => true | _ => false end.

Module profiles.
Record row := {
  total_points : Z;
  level : Z;
  streak : Z;
  items_recycled : Z;
  username : option string
}.
End profiles.

Module scan_history.
Record row := {
  user_id : string;
  item_name : string;
  category : Waste.WasteCategory;
  points : Z;
  base_points : option Z;
  final_points : option Z;
  status : option Waste.ScanStatus;
  disposal_choice : option Waste.DisposalChoice;
  image_url : option string;
  ai_suggestion : option string
}.
End scan_history.

Module marketplace_listings.
Record row := {
  seller_id : string;
  scan_id : option string;
  title : string;
  description : option string;
  image_url : option string;
  category : string;
  price_points : Z;
  status : Market.ListingStatus.t
}.
End marketplace_listings.

Module orders.
Record row := {
  listing_id : string;
  buyer_id : string;
  seller_id : string;
  price_points : Z;
  status : Market.OrderStatus.t
}.
End orders.

Module system_notifications.
Record row := {
  title : string;
  type : string;
  target_user_id : string
}.
End system_notifications.

Module messages.
Record row := {
  sender_id : string;
  receiver_id : string;
  listing_id : string
}.
End messages.

Record Db := {
  t_profiles : gmap string profiles.row;
  t_scan_history : gmap string scan_history.row;
  t_marketplace_listings : gmap string marketplace_listings.row;
  t_orders : list orders.row;
  t_system_notifications : list system_notifications.row;
  t_messages : list messages.row
}.

Definition with_profiles (f : gmap string profiles.row -> gmap string profiles.row) (d : Db) : Db :=
  {| t_profiles := f (t_profiles d);
     t_scan_history := t_scan_history d;
     t_marketplace_listings := t_marketplace_listings d;
     t_orders := t_orders d;
     t_system_notifications := t_system_notifications d;
     t_messages := t_messages d |}.

Definition with_scan_history (f : gmap string scan_history.row -> gmap string scan_history.row) (d : Db) : Db :=
  {| t_profiles := t_profiles d;
     t_scan_history := f (t_scan_history d);
     t_marketplace_listings := t_marketplace_listings d;
     t_orders := t_orders d;
     t_system_notifications := t_system_notifications d;
     t_messages := t_messages d |}.

Definition with_marketplace_listings
  (f : gmap string marketplace_listings.row -> gmap string marketplace_listings.row) (d : Db) : Db :=
  {| t_profiles := t_profiles d;
     t_scan_history := t_scan_history d;
     t_marketplace_listings := f (t_marketplace_listings d);
     t_orders := t_orders d;
     t_system_notifications := t_system_notifications d;
     t_messages := t_messages d |}.

Definition with_orders (f : list orders.row -> list orders.row) (d : Db) : Db :=
  {| t_profiles := t_profiles d;
     t_scan_history := t_scan_history d;
     t_marketplace_listings := t_marketplace_listings d;
     t_orders := f (t_orders d);
     t_system_notifications := t_system_notifications d;
     t_messages := t_messages d |}.

Definition with_system_notifications
  (f : list system_notifications.row -> list system_notifications.row) (d : Db) : Db :=
  {| t_profiles := t_profiles d;
     t_scan_history := t_scan_history d;
     t_marketplace_listings := t_marketplace_listings d;
     t_orders := t_orders d;
     t_system_notifications := f (t_system_notifications d);
     t_messages := t_messages d |}.

Definition with_messages (f : list messages.row -> list messages.row) (d : Db) : Db :=
  {| t_profiles := t_profiles d;
     t_scan_history := t_scan_history d;
     t_marketplace_listings := t_marketplace_listings d;
     t_orders := t_orders d;
     t_system_notifications := t_system_notifications d;
     t_messages := f (t_messages d) |}.

(** [.update(...).eq('id', id)]: the new table. *)
Definition update_by_id {R : Type} (r : Reply) (id : string) (f : R -> R)
    (t : gmap string R) : gmap string R :=
  match r with
  | ok => alter f id t
  | _ => t
  end.

(** [.update(...).eq('id', id).eq(column, value)]: the row with that id is
    updated if it also passes the second filter. *)
Definition update_by_id_where {R : Type} (r : Reply) (id : string) (p : R -> bool)
    (f : R -> R) (t : gmap string R) : gmap string R :=
  match r with
  | ok => alter (fun x => if p x then f x else x) id t
  | _ => t
  end.

(** [.update(...).eq('id', id).select('id')]: how many rows came back. *)
Definition rows_updated {R : Type} (r : Reply) (id : string) (t : gmap string R) : nat :=
  match r with
  | ok => match t !! id with Some _ => 1%nat | None => 0%nat end
  | _ => 0%nat
  end.

(** [.select(...).eq('id', id).maybeSingle()] / [.single()]: the row, or null. *)
Definition select_by_id {R : Type} (r : Reply) (id : string) (t : gmap string R) : option R :=
  match r with
  | ok => t !! id
  | _ => None
  end.

(** [.insert(row)] into a table keyed by a generated id (the database
    draws it; it is new to the table). *)
Definition insert_row {R : Type} (r : Reply) (id : string) (x : R)
    (t : gmap string R) : gmap string R :=
  match r with
  | ok => <[id := x]> t
  | _ => t
  end.

(** [.insert(row)] into a table that is only ever appended to and listed. *)
Definition append_row {R : Type} (r : Reply) (x : R) (t : list R) : list R :=
  match r with
  | ok => t ++ [x]
  | _ => t
  end.

(** [.insert(...).select('id')]: how many rows came back. *)
Definition rows_inserted (r : Reply) : nat :=
  match r with ok => 1%nat | _ => 0%nat end.

(** What [JSON.parse] makes of a value kept in localStorage. *)
Record StoredStats := {
  s_totalPoints : option Z;
  s_level : option Z;
  s_scansToday : option Z;
  s_streak : option Z;
  s_itemsRecycled : option Z;
  s_pendingPoints : option Z
}.

Inductive LSValue :=
| JStats (s : StoredStats)                 (* the text of a JSON object *)
| JHistory (h : list Waste.WasteItem)      (* the text of a JSON array of items *)
| JNull                                    (* the text [null] *)
| JText (s : string).                      (* text that JSON.parse rejects *)

(** The tables, the localStorage of the browser, and the objects of the
    storage bucket 'scan-images', each named by its public URL. *)
Record World := {
  db : Db;
  localStorage : gmap string LSValue;
  scan_images : list string
}.

Definition with_db (f : Db -> Db) (w : World) : World :=
  {| db := f (db w); localStorage := localStorage w; scan_images := scan_images w |}.

Definition with_localStorage (f : gmap string LSValue -> gmap string LSValue) (w : World) : World :=
  {| db := db w; localStorage := f (localStorage w); scan_images := scan_images w |}.

Definition with_scan_images (f : list string -> list string) (w : World) : World :=
  {| db := db w; localStorage := localStorage w; scan_images := f (scan_images w) |}.

(** What the environment decides for one run of a handler: the reply to each
    store call (named by table and verb), the ids the database generates, the
    clock, and how the image upload ends: with the public URL of the object
    it stored, or with an error ([None]) and nothing stored. *)
Record Env := {
  reply : string -> Reply;
  uuid : nat -> string;
  now : string;
  uploadedUrl : option string
}.

End Store.

(* ===================================================================== *)
(** ** hooks/useWasteScanner.ts *)
(* ===================================================================== *)

Module useWasteScanner.
Import Waste Store.

Definition GUEST_STATS_KEY : string := "ecoscan_guest_stats".
Definition GUEST_HISTORY_KEY : string := "ecoscan_guest_history".

(** [`${KEY}_${deviceId}`] *)
Definition guest_key (key deviceId : string) : string :=
  String.append key (String.append "_" deviceId).

Definition calculateLevel (points : Z) : Z := points / 100 + 1.

Definition defaultStats : UserStats :=
  {| totalPoints := 0; level := 1; scansToday := 0; streak := 0;
     itemsRecycled := 0; pendingPoints := 0 |}.

(** [useAuth()] *)
Record AuthContext := {
  user : option string;
  isGuest : bool;
  deviceId : string
}.

(** What the classifier service hands back. *)
Record ClassificationResult := {
  r_name : string;
  r_category : WasteCategory;
  r_points : Z;
  r_aiSuggestion : option string;
  r_hasCreativePotential : bool;
  r_creativeSuggestion : option string;
  r_isHuman : bool;
  r_isRetry : bool
}.

(** The React state of the hook. *)
Record Hook := {
  lastScannedItem : option WasteItem;
  scanHistory : list WasteItem;
  stats : UserStats;
  showReward : bool;
  showLevelUp : bool
}.

Definition setLastScannedItem (i : option WasteItem) (h : Hook) : Hook :=
  {| lastScannedItem := i; scanHistory := scanHistory h; stats := stats h;
     showReward := showReward h; showLevelUp := showLevelUp h |}.

Definition setScanHistory (l : list WasteItem) (h : Hook) : Hook :=
  {| lastScannedItem := lastScannedItem h; scanHistory := l; stats := stats h;
     showReward := showReward h; showLevelUp := showLevelUp h |}.

Definition setStats (s : UserStats) (h : Hook) : Hook :=
  {| lastScannedItem := lastScannedItem h; scanHistory := scanHistory h; stats := s;
     showReward := showReward h; showLevelUp := showLevelUp h |}.

Definition setShowReward (b : bool) (h : Hook) : Hook :=
  {| lastScannedItem := lastScannedItem h; scanHistory := scanHistory h; stats := stats h;
     showReward := b; showLevelUp := showLevelUp h |}.

Definition setShowLevelUp (b : bool) (h : Hook) : Hook :=
  {| lastScannedItem := lastScannedItem h; scanHistory := scanHistory h; stats := stats h;
     showReward := showReward h; showLevelUp := b |}.

Definition toStored (s : UserStats) : StoredStats :=
  {| s_totalPoints := Some (totalPoints s); s_level := Some (level s);
     s_scansToday := Some (scansToday s); s_streak := Some (streak s);
     s_itemsRecycled := Some (itemsRecycled s);
     s_pendingPoints := Some (pendingPoints s) |}.

Definition saveGuestData (deviceId : string) (newStats : UserStats)
    (newHistory : list WasteItem) (ls : gmap string LSValue) : gmap string LSValue :=
  <[guest_key GUEST_HISTORY_KEY deviceId := JHistory newHistory]>
    (<[guest_key GUEST_STATS_KEY deviceId := JStats (toStored newStats)]> ls).

(** Check for level up and trigger the animation. *)
Definition checkLevelUp (oldLevel newLevel : Z) (h : Hook) : Hook :=
  if newLevel >? oldLevel then setShowLevelUp true h else h.

(** The row [scanWithImage] inserts. *)
Definition scan_row_of_result (uid : string) (result : ClassificationResult)
    (st : ScanStatus) (ai : option string) (img : option string) : scan_history.row :=
  {| scan_history.user_id := uid;
     scan_history.item_name := r_name result;
     scan_history.category := r_category result;
     scan_history.points := r_points result;
     scan_history.base_points := Some (r_points result);
     scan_history.final_points := Some (r_points result);
     scan_history.status := Some st;
     scan_history.disposal_choice := None;
     scan_history.image_url := img;
     scan_history.ai_suggestion := ai |}.

(** services/imageStorage.ts, [uploadScanImage]: the public URL of the
    object stored in the bucket, or null. *)
Definition uploadScanImage (env : Env) (w : World) : option string * World :=
  match uploadedUrl env with
  | Some url => (Some url, with_scan_images (fun objects => objects ++ [url])%list w)
  | None => (None, w)
  end.

Definition scanWithImage (env : Env) (auth : AuthContext)
    (result : ClassificationResult) (h : Hook) (w : World) : Hook * World :=
  let h := setShowReward false h in
  let category := categoryInfo (r_category result) in
  let needsChoice := Waste.needsChoice category in
  (* upload the image to the storage (for authenticated users) *)
  let '(storedImageUrl, w) :=
    match user auth with
    | Some _ => uploadScanImage env w
    | None => (None, w)
    end in
  let initialStatus : ScanStatus :=
    if bool_decide (r_category result = other) then approved else pending in
  let newItem : WasteItem :=
    {| id := now env;
       name := r_name result;
       category := r_category result;
       points := r_points result;
       imageUrl := storedImageUrl;
       status := initialStatus;
       basePoints := r_points result;
       finalPoints := r_points result;
       aiSuggestion := r_aiSuggestion result;
       disposalChoice := if needsChoice then None else Some discard;
       hasCreativePotential := r_hasCreativePotential result;
       creativeSuggestion := r_creativeSuggestion result;
       isHuman := r_isHuman result;
       isRetry := r_isRetry result |} in
  if r_isRetry result then
    (* unidentified: just show the result without saving *)
    (setLastScannedItem (Some newItem) h, w)
  else
    let '(h, w) :=
      if negb needsChoice then
        if bool_decide (r_category result = other) then
          let newPoints := totalPoints (stats h) + r_points result in
          let newLevel := calculateLevel newPoints in
          let oldLevel := level (stats h) in
          let newStats : UserStats :=
            {| totalPoints := newPoints;
               level := newLevel;
               scansToday := scansToday (stats h) + 1;
               streak := streak (stats h);
               itemsRecycled := itemsRecycled (stats h) + 1;
               pendingPoints := pendingPoints (stats h) |} in
          let newHistory := newItem :: scanHistory h in
          let w :=
            if isGuest auth then
              with_localStorage (saveGuestData (deviceId auth) newStats newHistory) w
            else
              match user auth with
              | Some uid =>
                  let w := with_db (with_scan_history
                             (insert_row (reply env "scan_history.insert") (uuid env 0)
                                (scan_row_of_result uid result approved
                                   (r_aiSuggestion result) storedImageUrl))) w in
                  with_db (with_profiles
                    (update_by_id (reply env "profiles.update") uid
                       (fun p => {| profiles.total_points := newPoints;
                                    profiles.level := newLevel;
                                    profiles.streak := profiles.streak p;
                                    profiles.items_recycled := itemsRecycled (stats h) + 1;
                                    profiles.username := profiles.username p |}))) w
              | None => w
              end in
          (checkLevelUp oldLevel newLevel (setStats newStats (setScanHistory newHistory h)), w)
        else
          (* creative material: pending status *)
          let newStats : UserStats :=
            {| totalPoints := totalPoints (stats h);
               level := level (stats h);
               scansToday := scansToday (stats h) + 1;
               streak := streak (stats h);
               itemsRecycled := itemsRecycled (stats h);
               pendingPoints := pendingPoints (stats h) + r_points result |} in
          let newHistory := newItem :: scanHistory h in
          let w :=
            if isGuest auth then
              with_localStorage (saveGuestData (deviceId auth) newStats newHistory) w
            else
              match user auth with
              | Some uid =>
                  with_db (with_scan_history
                    (insert_row (reply env "scan_history.insert") (uuid env 0)
                       (scan_row_of_result uid result pending None storedImageUrl))) w
              | None => w
              end in
          (setStats newStats (setScanHistory newHistory h), w)
      else (h, w) in
    (setShowReward true (setLastScannedItem (Some newItem) h), w).

(** [WasteCategory] values are the strings of the same name. *)
Definition category_name (c : WasteCategory) : string :=
  match c with
  | clothing => "clothing"
  | electronics => "electronics"
  | compost => "compost"
  | recyclable => "recyclable"
  | hazardous => "hazardous"
  | other => "other"
  end.

(** [updatedItem.aiSuggestion || `A ${category} item in good condition.`] *)
Definition draft_description (item : WasteItem) : string :=
  match aiSuggestion item with
  | Some s =>
      if Js.truthy s then s
      else String.append "A " (String.append (category_name (category item)) " item in good condition.")
  | None =>
      String.append "A " (String.append (category_name (category item)) " item in good condition.")
  end.

Definition handleDisposalChoice (env : Env) (auth : AuthContext)
    (choice : DisposalChoice) (h : Hook) (w : World) : Hook * World * option bool :=
  match lastScannedItem h with
  | None => (h, w, None)
  | Some item =>
      let choiceConfig := findChoice (category item) choice in
      let multiplier := Js.or_mult (option_map pointsMultiplier choiceConfig) 1 in
      let finalPoints := Js.Math_round (inject_Z (basePoints item) * multiplier) in
      (* DISCARD = auto-approved, add points immediately *)
      let isDiscard := bool_decide (choice = discard) in
      let isTrade := bool_decide (choice = trade) in
      let status : ScanStatus := if isDiscard then approved else pending in
      let updatedItem : WasteItem :=
        {| id := id item;
           name := name item;
           category := category item;
           points := points item;
           imageUrl := imageUrl item;
           status := status;
           disposalChoice := Some choice;
           basePoints := basePoints item;
           finalPoints := finalPoints;
           aiSuggestion := aiSuggestion item;
           hasCreativePotential := hasCreativePotential item;
           creativeSuggestion := creativeSuggestion item;
           isHuman := isHuman item;
           isRetry := isRetry item |} in
      let oldLevel := level (stats h) in
      let '(newStats, h) :=
        if isDiscard then
          let newPoints := totalPoints (stats h) + finalPoints in
          let newLevel := calculateLevel newPoints in
          ({| totalPoints := newPoints;
              level := newLevel;
              scansToday := scansToday (stats h) + 1;
              streak := streak (stats h);
              itemsRecycled := itemsRecycled (stats h) + 1;
              pendingPoints := pendingPoints (stats h) |},
           checkLevelUp oldLevel newLevel h)
        else
          ({| totalPoints := totalPoints (stats h);
              level := level (stats h);
              scansToday := scansToday (stats h) + 1;
              streak := streak (stats h);
              itemsRecycled := itemsRecycled (stats h);
              pendingPoints := pendingPoints (stats h) + finalPoints |},
           h) in
      let newHistory := updatedItem :: scanHistory h in
      let w :=
        if isGuest auth then
          with_localStorage (saveGuestData (deviceId auth) newStats newHistory) w
        else
          match user auth with
          | Some uid =>
              (* insert the scan history record *)
              let r_scan := reply env "scan_history.insert" in
              let scanRecord : option string :=
                match r_scan with ok => Some (uuid env 0) | _ => None end in
              let w := with_db (with_scan_history
                         (insert_row r_scan (uuid env 0)
                            {| scan_history.user_id := uid;
                               scan_history.item_name := name updatedItem;
                               scan_history.category := category updatedItem;
                               scan_history.points := points updatedItem;
                               scan_history.base_points := Some (basePoints updatedItem);
                               scan_history.final_points := Some finalPoints;
                               scan_history.status := Some status;
                               scan_history.disposal_choice := Some choice;
                               scan_history.image_url := imageUrl updatedItem;
                               scan_history.ai_suggestion := aiSuggestion updatedItem |})) w in
              let w :=
                if isDiscard then
                  with_db (with_profiles
                    (update_by_id (reply env "profiles.update") uid
                       (fun p => {| profiles.total_points := totalPoints newStats;
                                    profiles.level := level newStats;
                                    profiles.streak := profiles.streak p;
                                    profiles.items_recycled := itemsRecycled newStats;
                                    profiles.username := profiles.username p |}))) w
                else w in
              (* TRADE: create a draft listing for the user to edit *)
              match isTrade, scanRecord with
              | true, Some scan_id =>
                  with_db (with_marketplace_listings
                    (insert_row (reply env "marketplace_listings.insert") (uuid env 1)
                       {| marketplace_listings.seller_id := uid;
                          marketplace_listings.scan_id := Some scan_id;
                          marketplace_listings.title := name updatedItem;
                          marketplace_listings.description := Some (draft_description updatedItem);
                          marketplace_listings.image_url := imageUrl updatedItem;
                          marketplace_listings.category := category_name (category updatedItem);
                          marketplace_listings.price_points := finalPoints * 2;
                          marketplace_listings.status := Market.ListingStatus.draft |})) w
              | _, _ => w
              end
          | None => w
          end in
      (setStats newStats (setScanHistory newHistory (setLastScannedItem (Some updatedItem) h)),
       w, Some isTrade)
  end.

(** [if (saved)] on what [localStorage.getItem] returned. *)
Definition saved (v : option LSValue) : bool :=
  match v with
  | None => false
  | Some (JText s) => Js.truthy s
  | Some _ => true
  end.

(** [{ ...defaultStats, ...parsed }]: a field the stored object has wins. *)
Definition spread_stats (parsed : StoredStats) : UserStats :=
  {| totalPoints := default (totalPoints defaultStats) (s_totalPoints parsed);
     level := default (level defaultStats) (s_level parsed);
     scansToday := default (scansToday defaultStats) (s_scansToday parsed);
     streak := default (streak defaultStats) (s_streak parsed);
     itemsRecycled := default (itemsRecycled defaultStats) (s_itemsRecycled parsed);
     pendingPoints := default (pendingPoints defaultStats) (s_pendingPoints parsed) |}.

(** [parsed.scansToday = 0] *)
Definition reset_scansToday (parsed : StoredStats) : StoredStats :=
  {| s_totalPoints := s_totalPoints parsed; s_level := s_level parsed;
     s_scansToday := Some 0; s_streak := s_streak parsed;
     s_itemsRecycled := s_itemsRecycled parsed;
     s_pendingPoints := s_pendingPoints parsed |}.

(** The stats [loadGuestData] sets from the stored text; [None] when reading
    it throws.  [storedToday] tells whether the [lastScanDate] kept with the
    stats is today's date; an array has no such field. *)
Definition load_stats (storedToday : bool) (v : LSValue) : option UserStats :=
  match v with
  | JStats parsed =>
      Some (spread_stats (if storedToday then parsed else reset_scansToday parsed))
  | JHistory _ =>
      Some (spread_stats (reset_scansToday
              {| s_totalPoints := None; s_level := None; s_scansToday := None;
                 s_streak := None; s_itemsRecycled := None; s_pendingPoints := None |}))
  | JNull => None
  | JText _ => None
  end.

(** One stored item as [loadGuestData] maps it (an item of this model always
    carries a status, so [item.status || 'pending'] is its status). *)
Definition load_item (item : WasteItem) : WasteItem :=
  {| id := id item;
     name := name item;
     category := category item;
     points := points item;
     imageUrl := imageUrl item;
     status := status item;
     disposalChoice := disposalChoice item;
     basePoints := Js.or_num (basePoints item) (points item);
     finalPoints := Js.or_num (finalPoints item) (points item);
     aiSuggestion := aiSuggestion item;
     hasCreativePotential := hasCreativePotential item;
     creativeSuggestion := creativeSuggestion item;
     isHuman := isHuman item;
     isRetry := isRetry item |}.

(** The history [loadGuestData] sets; [None] when reading it throws (only an
    array has [map]). *)
Definition load_history (v : LSValue) : option (list WasteItem) :=
  match v with
  | JHistory parsed => Some (List.map load_item parsed)
  | _ => None
  end.

Definition loadGuestData (storedToday : bool) (deviceId : string)
    (ls : gmap string LSValue) (h : Hook) : Hook :=
  let savedStats := ls !! guest_key GUEST_STATS_KEY deviceId in
  let savedHistory := ls !! guest_key GUEST_HISTORY_KEY deviceId in
  let step1 : option Hook :=
    if saved savedStats then
      match savedStats ≫= load_stats storedToday with
      | Some s => Some (setStats s h)
      | None => None
      end
    else Some h in
  match step1 with
  | None => h                      (* caught: nothing was set *)
  | Some h1 =>
      if saved savedHistory then
        match savedHistory ≫= load_history with
        | Some l => setScanHistory l h1
        | None => h1               (* caught after the stats were set *)
        end
      else h1
  end.

Definition clearLastScan (h : Hook) : Hook := setLastScannedItem None h.

End useWasteScanner.

(* ===================================================================== *)
(** ** try blocks over the store *)
(* ===================================================================== *)

Module Try.
Import Store.

(** The body of a [try]: it threads the tables and either finishes with a
    value or throws ([None]); what was written before the throw stays. *)
Definition M (A : Type) : Type := Db -> Db * option A.

Definition ret {A : Type} (a : A) : M A := fun d => (d, Some a).

Definition throw {A : Type} : M A := fun d => (d, None).

Definition bind {A B : Type} (c : M A) (k : A -> M B) : M B :=
  fun d =>
    match c d with
    | (d', Some a) => k a d'
    | (d', None) => (d', None)
    end.

(** A write to the store. *)
Definition write (f : Db -> Db) : M unit := fun d => (f d, Some tt).

(** A read of the store. *)
Definition read {A : Type} (f : Db -> A) : M A := fun d => (d, Some (f d)).

(** [if (c) throw ...] *)
Definition throw_if (c : bool) : M unit := if c then throw else ret tt.

Module Notations.
Notation "x <- c ;; k" := (bind c (fun x => k))
  (at level 100, c at next level, right associativity).
Notation "c ;;; k" := (bind c (fun _ => k))
  (at level 100, right associativity).
End Notations.

End Try.

(* ===================================================================== *)
(** ** hooks/useMarketplace.ts *)
(* ===================================================================== *)

Module useMarketplace.
Import Store Market Try Try.Notations.

(** The toasts of [purchaseListing]. *)
Inductive Toast :=
| toast_login                       (* 'Please login to purchase' *)
| toast_own_listing                 (* 'Cannot purchase your own listing' *)
| toast_insufficient (missing : Z)  (* 'Insufficient Points', 'You need N more points' *)
| toast_complete (spent : Z)        (* 'Purchase Complete!', 'You spent N points' *)
| toast_failed.                     (* 'Purchase failed' *)

(** The [try] block of [purchaseListing]. *)
Definition purchase_try (env : Env) (uid : string) (listing : MarketplaceListing)
    (buyerPoints : Z) : M unit :=
  (* create order *)
  write (with_orders (append_row (reply env "orders.insert")
           {| orders.listing_id := id listing;
              orders.buyer_id := uid;
              orders.seller_id := sellerId listing;
              orders.price_points := pricePoints listing;
              orders.status := OrderStatus.pending |})) ;;;
  throw_if (errored (reply env "orders.insert")) ;;;
  (* update listing status to sold *)
  write (with_marketplace_listings
           (update_by_id (reply env "marketplace_listings.update") (id listing)
              (fun l => {| marketplace_listings.seller_id := marketplace_listings.seller_id l;
                           marketplace_listings.scan_id := marketplace_listings.scan_id l;
                           marketplace_listings.title := marketplace_listings.title l;
                           marketplace_listings.description := marketplace_listings.description l;
                           marketplace_listings.image_url := marketplace_listings.image_url l;
                           marketplace_listings.category := marketplace_listings.category l;
                           marketplace_listings.price_points := marketplace_listings.price_points l;
                           marketplace_listings.status := ListingStatus.sold |}))) ;;;
  throw_if (errored (reply env "marketplace_listings.update")) ;;;
  (* deduct points from buyer *)
  write (with_profiles
           (update_by_id (reply env "profiles.update:buyer") uid
              (fun p => {| profiles.total_points := buyerPoints - pricePoints listing;
                           profiles.level := profiles.level p;
                           profiles.streak := profiles.streak p;
                           profiles.items_recycled := profiles.items_recycled p;
                           profiles.username := profiles.username p |}))) ;;;
  throw_if (errored (reply env "profiles.update:buyer")) ;;;
  (* add points to seller *)
  sellerProfile <- read (fun d => select_by_id (reply env "profiles.select:seller")
                                    (sellerId listing) (t_profiles d)) ;;
  match sellerProfile with
  | Some sp =>
      write (with_profiles
               (update_by_id (reply env "profiles.update:seller") (sellerId listing)
                  (fun p => {| profiles.total_points :=
                                 Js.or_num (profiles.total_points sp) 0 + pricePoints listing;
                               profiles.level := profiles.level p;
                               profiles.streak := profiles.streak p;
                               profiles.items_recycled := profiles.items_recycled p;
                               profiles.username := profiles.username p |})))
  | None => ret tt
  end ;;;
  (* (the buyer's username is read here, for the text of the notification) *)
  (* notification to the seller about the sale *)
  write (with_system_notifications (append_row (reply env "system_notifications.insert")
           {| system_notifications.title := "🎉 Your item sold!";
              system_notifications.type := "reward";
              system_notifications.target_user_id := sellerId listing |})) ;;;
  (* initial message from buyer to seller *)
  write (with_messages (append_row (reply env "messages.insert")
           {| messages.sender_id := uid;
              messages.receiver_id := sellerId listing;
              messages.listing_id := id listing |})).

Definition purchaseListing (env : Env) (user : option string)
    (listing : MarketplaceListing) (buyerPoints : Z) (d : Db) : Db * bool * Toast :=
  match user with
  | None => (d, false, toast_login)
  | Some uid =>
      if bool_decide (sellerId listing = uid) then
        (d, false, toast_own_listing)
      else if buyerPoints <? pricePoints listing then
        (d, false, toast_insufficient (pricePoints listing - buyerPoints))
      else
        match purchase_try env uid listing buyerPoints d with
        | (d', Some _) =>
            (* the listings and orders held by the hook are fetched again *)
            (d', true, toast_complete (pricePoints listing))
        | (d', None) => (d', false, toast_failed)
        end
  end.

(** The argument of [createListing]. *)
Record NewListing := {
  n_title : string;
  n_description : option string;
  n_imageUrl : option string;
  n_category : string;
  n_pricePoints : Z;
  n_scanId : option string
}.

(** Create a new listing: directly published, no review.  Returns the id of
    the row, or null. *)
Definition createListing (env : Env) (user : option string) (listing : NewListing) (d : Db)
    : Db * option string :=
  match user with
  | None => (d, None)              (* 'Please login to create listings' *)
  | Some uid =>
      match reply env "marketplace_listings.insert" with
      | ok =>
          (with_marketplace_listings
             (insert_row ok (uuid env 0)
                {| marketplace_listings.seller_id := uid;
                   marketplace_listings.scan_id := n_scanId listing;
                   marketplace_listings.title := n_title listing;
                   marketplace_listings.description := n_description listing;
                   marketplace_listings.image_url := n_imageUrl listing;
                   marketplace_listings.category := n_category listing;
                   marketplace_listings.price_points := n_pricePoints listing;
                   marketplace_listings.status := ListingStatus.active |}) d,
           Some (uuid env 0))
      | _ => (d, None)             (* [error], or no row for [.single()]: 'Failed to create listing' *)
      end
  end.

(** The fields of [Partial<MarketplaceListing>] that [updateListing] sends; an
    undefined one is not part of the update. *)
Record ListingUpdates := {
  u_title : option string;
  u_description : option string;
  u_pricePoints : option Z
}.

Definition apply_updates (updates : ListingUpdates) (l : marketplace_listings.row)
    : marketplace_listings.row :=
  {| marketplace_listings.seller_id := marketplace_listings.seller_id l;
     marketplace_listings.scan_id := marketplace_listings.scan_id l;
     marketplace_listings.title := default (marketplace_listings.title l) (u_title updates);
     marketplace_listings.description :=
       match u_description updates with
       | Some x => Some x
       | None => marketplace_listings.description l
       end;
     marketplace_listings.image_url := marketplace_listings.image_url l;
     marketplace_listings.category := marketplace_listings.category l;
     marketplace_listings.price_points :=
       default (marketplace_listings.price_points l) (u_pricePoints updates);
     marketplace_listings.status := marketplace_listings.status l |}.

(** [.eq('seller_id', user.id)] *)
Definition sold_by (uid : string) (l : marketplace_listings.row) : bool :=
  bool_decide (marketplace_listings.seller_id l = uid).

Definition updateListing (env : Env) (user : option string) (id : string)
    (updates : ListingUpdates) (d : Db) : Db * bool :=
  match user with
  | None => (d, false)
  | Some uid =>
      let r := reply env "marketplace_listings.update" in
      if errored r then (d, false)   (* 'Failed to update listing' *)
      else
        (with_marketplace_listings
           (update_by_id_where r id (sold_by uid) (apply_updates updates)) d,
         true)                        (* 'Listing updated!' *)
  end.

Definition cancel_row (l : marketplace_listings.row) : marketplace_listings.row :=
  {| marketplace_listings.seller_id := marketplace_listings.seller_id l;
     marketplace_listings.scan_id := marketplace_listings.scan_id l;
     marketplace_listings.title := marketplace_listings.title l;
     marketplace_listings.description := marketplace_listings.description l;
     marketplace_listings.image_url := marketplace_listings.image_url l;
     marketplace_listings.category := marketplace_listings.category l;
     marketplace_listings.price_points := marketplace_listings.price_points l;
     marketplace_listings.status := ListingStatus.cancelled |}.

Definition cancelListing (env : Env) (user : option string) (id : string) (d : Db)
    : Db * bool :=
  match user with
  | None => (d, false)
  | Some uid =>
      let r := reply env "marketplace_listings.update" in
      if errored r then (d, false)   (* 'Failed to cancel listing' *)
      else
        (with_marketplace_listings
           (update_by_id_where r id (sold_by uid) cancel_row) d,
         true)                        (* 'Listing cancelled' *)
  end.

(** A row as the hook maps it to a [MarketplaceListing]. *)
Definition listing_of_row (id : string) (l : marketplace_listings.row) : MarketplaceListing :=
  {| Market.id := id;
     sellerId := marketplace_listings.seller_id l;
     scanId := marketplace_listings.scan_id l;
     title := marketplace_listings.title l;
     description := marketplace_listings.description l;
     imageUrl := marketplace_listings.image_url l;
     category := marketplace_listings.category l;
     pricePoints := marketplace_listings.price_points l;
     status := marketplace_listings.status l |}.

(** Fetch all active listings: what [setListings] receives, by id (the order,
    by creation date, and the seller names joined in are left out); [None]
    when the query fails and the listings held are kept. *)
Definition fetchListings (env : Env) (d : Db) : option (gmap string MarketplaceListing) :=
  match reply env "marketplace_listings.select" with
  | ok =>
      Some (map_imap
              (fun id l =>
                 if bool_decide (marketplace_listings.status l = ListingStatus.active)
                 then Some (listing_of_row id l) else None)
              (t_marketplace_listings d))
  | blocked => Some ∅
  | failed => None
  end.

(** The orders recorded for a listing. *)
Definition orders_for (listing_id : string) (d : Db) : list orders.row :=
  List.filter (fun o => bool_decide (orders.listing_id o = listing_id)) (t_orders d).

(** Two states of the store agree on the level of every profile. *)
Definition same_levels (d d' : Db) : Prop :=
  forall k, profiles.level <$> t_profiles d' !! k = profiles.level <$> t_profiles d !! k.

(** What a purchase may do to a row of the listings: nothing, or, for the
    listing bought, set its status to sold. *)
Definition listing_kept (lid k : string) (o o' : option marketplace_listings.row) : Prop :=
  match o, o' with
  | Some l, Some l' =>
      marketplace_listings.seller_id l' = marketplace_listings.seller_id l /\
      marketplace_listings.scan_id l' = marketplace_listings.scan_id l /\
      marketplace_listings.title l' = marketplace_listings.title l /\
      marketplace_listings.description l' = marketplace_listings.description l /\
      marketplace_listings.image_url l' = marketplace_listings.image_url l /\
      marketplace_listings.category l' = marketplace_listings.category l /\
      marketplace_listings.price_points l' = marketplace_listings.price_points l /\
      (marketplace_listings.status l' = marketplace_listings.status l \/
       (k = lid /\ marketplace_listings.status l' = ListingStatus.sold))
  | None, None => True
  | _, _ => False
  end.

(** What a purchase by [uid] leaves alone, between two states of the store. *)
Definition purchase_frame (uid : string) (listing : MarketplaceListing) (d d' : Db) : Prop :=
  t_scan_history d' = t_scan_history d /\
  (forall k, listing_kept (id listing) k
               (t_marketplace_listings d !! k) (t_marketplace_listings d' !! k)) /\
  (forall k, k <> uid -> k <> sellerId listing -> t_profiles d' !! k = t_profiles d !! k) /\
  (forall k, is_Some (t_profiles d' !! k) <-> is_Some (t_profiles d !! k)) /\
  (exists l, t_orders d' = (t_orders d ++ l)%list) /\
  (exists l, t_system_notifications d' = (t_system_notifications d ++ l)%list) /\
  (exists l, t_messages d' = (t_messages d ++ l)%list).

End useMarketplace.

(* ===================================================================== *)
(** ** components/admin/PendingScansTab.tsx *)
(* ===================================================================== *)

Module PendingScansTab.
Import Store Try Try.Notations.

Record PendingScan := {
  id : string;
  user_id : string;
  item_name : string;
  category : Waste.WasteCategory;
  points : Z;
  base_points : Z;
  final_points : Z;
  status : Waste.ScanStatus;
  disposal_choice : option Waste.DisposalChoice;
  image_url : option string;
  username : option string
}.

(** The React state of the tab. *)
Record Panel := {
  processing : bool;
  selectedScan : option PendingScan
}.

Definition setProcessing (b : bool) (p : Panel) : Panel :=
  {| processing := b; selectedScan := selectedScan p |}.

Definition setSelectedScan (s : option PendingScan) (p : Panel) : Panel :=
  {| processing := processing p; selectedScan := s |}.

Inductive Toast :=
| toast_trade_approved   (* 'Scan Approved' for a trade item *)
| toast_approved         (* 'Approved', '<user> earned N pts' *)
| toast_rejected         (* 'Rejected' *)
| toast_action_failed.   (* 'Action Failed' *)

Definition set_scan_status (s : Waste.ScanStatus) (r : scan_history.row) : scan_history.row :=
  {| scan_history.user_id := scan_history.user_id r;
     scan_history.item_name := scan_history.item_name r;
     scan_history.category := scan_history.category r;
     scan_history.points := scan_history.points r;
     scan_history.base_points := scan_history.base_points r;
     scan_history.final_points := scan_history.final_points r;
     scan_history.status := Some s;
     scan_history.disposal_choice := scan_history.disposal_choice r;
     scan_history.image_url := scan_history.image_url r;
     scan_history.ai_suggestion := scan_history.ai_suggestion r |}.

(** [.select('id').eq('scan_id', sid).limit(1).maybeSingle()] *)
Definition listing_for_scan (r : Reply) (sid : string)
    (t : gmap string marketplace_listings.row) : option string :=
  match r with
  | ok =>
      fst <$> List.find (fun kv => bool_decide (marketplace_listings.scan_id (snd kv) = Some sid))
                (map_to_list t)
  | _ => None
  end.

(** Step 1 of [handleApprove]: update the scan status. *)
Definition approve_status (env : Env) (scan : PendingScan) : M unit :=
  rows <- read (fun d => rows_updated (reply env "scan_history.update") (id scan)
                            (t_scan_history d)) ;;
  write (with_scan_history
           (update_by_id (reply env "scan_history.update") (id scan)
              (set_scan_status Waste.approved))) ;;;
  throw_if (errored (reply env "scan_history.update")) ;;;
  throw_if (Nat.eqb rows 0).

(** Steps 1.5 to 3 of [handleApprove], run once [statusUpdated] is true. *)
Definition approve_rest (env : Env) (scan : PendingScan) : M unit :=
  (* 1.5 Trade: ensure a draft listing exists for this scan *)
  (if bool_decide (disposal_choice scan = Some Waste.trade) then
     existingListing <- read (fun d => listing_for_scan (reply env "marketplace_listings.select")
                                         (id scan) (t_marketplace_listings d)) ;;
     throw_if (errored (reply env "marketplace_listings.select")) ;;;
     match existingListing with
     | Some _ => ret tt
     | None =>
         write (with_marketplace_listings
                  (insert_row (reply env "marketplace_listings.insert") (uuid env 0)
                     {| marketplace_listings.seller_id := user_id scan;
                        marketplace_listings.scan_id := Some (id scan);
                        marketplace_listings.title := item_name scan;
                        marketplace_listings.description :=
                          Some (String.append "Item scanned for trade: " (item_name scan));
                        marketplace_listings.image_url := image_url scan;
                        marketplace_listings.category :=
                          useWasteScanner.category_name (category scan);
                        marketplace_listings.price_points := final_points scan;
                        marketplace_listings.status := Market.ListingStatus.draft |})) ;;;
         throw_if (errored (reply env "marketplace_listings.insert")) ;;;
         throw_if (Nat.eqb (rows_inserted (reply env "marketplace_listings.insert")) 0)
     end
   else ret tt) ;;;
  (* 2. Update user points and level *)
  profile <- read (fun d => select_by_id (reply env "profiles.select") (user_id scan)
                              (t_profiles d)) ;;
  match profile with
  | Some pr =>
      let newPoints := Js.or_num (profiles.total_points pr) 0 + final_points scan in
      let newLevel := newPoints / 100 + 1 in
      rows <- read (fun d => rows_updated (reply env "profiles.update") (user_id scan)
                                (t_profiles d)) ;;
      write (with_profiles
               (update_by_id (reply env "profiles.update") (user_id scan)
                  (fun p => {| profiles.total_points := newPoints;
                               profiles.level := newLevel;
                               profiles.streak := profiles.streak p;
                               profiles.items_recycled :=
                                 Js.or_num (profiles.items_recycled pr) 0 + 1;
                               profiles.username := profiles.username p |}))) ;;;
      throw_if (errored (reply env "profiles.update")) ;;;
      throw_if (Nat.eqb rows 0)
  | None => ret tt
  end ;;;
  (* 3. Send notification to user *)
  write (with_system_notifications (append_row (reply env "system_notifications.insert")
           {| system_notifications.title := "Scan Approved! 🎉";
              system_notifications.type := "reward";
              system_notifications.target_user_id := user_id scan |})) ;;;
  throw_if (errored (reply env "system_notifications.insert")) ;;;
  throw_if (Nat.eqb (rows_inserted (reply env "system_notifications.insert")) 0).

(** Best-effort rollback to keep the item pending. *)
Definition rollback_status (env : Env) (scan : PendingScan) (d : Db) : Db :=
  with_scan_history
    (update_by_id (reply env "scan_history.rollback") (id scan)
       (set_scan_status Waste.pending)) d.

(** [handleApprove] after [setProcessing(true)], with its catch and finally. *)
Definition handleApprove_run (env : Env) (scan : PendingScan) (p : Panel) (d : Db)
    : Panel * Db * Toast :=
  match approve_status env scan d with
  | (d1, None) => (setProcessing false p, d1, toast_action_failed)
  | (d1, Some _) =>
      match approve_rest env scan d1 with
      | (d2, Some _) =>
          (setProcessing false (setSelectedScan None p), d2,
           if bool_decide (disposal_choice scan = Some Waste.trade)
           then toast_trade_approved else toast_approved)
      | (d2, None) =>
          (setProcessing false p, rollback_status env scan d2, toast_action_failed)
      end
  end.

Definition handleApprove (env : Env) (scan : PendingScan) (p : Panel) (d : Db)
    : Panel * Db * option Toast :=
  if processing p then (p, d, None)
  else
    let '(p', d', t) := handleApprove_run env scan (setProcessing true p) d in
    (p', d', Some t).

Definition reject_status (env : Env) (scan : PendingScan) : M unit :=
  rows <- read (fun d => rows_updated (reply env "scan_history.update") (id scan)
                            (t_scan_history d)) ;;
  write (with_scan_history
           (update_by_id (reply env "scan_history.update") (id scan)
              (set_scan_status Waste.rejected))) ;;;
  throw_if (errored (reply env "scan_history.update")) ;;;
  throw_if (Nat.eqb rows 0).

Definition reject_rest (env : Env) (scan : PendingScan) : M unit :=
  write (with_system_notifications (append_row (reply env "system_notifications.insert")
           {| system_notifications.title := "Scan Rejected";
              system_notifications.type := "alert";
              system_notifications.target_user_id := user_id scan |})) ;;;
  throw_if (errored (reply env "system_notifications.insert")) ;;;
  throw_if (Nat.eqb (rows_inserted (reply env "system_notifications.insert")) 0).

Definition handleReject_run (env : Env) (scan : PendingScan) (p : Panel) (d : Db)
    : Panel * Db * Toast :=
  match reject_status env scan d with
  | (d1, None) => (setProcessing false p, d1, toast_action_failed)
  | (d1, Some _) =>
      match reject_rest env scan d1 with
      | (d2, Some _) =>
          (setProcessing false (setSelectedScan None p), d2, toast_rejected)
      | (d2, None) =>
          (setProcessing false p, rollback_status env scan d2, toast_action_failed)
      end
  end.

Definition handleReject (env : Env) (scan : PendingScan) (p : Panel) (d : Db)
    : Panel * Db * option Toast :=
  if processing p then (p, d, None)
  else
    let '(p', d', t) := handleReject_run env scan (setProcessing true p) d in
    (p', d', Some t).

End PendingScansTab.

(* ===================================================================== *)
(** ** components/admin/PendingListingsTab.tsx *)
(* ===================================================================== *)

Module PendingListingsTab.
Import Store Try Try.Notations.

(** The fields of a pending listing that the handlers read. *)
Record PendingListing := {
  id : string;
  seller_id : string;
  title : string;
  price_points : Z;
  status : string
}.

Record Panel := {
  processing : bool;
  selectedListing : option PendingListing
}.

Definition setProcessing (b : bool) (p : Panel) : Panel :=
  {| processing := b; selectedListing := selectedListing p |}.

Definition setSelectedListing (s : option PendingListing) (p : Panel) : Panel :=
  {| processing := processing p; selectedListing := s |}.

Inductive Toast :=
| toast_approved        (* 'Approved', '"<title>" is now live' *)
| toast_rejected        (* 'Rejected' *)
| toast_action_failed.  (* 'Action Failed' *)

Definition set_listing_status (s : Market.ListingStatus.t) (l : marketplace_listings.row)
    : marketplace_listings.row :=
  {| marketplace_listings.seller_id := marketplace_listings.seller_id l;
     marketplace_listings.scan_id := marketplace_listings.scan_id l;
     marketplace_listings.title := marketplace_listings.title l;
     marketplace_listings.description := marketplace_listings.description l;
     marketplace_listings.image_url := marketplace_listings.image_url l;
     marketplace_listings.category := marketplace_listings.category l;
     marketplace_listings.price_points := marketplace_listings.price_points l;
     marketplace_listings.status := s |}.

(** The status update that opens both handlers. *)
Definition review_status (env : Env) (listing : PendingListing)
    (s : Market.ListingStatus.t) : M unit :=
  rows <- read (fun d => rows_updated (reply env "marketplace_listings.update") (id listing)
                            (t_marketplace_listings d)) ;;
  write (with_marketplace_listings
           (update_by_id (reply env "marketplace_listings.update") (id listing)
              (set_listing_status s))) ;;;
  throw_if (errored (reply env "marketplace_listings.update")) ;;;
  throw_if (Nat.eqb rows 0).

(** The notification to the seller that follows it. *)
Definition review_notify (env : Env) (listing : PendingListing) (ttl kind : string) : M unit :=
  write (with_system_notifications (append_row (reply env "system_notifications.insert")
           {| system_notifications.title := ttl;
              system_notifications.type := kind;
              system_notifications.target_user_id := seller_id listing |})) ;;;
  throw_if (errored (reply env "system_notifications.insert")) ;;;
  throw_if (Nat.eqb (rows_inserted (reply env "system_notifications.insert")) 0).

(** Best-effort rollback if the downstream step fails. *)
Definition rollback_status (env : Env) (listing : PendingListing) (d : Db) : Db :=
  with_marketplace_listings
    (update_by_id (reply env "marketplace_listings.rollback") (id listing)
       (set_listing_status Market.ListingStatus.pending_review)) d.

Definition handleApprove_run (env : Env) (listing : PendingListing) (p : Panel) (d : Db)
    : Panel * Db * Toast :=
  match review_status env listing Market.ListingStatus.active d with
  | (d1, None) => (setProcessing false p, d1, toast_action_failed)
  | (d1, Some _) =>
      match review_notify env listing "Listing Approved! 🎉" "reward" d1 with
      | (d2, Some _) =>
          (setProcessing false (setSelectedListing None p), d2, toast_approved)
      | (d2, None) =>
          (setProcessing false p, rollback_status env listing d2, toast_action_failed)
      end
  end.

Definition handleApprove (env : Env) (listing : PendingListing) (p : Panel) (d : Db)
    : Panel * Db * option Toast :=
  if processing p then (p, d, None)
  else
    let '(p', d', t) := handleApprove_run env listing (setProcessing true p) d in
    (p', d', Some t).

Definition handleReject_run (env : Env) (listing : PendingListing) (p : Panel) (d : Db)
    : Panel * Db * Toast :=
  match review_status env listing Market.ListingStatus.cancelled d with
  | (d1, None) => (setProcessing false p, d1, toast_action_failed)
  | (d1, Some _) =>
      match review_notify env listing "Listing Rejected" "alert" d1 with
      | (d2, Some _) =>
          (setProcessing false (setSelectedListing None p), d2, toast_rejected)
      | (d2, None) =>
          (setProcessing false p, rollback_status env listing d2, toast_action_failed)
      end
  end.

Definition handleReject (env : Env) (listing : PendingListing) (p : Panel) (d : Db)
    : Panel * Db * option Toast :=
  if processing p then (p, d, None)
  else
    let '(p', d', t) := handleReject_run env listing (setProcessing true p) d in
    (p', d', Some t).

(** [ListingStatus] values are the strings of the same name. *)
Definition status_name (s : Market.ListingStatus.t) : string :=
  match s with
  | Market.ListingStatus.draft => "draft"
  | Market.ListingStatus.pending_review => "pending_review"
  | Market.ListingStatus.active => "active"
  | Market.ListingStatus.sold => "sold"
  | Market.ListingStatus.cancelled => "cancelled"
  end.

(** [loadPendingListings]: what [setListings] receives, by id (the order and
    the seller names joined in are left out); [None] when the query fails. *)
Definition loadPendingListings (env : Env) (d : Db) : option (gmap string PendingListing) :=
  match reply env "marketplace_listings.select" with
  | ok =>
      Some (map_imap
              (fun k l =>
                 if bool_decide (marketplace_listings.status l = Market.ListingStatus.pending_review)
                 then Some {| id := k;
                              seller_id := marketplace_listings.seller_id l;
                              title := marketplace_listings.title l;
                              price_points := marketplace_listings.price_points l;
                              status := status_name (marketplace_listings.status l) |}
                 else None)
              (t_marketplace_listings d))
  | blocked => Some ∅
  | failed => None
  end.

End PendingListingsTab.

(* ===================================================================== *)
(** ** pages/Admin.tsx: the queue of pending scans *)
(* ===================================================================== *)

Module Admin.
Import Store.

(** [profileMap.get(item.user_id) || 'Guest'] *)
Definition username_of (profiles_reply : Reply) (uid : string)
    (t : gmap string profiles.row) : string :=
  match select_by_id profiles_reply uid t ≫= profiles.username with
  | Some n => if Js.truthy n then n else "Guest"
  | None => "Guest"
  end.

(** A row as the page hands it to the tab; a null number counts as 0 wherever
    the tab computes with it. *)
Definition pending_scan_of (uname : string) (k : string) (r : scan_history.row)
    : PendingScansTab.PendingScan :=
  {| PendingScansTab.id := k;
     PendingScansTab.user_id := scan_history.user_id r;
     PendingScansTab.item_name := scan_history.item_name r;
     PendingScansTab.category := scan_history.category r;
     PendingScansTab.points := scan_history.points r;
     PendingScansTab.base_points := default 0 (scan_history.base_points r);
     PendingScansTab.final_points := default 0 (scan_history.final_points r);
     PendingScansTab.status := Waste.pending;
     PendingScansTab.disposal_choice := scan_history.disposal_choice r;
     PendingScansTab.image_url := scan_history.image_url r;
     PendingScansTab.username := Some uname |}.

(** [loadPendingScans]: what [setPendingScans] receives, by id (the order, by
    scan date, is left out); [None] when the query fails and the list held is
    kept. *)
Definition loadPendingScans (env : Env) (d : Db)
    : option (gmap string PendingScansTab.PendingScan) :=
  match reply env "scan_history.select" with
  | ok =>
      Some (map_imap
              (fun k r =>
                 if bool_decide (scan_history.status r = Some Waste.pending)
                 then Some (pending_scan_of
                              (username_of (reply env "profiles.select")
                                 (scan_history.user_id r) (t_profiles d)) k r)
                 else None)
              (t_scan_history d))
  | blocked => Some ∅
  | failed => None
  end.

End Admin.

(* ===================================================================== *)
(** ** pages/Auth.tsx: guest migration *)
(* ===================================================================== *)

Module Auth.
Import Store.

Definition GUEST_STATS_KEY : string := "ecoscan_guest_stats".
Definition GUEST_HISTORY_KEY : string := "ecoscan_guest_history".

Definition guest_key (key deviceId : string) : string :=
  String.append key (String.append "_" deviceId).

(** [if (saved)] on what [localStorage.getItem] returned. *)
Definition present (v : option LSValue) : bool :=
  match v with
  | None => false
  | Some (JText s) => Js.truthy s
  | Some _ => true
  end.

Definition no_fields : StoredStats :=
  {| s_totalPoints := None; s_level := None; s_scansToday := None;
     s_streak := None; s_itemsRecycled := None; s_pendingPoints := None |}.

(** [const stats = JSON.parse(savedStats)] followed by the reads of its
    fields; [None] when one of them throws.  An array has none of the fields. *)
Definition parse_stats (v : LSValue) : option StoredStats :=
  match v with
  | JStats s => Some s
  | JHistory _ => Some no_fields
  | JNull => None
  | JText _ => None
  end.

(** [const history = JSON.parse(savedHistory)] followed by [history.map];
    [None] when one of them throws. *)
Definition parse_history (v : LSValue) : option (list Waste.WasteItem) :=
  match v with
  | JHistory h => Some h
  | _ => None
  end.

Definition historyToInsert (userId : string) (history : list Waste.WasteItem)
    : list scan_history.row :=
  List.map (fun item =>
    {| scan_history.user_id := userId;
       scan_history.item_name := Waste.name item;
       scan_history.category := Waste.category item;
       scan_history.points := Waste.points item;
       scan_history.base_points := None;
       scan_history.final_points := None;
       scan_history.status := None;
       scan_history.disposal_choice := None;
       scan_history.image_url := None;
       scan_history.ai_suggestion := None |}) history.

(** [.insert(rows)]: each row under the id the database generates for it. *)
Definition insert_rows {R : Type} (r : Reply) (ids : nat -> string) (rows : list R)
    (t : gmap string R) : gmap string R :=
  match r with
  | ok => list_to_map (imap (fun i x => (ids i, x)) rows) ∪ t
  | _ => t
  end.

(** The [try] block up to the clearing of the guest data; [None] when it throws. *)
Definition migrate_try (env : Env) (deviceId userId : string) (w : World) : World * option unit :=
  let savedStats := localStorage w !! guest_key GUEST_STATS_KEY deviceId in
  let savedHistory := localStorage w !! guest_key GUEST_HISTORY_KEY deviceId in
  let step1 : option World :=
    if present savedStats then
      match savedStats ≫= parse_stats with
      | Some stats =>
          Some (with_db (with_profiles
                  (update_by_id (reply env "profiles.update") userId
                     (fun p => {| profiles.total_points := Js.or_field (s_totalPoints stats) 0;
                                  profiles.level := Js.or_field (s_level stats) 1;
                                  profiles.streak := Js.or_field (s_streak stats) 0;
                                  profiles.items_recycled := Js.or_field (s_itemsRecycled stats) 0;
                                  profiles.username := profiles.username p |}))) w)
      | None => None
      end
    else Some w in
  match step1 with
  | None => (w, None)
  | Some w1 =>
      let step2 : option World :=
        if present savedHistory then
          match savedHistory ≫= parse_history with
          | Some history =>
              let rows := historyToInsert userId history in
              if (0 <? length rows)%nat then
                Some (with_db (with_scan_history
                        (insert_rows (reply env "scan_history.insert") (uuid env) rows)) w1)
              else Some w1
          | None => None
          end
        else Some w1 in
      match step2 with
      | None => (w1, None)
      | Some w2 =>
          (* clear guest data after migration *)
          (with_localStorage
             (fun ls => delete (guest_key GUEST_HISTORY_KEY deviceId)
                          (delete (guest_key GUEST_STATS_KEY deviceId) ls)) w2,
           Some tt)
      end
  end.

Definition migrateGuestData (env : Env) (deviceId userId : string) (w : World) : World * bool :=
  match migrate_try env deviceId userId w with
  | (w', Some _) => (w', true)
  | (w', None) => (w', false)
  end.

End Auth.

(* ===================================================================== *)
(** ** supabase/functions/check-listing-compliance *)
(* ===================================================================== *)

Module Compliance.

Inductive Action := auto_approve | needs_review | auto_reject.

#[global] Instance Action_eq_dec : EqDecision Action.
Proof. solve_decision. Defined.

(** A JSON value where the handler reads a number. *)
Inductive JsValue :=
| JUndefined
| JNull
| JBool (b : bool)
| JNum (printed : string)   (* a number, given by how it prints *)
| JString (s : string).

(** The string a value is turned into. *)
Definition ToString (v : JsValue) : string :=
  match v with
  | JUndefined => "undefined"
  | JNull => "null"
  | JBool true => "true"
  | JBool false => "false"
  | JNum printed => printed
  | JString s => s
  end.

Definition code (c : ascii) : Z := Z.of_nat (nat_of_ascii c).

(** White space (WhiteSpace and LineTerminator of the language) in the UTF-8
    bytes of a string.  One byte: tab, line feed, vertical tab, form feed,
    carriage return and space. *)
Definition is_space (c : ascii) : bool :=
  let n := code c in
  (n =? 32) || ((9 <=? n) && (n <=? 13)).

(** Two bytes: the no-break space U+00A0. *)
Definition is_space2 (a b : ascii) : bool :=
  (code a =? 194) && (code b =? 160).

(** Three bytes: U+1680, U+2000..U+200A, U+2028, U+2029, U+202F, U+205F,
    U+3000 and U+FEFF. *)
Definition is_space3 (a b c : ascii) : bool :=
  let a := code a in
  let b := code b in
  let c := code c in
  ((a =? 225) && (b =? 154) && (c =? 128))
  || ((a =? 226) && (b =? 128)
      && (((128 <=? c) && (c <=? 138)) || (c =? 168) || (c =? 169) || (c =? 175)))
  || ((a =? 226) && (b =? 129) && (c =? 159))
  || ((a =? 227) && (b =? 128) && (c =? 128))
  || ((a =? 239) && (b =? 187) && (c =? 191)).

(** The string without the white space at its front. *)
Fixpoint skip_spaces (s : string) : string :=
  match s with
  | String a s1 =>
      if is_space a then skip_spaces s1
      else
        match s1 with
        | String b s2 =>
            if is_space2 a b then skip_spaces s2
            else
              match s2 with
              | String c s3 => if is_space3 a b c then skip_spaces s3 else s
              | EmptyString => s
              end
        | EmptyString => s
        end
  | EmptyString => s
  end.

(** Is the string one white-space character? *)
Definition is_space_char (s : string) : bool :=
  match s with
  | String a EmptyString => is_space a
  | String a (String b EmptyString) => is_space2 a b
  | String a (String b (String c EmptyString)) => is_space3 a b c
  | _ => false
  end.

Definition digit_of (radix : Z) (c : ascii) : option Z :=
  let n := code c in
  let v := if (48 <=? n) && (n <=? 57) then n - 48
           else if (97 <=? n) && (n <=? 122) then n - 87
           else if (65 <=? n) && (n <=? 90) then n - 55
           else radix in
  if v <? radix then Some v else None.

(** The longest prefix of digits, read in the radix; [None] when it is empty. *)
Fixpoint digits (radix : Z) (acc : option Z) (s : string) : option Z :=
  match s with
  | String c s' =>
      match digit_of radix c with
      | Some v => digits radix (Some (radix * default 0 acc + v)) s'
      | None => acc
      end
  | EmptyString => acc
  end.

(** [parseInt(s)] on a string, no radix given; [None] is NaN. *)
Definition parseInt_string (s : string) : option Z :=
  let s := skip_spaces s in
  let '(neg, s) :=
    match s with
    | String "-" s' => (true, s')
    | String "+" s' => (false, s')
    | _ => (false, s)
    end in
  let '(radix, s) :=
    match s with
    | String "0" (String "x" s') => (16, s')
    | String "0" (String "X" s') => (16, s')
    | _ => (10, s)
    end in
  match digits radix None s with
  | Some n => Some (if neg then - n else n)
  | None => None
  end.

(** [parseInt(v)]: the value is turned into a string first. *)
Definition parseInt (v : JsValue) : option Z := parseInt_string (ToString v).

(** The object an AI reply was parsed into. *)
Record AiResult := {
  ai_riskScore : JsValue;
  ai_violations : option (list string);   (* [None]: not an array *)
  ai_summary : option string
}.

(** A field of the request body. *)
Inductive Field :=
| absent                (* undefined, null or another falsy non-string *)
| text (s : string)
| non_text.             (* a truthy value that is not a string *)

Record Body := {
  title : Field;
  description : Field;
  category : Field;
  imageUrl : Field
}.

Record Request := {
  method : string;
  body : option Body      (* [None]: [req.json()] rejects *)
}.

(** What the two AI providers did for this request: whether the key is
    configured and, if the call was made, the object parsed out of the reply
    ([None] for any failure, which the inner [try] swallows). *)
Record Upstream := {
  GEMINI_API_KEY : bool;
  gemini : option AiResult;
  OPENAI_API_KEY : bool;
  openai : option AiResult
}.

Inductive Response :=
| Preflight
| Json (riskScore : Z) (violations : list string) (summary : string) (action : Action).

Definition lower (c : ascii) : ascii :=
  let n := nat_of_ascii c in
  if ((65 <=? n) && (n <=? 90))%nat then ascii_of_nat (n + 32) else c.

(** [s.toLowerCase()] on the letters whose lower case has an ASCII letter in
    it: A to Z, the Kelvin sign U+212A (to k) and U+0130 (to i followed by
    U+0307).  Every other letter is mapped among the non-ASCII ones and is
    kept as it is here; the result is only ever compared with, or searched
    for, ASCII words. *)
Fixpoint toLowerCase (s : string) : string :=
  match s with
  | String a s1 =>
      match s1 with
      | String b s2 =>
          if (code a =? 196) && (code b =? 176) then
            String "i" (String (ascii_of_nat 204) (String (ascii_of_nat 135) (toLowerCase s2)))
          else
            match s2 with
            | String c s3 =>
                if (code a =? 226) && (code b =? 132) && (code c =? 170)
                then String "k" (toLowerCase s3)
                else String (lower a) (toLowerCase s1)
            | EmptyString => String (lower a) (toLowerCase s1)
            end
      | EmptyString => String (lower a) (toLowerCase s1)
      end
  | EmptyString => EmptyString
  end.

(** [s.includes(word)] *)
Fixpoint includes (s word : string) : bool :=
  String.prefix word s ||
  match s with
  | String _ s' => includes s' word
  | EmptyString => false
  end.

Definition badWords : list string :=
  ["weapon"; "gun"; "drug"; "stolen"; "fake"; "counterfeit"].

(** The heuristic used when no AI result is available; [None] when
    [toLowerCase] is called on something that is not a string. *)
Definition heuristic (b : Body) : option AiResult :=
  match title b with
  | text t =>
      let titleLower := toLowerCase t in
      match (match description b with
             | absent => Some EmptyString
             | text d => Some (if Js.truthy d then toLowerCase d else EmptyString)
             | non_text => None
             end) with
      | Some descLower =>
          let combinedText := String.append titleLower (String.append " " descLower) in
          let hasBadWords := existsb (fun word => includes combinedText word) badWords in
          Some {| ai_riskScore := JNum (if hasBadWords then "7" else "2");
                  ai_violations := Some (if hasBadWords
                                         then ["Potential policy violation detected"]
                                         else []);
                  ai_summary := Some (if hasBadWords
                                      then "Manual review recommended"
                                      else "Looks good, no obvious issues") |}
      | None => None
      end
  | _ => None
  end.

(** Validate and normalize the response. *)
Definition normalize_riskScore (v : JsValue) : Z :=
  Z.min 10 (Z.max 1 (Js.or_field (parseInt v) 2)).

(** Determine action based on score. *)
Definition action_of (riskScore : Z) : Action :=
  if riskScore <? 7 then auto_approve
  else if riskScore <=? 8 then needs_review
  else auto_reject.

(** The outer [try] block; [None] when it throws. *)
Definition serve_try (req : Request) (up : Upstream) : option Response :=
  match body req with
  | None => None
  | Some b =>
      let result : option AiResult := if GEMINI_API_KEY up then gemini up else None in
      let result : option AiResult :=
        match result with
        | Some r => Some r
        | None => if OPENAI_API_KEY up then openai up else None
        end in
      let result : option AiResult :=
        match result with
        | Some r => Some r
        | None => heuristic b
        end in
      match result with
      | None => None
      | Some r =>
          let riskScore := normalize_riskScore (ai_riskScore r) in
          let violations := default [] (ai_violations r) in
          let summary :=
            match ai_summary r with
            | Some s => if Js.truthy s then s else "Check complete"
            | None => "Check complete"
            end in
          Some (Json riskScore violations summary (action_of riskScore))
      end
  end.

Definition serve (req : Request) (up : Upstream) : Response :=
  if String.eqb (method req) "OPTIONS" then Preflight
  else
    match serve_try req up with
    | Some resp => resp
    | None =>
        (* default to auto-approve to not block users *)
        Json 2 [] "Auto-approved (check unavailable)" auto_approve
    end.

End Compliance.

(* ===================================================================== *)
(** ** Strings: trimming and the CJK test *)
(* ===================================================================== *)

(** Strings are byte strings (UTF-8); white space and letter case are the
    ASCII ones. *)
Module JsString.

Definition is_empty (s : string) : bool := negb (Js.truthy s).

(** The string without the white space at its end: what is left of the
    tail, with its first byte in front, unless that is one white-space
    character. *)
Fixpoint trimEnd (s : string) : string :=
  match s with
  | String c s' =>
      let t := trimEnd s' in
      if Compliance.is_space_char (String c t) then EmptyString else String c t
  | EmptyString => EmptyString
  end.

(** [s.trim()] *)
Definition trim (s : string) : string := trimEnd (Compliance.skip_spaces s).

(** Do three bytes encode a character of U+4E00..U+9FFF? *)
Definition cjk_bytes (a b c : ascii) : bool :=
  let a := Compliance.code a in
  let b := Compliance.code b in
  let c := Compliance.code c in
  (228 <=? a) && (a <=? 233) &&
  (128 <=? b) && (b <=? 191) && (128 <=? c) && (c <=? 191) &&
  ((228 <? a) || (184 <=? b)).

(** [/[\u4E00-\u9FFF]/.test(s)] *)
Fixpoint containsCJK (s : string) : bool :=
  match s with
  | String a s1 =>
      match s1 with
      | String b (String c _) => cjk_bytes a b c
      | _ => false
      end || containsCJK s1
  | EmptyString => false
  end.

(** [/w1|w2|.../.test(s)] for plain words. *)
Definition test_any (words : list string) (s : string) : bool :=
  existsb (fun w => Compliance.includes s w) words.

End JsString.

(* ===================================================================== *)
(** ** supabase/functions/classify-waste: parseClassification *)
(* ===================================================================== *)

Module ClassifyWaste.
Import Waste.

(** A value read for its truth: strictly [true], another truthy value, or a
    falsy one. *)
Inductive Flag := is_true | truthy | falsy.

#[global] Instance Flag_eq_dec : EqDecision Flag.
Proof. solve_decision. Defined.

Definition holds (f : Flag) : bool :=
  match f with falsy => false | _ => true end.

(** The [points] of the object the AI text was parsed into, by what
    [points || 10] and the conversion to a number make of it.  Numbers are
    integers here, as the prompt asks for and as points are everywhere else. *)
Inductive Points :=
| no_points                 (* undefined, null, [false] or the empty string *)
| number (z : Z)            (* the number z *)
| numeric (z : Z)           (* a truthy value that is not a number and converts
                               to z: the string "12", [true], the array [12] *)
| not_a_number.             (* a truthy value that converts to NaN: the string
                               "ten", an object *)

(** [points || 10] as a number; [None] is NaN. *)
Definition points_or_10 (p : Points) : option Z :=
  match p with
  | no_points => Some 10
  | number z => Some (Js.or_num z 10)
  | numeric z => Some z
  | not_a_number => None
  end.

(** The object the AI text was parsed into. *)
Record Raw := {
  name : Compliance.Field;
  category : option string;          (* [None]: missing or not a string *)
  points : Points;
  canTrade : bool;                   (* its truth *)
  aiSuggestion : Compliance.Field;
  hasCreativePotential : Flag;
  creativeSuggestion : Compliance.Field;
  isHuman : Flag
}.

(** What came back from the model. *)
Inductive AiText :=
| no_text              (* undefined or empty *)
| unparsable           (* JSON.parse throws *)
| not_object           (* JSON.parse yields null (reading a property throws) *)
| object (r : Raw).

(** What [parseClassification] returns. *)
Record Classification := {
  c_name : Compliance.Field;
  c_category : WasteCategory;
  c_points : option Z;                       (* [None]: NaN, sent as null *)
  c_canTrade : bool;
  c_aiSuggestion : Compliance.Field;
  c_hasCreativePotential : bool;
  c_creativeSuggestion : Compliance.Field;   (* [absent]: null *)
  c_isHuman : Flag
}.

Definition unknown_item : Raw :=
  {| name := Compliance.text "Unknown Item";
     category := Some "other";
     points := number 5;
     canTrade := false;
     aiSuggestion := Compliance.text "Unable to identify. Place in general waste bin.";
     hasCreativePotential := falsy;
     creativeSuggestion := Compliance.absent;
     isHuman := falsy |}.

(** The valid category of that name, if there is one. *)
Definition valid_category (s : string) : option WasteCategory :=
  if String.eqb s "clothing" then Some clothing
  else if String.eqb s "electronics" then Some electronics
  else if String.eqb s "compost" then Some compost
  else if String.eqb s "recyclable" then Some recyclable
  else if String.eqb s "hazardous" then Some hazardous
  else if String.eqb s "other" then Some other
  else None.

Definition getDefaultSuggestion (category : WasteCategory) (canTrade : bool) : string :=
  if canTrade then "This item is still usable! Consider selling or donating it."
  else
    match category with
    | clothing => "Donate to charity or sell on second-hand platforms."
    | electronics => "Take to an e-waste recycling center or sell if still working."
    | compost => "Add to compost bin or green waste collection."
    | recyclable => "Clean and place in recycling bin."
    | hazardous => "⚠️ Take to a hazardous waste collection point. Do NOT put in regular bins!"
    | other => "Place in general waste bin."
    end.

(** [getDefaultCreativeSuggestion] on the lower-cased name. *)
Definition getDefaultCreativeSuggestion (n : string) (category : WasteCategory) : string :=
  if JsString.test_any ["cup"; "mug"; "glass"] n then
    "Turn it into a pencil holder, small planter, or candle holder!"
  else if JsString.test_any ["bottle"] n then
    "Transform it into a vase, bird feeder, or self-watering planter!"
  else if JsString.test_any ["jar"] n then
    "Use as a storage container, candle holder, or mini terrarium!"
  else if JsString.test_any ["can"; "tin"] n then
    "Make a pencil holder, lantern, or organizer!"
  else if JsString.test_any ["box"; "cardboard"] n then
    "Create storage organizers, gift boxes, or kids craft projects!"
  else if bool_decide (category = clothing) then
    "Upcycle into a tote bag, patchwork project, or cleaning cloths!"
  else if bool_decide (category = recyclable) then
    "This item has DIY craft potential! Get creative with upcycling!"
  else "This item has DIY craft potential!".

(** Is the field a truthy value? *)
Definition given (f : Compliance.Field) : bool :=
  match f with
  | Compliance.absent => false
  | Compliance.text s => Js.truthy s
  | Compliance.non_text => true
  end.

(** [(name || '').toLowerCase()]; [None] when the name is not a string. *)
Definition lower_name (f : Compliance.Field) : option string :=
  match f with
  | Compliance.absent => Some EmptyString
  | Compliance.text s => Some (Compliance.toLowerCase s)
  | Compliance.non_text => None
  end.

(** [hasValidItemName]; [None] when the name is not a string. *)
Definition hasValidItemName (f : Compliance.Field) : option bool :=
  match f with
  | Compliance.absent => Some false
  | Compliance.text s =>
      Some (Js.truthy s
            && negb (String.eqb (Compliance.toLowerCase s) "human")
            && negb (String.eqb (Compliance.toLowerCase s) "null")
            && negb (String.eqb (Compliance.toLowerCase s) "unknown")
            && Js.truthy (JsString.trim s))
  | Compliance.non_text => None
  end.

(** The part of [parseClassification] that follows the parsing; [None] when
    it throws. *)
Definition normalize (r : Raw) : option Classification :=
  (* validate category *)
  let '(cat, creative) :=
    match category r ≫= valid_category with
    | Some c => (c, hasCreativePotential r)
    | None =>
        if bool_decide (category r = Some "creative")
        then (recyclable, is_true)
        else (other, hasCreativePotential r)
    end in
  (* points within range, bonus for creative potential *)
  let basePoints := (fun p => Z.max 5 (Z.min 30 p)) <$> points_or_10 (points r) in
  let basePoints :=
    if holds creative then (fun b => Z.min 30 (b + 5)) <$> basePoints else basePoints in
  (* aiSuggestion is always present *)
  let suggestion :=
    if given (aiSuggestion r) then aiSuggestion r
    else Compliance.text (getDefaultSuggestion cat (canTrade r)) in
  (* recyclable and clothing always have creative potential *)
  let shouldHaveCreativePotential :=
    bool_decide (cat = recyclable) || bool_decide (cat = clothing)
    || bool_decide (creative = is_true) in
  let creativeText : option Compliance.Field :=
    if shouldHaveCreativePotential then
      if given (creativeSuggestion r) then Some (creativeSuggestion r)
      else (fun n => Compliance.text (getDefaultCreativeSuggestion n cat)) <$> lower_name (name r)
    else Some Compliance.absent in
  match creativeText with
  | None => None
  | Some ct =>
      match hasValidItemName (name r) with
      | None => None
      | Some valid =>
          Some {| c_name := name r;
                  c_category := cat;
                  c_points := basePoints;
                  c_canTrade := canTrade r;
                  c_aiSuggestion := suggestion;
                  c_hasCreativePotential := shouldHaveCreativePotential;
                  c_creativeSuggestion := ct;
                  c_isHuman := if valid then falsy else isHuman r |}
      end
  end.

(** [parseClassification]; [None] when it throws (the endpoint then answers
    with status 500). *)
Definition parseClassification (t : AiText) : option Classification :=
  match t with
  | no_text => None
  | unparsable => normalize unknown_item
  | not_object => None
  | object r => normalize r
  end.

End ClassifyWaste.

(* ===================================================================== *)
(** ** services/wasteClassifierBinary.ts *)
(* ===================================================================== *)

Module wasteClassifierBinary.
Import Waste useWasteScanner.

(** What the request to the endpoint came back with. *)
Inductive Answer :=
| http_error                                   (* not ok, or [data.error] *)
| not_json                                     (* ok, but the body is not JSON *)
| classified (c : ClassifyWaste.Classification).

Definition defaultDisposalSuggestion (category : WasteCategory) : string :=
  match category with
  | clothing => "Donate to charity or sell on second-hand platforms."
  | electronics => "Take to an e-waste recycling center or sell if still working."
  | compost => "Add to compost bin or green waste collection."
  | recyclable => "Clean and place in recycling bin."
  | hazardous => "⚠️ Take to a hazardous waste collection point. Do NOT put in regular bins!"
  | other => "Place in general waste bin."
  end.

Definition defaultCreativeSuggestion (name : string) (category : WasteCategory) : option string :=
  let n := Compliance.toLowerCase name in
  if bool_decide (category = recyclable) then
    if JsString.test_any ["bag"; "wrapper"; "packaging"; "pouch"] n then
      Some "Cut into strips and weave into a small pouch or basket."
    else if JsString.test_any ["can"; "tin"] n then
      Some "Rinse it and turn it into a pencil holder or small planter."
    else if JsString.test_any ["bottle"] n then
      Some "Turn it into a bird feeder or a self-watering planter."
    else if JsString.test_any ["jar"; "glass"] n then
      Some "Use it as a candle holder, storage jar, or mini terrarium."
    else Some "Upcycle it into an organizer, decoration, or kids craft project."
  else if bool_decide (category = clothing) then
    Some "Upcycle it into a tote bag, patchwork cloth, or cleaning rags."
  else None.

Definition normalizePackagingName (name : string) (category : WasteCategory) : string :=
  if negb (bool_decide (category = recyclable)) then name
  else
    let n := Compliance.toLowerCase name in
    let looksLikeFood :=
      JsString.test_any ["cookie"; "cookies"; "biscuit"; "cracker"; "chips"; "snack";
                         "candy"; "chocolate"; "bread"; "cake"] n in
    if looksLikeFood then "snack packaging" else name.

(** A string that is not blank and holds no CJK character. *)
Definition usable_text (f : Compliance.Field) : option string :=
  match f with
  | Compliance.text s =>
      if Js.truthy (JsString.trim s) && negb (JsString.containsCJK s) then Some s else None
  | _ => None
  end.

Definition human_detected : ClassificationResult :=
  {| r_name := "Human Detected";
     r_category := other;
     r_points := 0;
     r_aiSuggestion := Some "This is a waste scanner, not a mirror!";
     r_hasCreativePotential := false;
     r_creativeSuggestion := None;
     r_isHuman := true;
     r_isRetry := false |}.

Definition unidentified : ClassificationResult :=
  {| r_name := "Unidentified";
     r_category := other;
     r_points := 0;
     r_aiSuggestion := Some "Please try again with a clearer photo.";
     r_hasCreativePotential := false;
     r_creativeSuggestion := None;
     r_isHuman := false;
     r_isRetry := true |}.

(** The names that stand for "nothing identified". *)
Definition unidentified_names : list string :=
  ["null"; "unknown"; "unidentified"; ""; "n/a"].

(** What [classifyWasteImageBinary] makes of the answer; [None] when it
    throws. *)
Definition classifyWasteImageBinary (a : Answer) : option ClassificationResult :=
  match a with
  | http_error => None
  | not_json => Some unidentified
  | classified data =>
      (* check for human first *)
      if bool_decide (ClassifyWaste.c_isHuman data = ClassifyWaste.is_true) then
        Some human_detected
      else
        match ClassifyWaste.lower_name (ClassifyWaste.c_name data) with
        | None => None
        | Some lowered =>
            let nameLower := JsString.trim lowered in
            let isUnidentified :=
              negb (ClassifyWaste.given (ClassifyWaste.c_name data))
              || existsb (String.eqb nameLower) unidentified_names in
            if isUnidentified then Some unidentified
            else
              match ClassifyWaste.c_name data with
              | Compliance.text name =>
                  let category := ClassifyWaste.c_category data in
                  let hasPotential := ClassifyWaste.c_hasCreativePotential data in
                  Some {| r_name := normalizePackagingName name category;
                          r_category := category;
                          r_points := Js.or_field (ClassifyWaste.c_points data) 10;
                          r_aiSuggestion :=
                            Some (default (defaultDisposalSuggestion category)
                                    (usable_text (ClassifyWaste.c_aiSuggestion data)));
                          r_hasCreativePotential := hasPotential;
                          r_creativeSuggestion :=
                            if hasPotential then
                              match usable_text (ClassifyWaste.c_creativeSuggestion data) with
                              | Some s => Some s
                              | None =>
                                  defaultCreativeSuggestion
                                    (normalizePackagingName name category) category
                              end
                            else None;
                          r_isHuman := false;
                          r_isRetry := false |}
              | _ => None
              end
        end
  end.

(** From the text of the model to the result the hook receives: the endpoint
    answers with the classification, or with an error when it throws. *)
Definition classify (t : ClassifyWaste.AiText) : option ClassificationResult :=
  classifyWasteImageBinary
    match ClassifyWaste.parseClassification t with
    | Some c => classified c
    | None => http_error
    end.

End wasteClassifierBinary.

(* ===================================================================== *)
(** ** components/marketplace/DraftListingEditor.tsx *)
(* ===================================================================== *)

Module DraftListingEditor.
Import Store.

Record ComplianceResult := {
  riskScore : Z;
  violations : list string;
  summary : string;
  action : Compliance.Action
}.

(** The form state the handlers read (condition and pickup method go to
    columns that the rows of this model do not carry). *)
Record Editor := {
  title : string;
  description : string;
  pricePoints : string;
  imageUrl : string;
  complianceResult : option ComplianceResult
}.

Definition setComplianceResult (c : option ComplianceResult) (e : Editor) : Editor :=
  {| title := title e; description := description e; pricePoints := pricePoints e;
     imageUrl := imageUrl e; complianceResult := c |}.

Inductive Toast :=
| toast_missing_title       (* 'Missing title' *)
| toast_content_rejected    (* 'Content Rejected' *)
| toast_content_approved    (* 'Content Approved!' *)
| toast_review_required     (* 'Review Required' *)
| toast_quick_check_passed  (* 'Quick Check Passed' *)
| toast_missing_fields      (* 'Missing fields' *)
| toast_cannot_submit       (* 'Cannot Submit' *)
| toast_listed              (* 'Listed Successfully!' *)
| toast_submitted           (* 'Submitted for Review' *)
| toast_submit_failed.      (* 'Submit failed' *)

(** What [supabase.functions.invoke] came back with. *)
Inductive Invoke :=
| invoke_error
| invoke_data (r : ComplianceResult).

Definition badWords : list string :=
  ["weapon"; "gun"; "drug"; "stolen"; "fake"; "counterfeit"; "illegal"].

(** Fallback: local validation when the edge function fails. *)
Definition fallbackResult (e : Editor) : ComplianceResult :=
  let titleLower := Compliance.toLowerCase (title e) in
  let descLower := Compliance.toLowerCase (description e) in
  let combinedText := String.append titleLower (String.append " " descLower) in
  let hasBadWords := existsb (fun word => Compliance.includes combinedText word) badWords in
  {| riskScore := if hasBadWords then 8 else 2;
     violations := if hasBadWords then ["Potential policy violation detected"] else [];
     summary := if hasBadWords then "Manual review required" else "Auto-approved (offline check)";
     action := if hasBadWords then Compliance.needs_review else Compliance.auto_approve |}.

Definition checkCompliance (resp : Invoke) (e : Editor) : Editor * Toast :=
  if JsString.is_empty (JsString.trim (title e)) then (e, toast_missing_title)
  else
    match resp with
    | invoke_data result =>
        (setComplianceResult (Some result) e,
         match action result with
         | Compliance.auto_reject => toast_content_rejected
         | Compliance.auto_approve => toast_content_approved
         | Compliance.needs_review => toast_review_required
         end)
    | invoke_error =>
        let fb := fallbackResult e in
        (setComplianceResult (Some fb) e,
         match action fb with
         | Compliance.auto_approve => toast_quick_check_passed
         | _ => toast_review_required
         end)
    end.

(** [s || null] *)
Definition or_null (s : string) : option string :=
  if Js.truthy s then Some s else None.

(** The columns [handleSubmit] writes, among those the rows carry. *)
Definition submit_row (e : Editor) (price : Z) (st : Market.ListingStatus.t)
    (l : marketplace_listings.row) : marketplace_listings.row :=
  {| marketplace_listings.seller_id := marketplace_listings.seller_id l;
     marketplace_listings.scan_id := marketplace_listings.scan_id l;
     marketplace_listings.title := JsString.trim (title e);
     marketplace_listings.description := or_null (JsString.trim (description e));
     marketplace_listings.image_url := or_null (imageUrl e);
     marketplace_listings.category := marketplace_listings.category l;
     marketplace_listings.price_points := price;
     marketplace_listings.status := st |}.

(** [handleSubmit] for the signed-in seller [uid] and the listing [id];
    [resp] is what the compliance endpoint answers if it is called.  A price
    that does not parse is sent as null, which no row of this model can hold:
    the update is then taken to come back with an error. *)
Definition handleSubmit (env : Env) (uid : string) (id : string) (resp : Invoke)
    (e : Editor) (d : Db) : Editor * Db * Toast :=
  if JsString.is_empty (JsString.trim (title e)) || JsString.is_empty (pricePoints e) then
    (e, d, toast_missing_fields)
  else
    match complianceResult e with
    | None =>
        (* run the compliance check if not done yet *)
        let '(e', t) := checkCompliance resp e in (e', d, t)
    | Some c =>
        if bool_decide (action c = Compliance.auto_reject) then (e, d, toast_cannot_submit)
        else
          let newStatus :=
            if bool_decide (action c = Compliance.auto_approve)
            then Market.ListingStatus.active else Market.ListingStatus.pending_review in
          match Compliance.parseInt_string (pricePoints e), reply env "marketplace_listings.update" with
          | Some price, (ok | blocked) as r =>
              let d := with_marketplace_listings
                         (update_by_id r id (submit_row e price newStatus)) d in
              if bool_decide (newStatus = Market.ListingStatus.active) then
                (e,
                 with_system_notifications
                   (append_row (reply env "system_notifications.insert")
                      {| system_notifications.title := "Listing Live! 🛍️";
                         system_notifications.type := "reward";
                         system_notifications.target_user_id := uid |}) d,
                 toast_listed)
              else (e, d, toast_submitted)
          | _, _ => (e, d, toast_submit_failed)
          end
    end.

(** The columns [handleSaveDraft] writes, among those the rows carry. *)
Definition draft_row (e : Editor) (price : Z) (l : marketplace_listings.row)
    : marketplace_listings.row :=
  {| marketplace_listings.seller_id := marketplace_listings.seller_id l;
     marketplace_listings.scan_id := marketplace_listings.scan_id l;
     marketplace_listings.title := JsString.trim (title e);
     marketplace_listings.description := or_null (JsString.trim (description e));
     marketplace_listings.image_url := or_null (imageUrl e);
     marketplace_listings.category := marketplace_listings.category l;
     marketplace_listings.price_points := price;
     marketplace_listings.status := marketplace_listings.status l |}.

(** [handleSaveDraft]; [listingPrice] is the price of the listing being
    edited, used when the price typed in does not parse or is 0. *)
Definition handleSaveDraft (env : Env) (id : string) (listingPrice : Z) (e : Editor) (d : Db)
    : Db :=
  with_marketplace_listings
    (update_by_id (reply env "marketplace_listings.update") id
       (draft_row e (Js.or_field (Compliance.parseInt_string (pricePoints e)) listingPrice))) d.

(** The answer of the endpoint as the editor receives it. *)
Definition invoke_of (resp : Compliance.Response) : Invoke :=
  match resp with
  | Compliance.Preflight => invoke_error
  | Compliance.Json rs v s a =>
      invoke_data {| riskScore := rs; violations := v; summary := s; action := a |}
  end.

End DraftListingEditor.

(* ===================================================================== *)
(** ** Concrete data used by the examples below *)
(* ===================================================================== *)

Module Examples.
Import Store.

(** Every store call is executed. *)
Definition env_ok : Env :=
  {| reply := fun _ => ok;
     uuid := fun n => match n with O => "row-0" | S O => "row-1" | _ => "row-n" end;
     now := "1700000000000";
     uploadedUrl := None |}.

Definition guest : useWasteScanner.AuthContext :=
  {| useWasteScanner.user := None;
     useWasteScanner.isGuest := true;
     useWasteScanner.deviceId := "device-1" |}.

Definition item_of (c : Waste.WasteCategory) (pts : Z) : Waste.WasteItem :=
  {| Waste.id := "1700000000000";
     Waste.name := "item";
     Waste.category := c;
     Waste.points := pts;
     Waste.imageUrl := None;
     Waste.status := Waste.pending;
     Waste.disposalChoice := None;
     Waste.basePoints := pts;
     Waste.finalPoints := pts;
     Waste.aiSuggestion := None;
     Waste.hasCreativePotential := false;
     Waste.creativeSuggestion := None;
     Waste.isHuman := false;
     Waste.isRetry := false |}.

(** A fresh hook that has just scanned [i]. *)
Definition hook_with (i : Waste.WasteItem) : useWasteScanner.Hook :=
  {| useWasteScanner.lastScannedItem := Some i;
     useWasteScanner.scanHistory := [];
     useWasteScanner.stats := useWasteScanner.defaultStats;
     useWasteScanner.showReward := false;
     useWasteScanner.showLevelUp := false |}.

Definition hook_idle : useWasteScanner.Hook :=
  {| useWasteScanner.lastScannedItem := None;
     useWasteScanner.scanHistory := [];
     useWasteScanner.stats := useWasteScanner.defaultStats;
     useWasteScanner.showReward := false;
     useWasteScanner.showLevelUp := false |}.

Definition db_empty : Db :=
  {| t_profiles := ∅; t_scan_history := ∅; t_marketplace_listings := ∅;
     t_orders := []; t_system_notifications := []; t_messages := [] |}.

Definition world_empty : World := {| db := db_empty; localStorage := ∅; scan_images := [] |}.

Definition result_of (c : Waste.WasteCategory) (pts : Z) : useWasteScanner.ClassificationResult :=
  {| useWasteScanner.r_name := "item";
     useWasteScanner.r_category := c;
     useWasteScanner.r_points := pts;
     useWasteScanner.r_aiSuggestion := None;
     useWasteScanner.r_hasCreativePotential := false;
     useWasteScanner.r_creativeSuggestion := None;
     useWasteScanner.r_isHuman := false;
     useWasteScanner.r_isRetry := false |}.

Definition profile_of (pts lvl : Z) : profiles.row :=
  {| profiles.total_points := pts; profiles.level := lvl; profiles.streak := 0;
     profiles.items_recycled := 0; profiles.username := None |}.

Definition listing_row (st : Market.ListingStatus.t) (price : Z) : marketplace_listings.row :=
  {| marketplace_listings.seller_id := "seller";
     marketplace_listings.scan_id := None;
     marketplace_listings.title := "lamp";
     marketplace_listings.description := None;
     marketplace_listings.image_url := None;
     marketplace_listings.category := "electronics";
     marketplace_listings.price_points := price;
     marketplace_listings.status := st |}.

(** The snapshot of that row a client holds. *)
Definition listing_of (st : Market.ListingStatus.t) (price : Z) : Market.MarketplaceListing :=
  {| Market.id := "listing-1";
     Market.sellerId := "seller";
     Market.scanId := None;
     Market.title := "lamp";
     Market.description := None;
     Market.imageUrl := None;
     Market.category := "electronics";
     Market.pricePoints := price;
     Market.status := st |}.

Definition order_of (buyer : string) (price : Z) (st : Market.OrderStatus.t) : orders.row :=
  {| orders.listing_id := "listing-1";
     orders.buyer_id := buyer;
     orders.seller_id := "seller";
     orders.price_points := price;
     orders.status := st |}.

(** A buyer and a seller, one listing of the seller, and the orders so far. *)
Definition db_market (buyer seller : profiles.row) (l : marketplace_listings.row)
    (os : list orders.row) : Db :=
  {| t_profiles := <["buyer" := buyer]> (<["seller" := seller]> ∅);
     t_scan_history := ∅;
     t_marketplace_listings := <["listing-1" := l]> ∅;
     t_orders := os;
     t_system_notifications := [];
     t_messages := [] |}.

(** Every store call is executed, except the one named [call], which fails. *)
Definition env_failing (call : string) : Env :=
  {| reply := fun c => if String.eqb c call then failed else ok;
     uuid := uuid env_ok;
     now := now env_ok;
     uploadedUrl := None |}.

(** A pending scan of user "u1" worth 20 final points, as the admin sees it. *)
Definition pending_scan (choice : Waste.DisposalChoice) : PendingScansTab.PendingScan :=
  {| PendingScansTab.id := "scan-1";
     PendingScansTab.user_id := "u1";
     PendingScansTab.item_name := "shirt";
     PendingScansTab.category := Waste.clothing;
     PendingScansTab.points := 10;
     PendingScansTab.base_points := 10;
     PendingScansTab.final_points := 20;
     PendingScansTab.status := Waste.pending;
     PendingScansTab.disposal_choice := Some choice;
     PendingScansTab.image_url := None;
     PendingScansTab.username := Some "ann" |}.

Definition scan_row (choice : Waste.DisposalChoice) : scan_history.row :=
  {| scan_history.user_id := "u1";
     scan_history.item_name := "shirt";
     scan_history.category := Waste.clothing;
     scan_history.points := 10;
     scan_history.base_points := Some 10;
     scan_history.final_points := Some 20;
     scan_history.status := Some Waste.pending;
     scan_history.disposal_choice := Some choice;
     scan_history.image_url := None;
     scan_history.ai_suggestion := None |}.

(** The store with that scan and its owner, who has [pts] points. *)
Definition db_review (choice : Waste.DisposalChoice) (pts lvl : Z) : Db :=
  {| t_profiles := <["u1" := profile_of pts lvl]> ∅;
     t_scan_history := <["scan-1" := scan_row choice]> ∅;
     t_marketplace_listings := ∅;
     t_orders := [];
     t_system_notifications := [];
     t_messages := [] |}.

Definition scans_idle : PendingScansTab.Panel :=
  {| PendingScansTab.processing := false; PendingScansTab.selectedScan := None |}.

(** A listing of "seller" waiting for review, as the admin sees it. *)
Definition pending_listing : PendingListingsTab.PendingListing :=
  {| PendingListingsTab.id := "listing-1";
     PendingListingsTab.seller_id := "seller";
     PendingListingsTab.title := "lamp";
     PendingListingsTab.price_points := 100;
     PendingListingsTab.status := "pending_review" |}.

Definition listings_idle : PendingListingsTab.Panel :=
  {| PendingListingsTab.processing := false; PendingListingsTab.selectedListing := None |}.

(** What a guest with 120 points and one scanned item has in localStorage. *)
Definition guest_stats : StoredStats :=
  {| s_totalPoints := Some 120; s_level := Some 2; s_scansToday := Some 1;
     s_streak := Some 3; s_itemsRecycled := Some 4; s_pendingPoints := Some 0 |}.

Definition guest_storage : gmap string LSValue :=
  <["ecoscan_guest_history_device-1" := JHistory [item_of Waste.other 8]]>
    (<["ecoscan_guest_stats_device-1" := JStats guest_stats]> ∅).

(** The new account "u1" (with 5 points from elsewhere) next to that storage. *)
Definition world_guest : World :=
  {| db := db_review Waste.donate 5 1; localStorage := guest_storage; scan_images := [] |}.

(** A POST whose body is not JSON. *)
Definition request_garbled : Compliance.Request :=
  {| Compliance.method := "POST"; Compliance.body := None |}.

(** No provider is configured. *)
Definition no_upstream : Compliance.Upstream :=
  {| Compliance.GEMINI_API_KEY := false; Compliance.gemini := None;
     Compliance.OPENAI_API_KEY := false; Compliance.openai := None |}.

Definition request_titled (t : string) : Compliance.Request :=
  {| Compliance.method := "POST";
     Compliance.body := Some {| Compliance.title := Compliance.text t;
                                Compliance.description := Compliance.absent;
                                Compliance.category := Compliance.text "other";
                                Compliance.imageUrl := Compliance.absent |} |}.

(** Every store call is executed and the upload of the photo succeeds. *)
Definition env_uploading : Env :=
  {| reply := reply env_ok;
     uuid := uuid env_ok;
     now := now env_ok;
     uploadedUrl := Some "https://storage.example/scan-images/u1/1.jpg" |}.

(** The signed-in user "u1". *)
Definition signed_in : useWasteScanner.AuthContext :=
  {| useWasteScanner.user := Some "u1";
     useWasteScanner.isGuest := false;
     useWasteScanner.deviceId := "device-1" |}.

(** The store holding just the profile of "u1". *)
Definition world_u1 (pts lvl : Z) : World :=
  {| db := {| t_profiles := <["u1" := profile_of pts lvl]> ∅;
              t_scan_history := ∅;
              t_marketplace_listings := ∅;
              t_orders := [];
              t_system_notifications := [];
              t_messages := [] |};
     localStorage := ∅;
     scan_images := [] |}.

(** A hook whose stats are those of a user with [pts] points. *)
Definition hook_at (pts : Z) (i : option Waste.WasteItem) : useWasteScanner.Hook :=
  {| useWasteScanner.lastScannedItem := i;
     useWasteScanner.scanHistory := [];
     useWasteScanner.stats :=
       {| Waste.totalPoints := pts;
          Waste.level := useWasteScanner.calculateLevel pts;
          Waste.scansToday := 0;
          Waste.streak := 0;
          Waste.itemsRecycled := 0;
          Waste.pendingPoints := 0 |};
     useWasteScanner.showReward := false;
     useWasteScanner.showLevelUp := false |}.

End Examples.

(* ===================================================================== *)
(** * Properties *)
(* ===================================================================== *)

(** ** Helpers on the JavaScript operators *)

Lemma or_num_zero (x : Z) : Js.or_num x 0 = x.
Proof. unfold Js.or_num. destruct (Z.eqb_spec x 0); congruence. Qed.

Lemma Math_round_integer (z : Z) : Js.Math_round (inject_Z z) = z.
Proof.
  unfold Js.Math_round, Qfloor, Qplus, inject_Z; simpl.
  rewrite Z.mul_1_r.
  replace (z * 2 + 1) with (1 + z * 2) by lia.
  rewrite Z.div_add by lia. reflexivity.
Qed.

(** ** The scanner hook *)

Section Scanner.
Import Waste Store useWasteScanner.

(** The two guest keys of one device never coincide. *)
Lemma guest_keys_differ (deviceId : string) :
  guest_key GUEST_HISTORY_KEY deviceId <> guest_key GUEST_STATS_KEY deviceId.
Proof.
  unfold guest_key, GUEST_HISTORY_KEY, GUEST_STATS_KEY.
  intros H. injection H. intros. discriminate.
Qed.

Lemma saveGuestData_stats deviceId s l ls :
  saveGuestData deviceId s l ls !! guest_key GUEST_STATS_KEY deviceId
  = Some (JStats (toStored s)).
Proof.
  unfold saveGuestData.
  rewrite lookup_insert_ne by apply guest_keys_differ.
  apply lookup_insert_eq.
Qed.

(** Every multiplier of the table is truthy, so [|| 1] keeps it. *)
Lemma offered_multiplier c choice cfg :
  findChoice c choice = Some cfg ->
  Js.or_mult (option_map pointsMultiplier (findChoice c choice)) 1 = pointsMultiplier cfg.
Proof.
  intros H. rewrite H. simpl.
  destruct c, choice; vm_compute in H; try discriminate;
    injection H as <-; reflexivity.
Qed.

(** The item [handleDisposalChoice] leaves in [lastScannedItem]. *)
Lemma handleDisposalChoice_item env auth choice h w item :
  lastScannedItem h = Some item ->
  lastScannedItem (handleDisposalChoice env auth choice h w).1.1
  = Some {| id := id item;
            name := name item;
            category := category item;
            points := points item;
            imageUrl := imageUrl item;
            status := if bool_decide (choice = discard) then approved else pending;
            disposalChoice := Some choice;
            basePoints := basePoints item;
            finalPoints :=
              Js.Math_round (inject_Z (basePoints item) *
                Js.or_mult (option_map pointsMultiplier (findChoice (category item) choice)) 1);
            aiSuggestion := aiSuggestion item;
            hasCreativePotential := hasCreativePotential item;
            creativeSuggestion := creativeSuggestion item;
            isHuman := isHuman item;
            isRetry := isRetry item |}.
Proof.
  intros H. unfold handleDisposalChoice. rewrite H.
  destruct (bool_decide (choice = discard)); reflexivity.
Qed.

(** C7. For every category and every disposal choice offered for it,
    applying the choice sets [finalPoints] to
    [round (basePoints * multiplier (category, choice))], the multiplier being
    the one of the fixed table (clothing: donate 2, trade 1.8, discard 1;
    electronics: trade 2, recycle 1.5, discard 0.5; hazardous: special 2);
    the result depends on the category, the base points and the choice only,
    so recomputing it gives the same value. *)
Theorem handleDisposalChoice_finalPoints :
  (forall env auth h w item choice cfg,
      lastScannedItem h = Some item ->
      findChoice (category item) choice = Some cfg ->
      exists item',
        lastScannedItem (handleDisposalChoice env auth choice h w).1.1 = Some item' /\
        disposalChoice item' = Some choice /\
        basePoints item' = basePoints item /\
        finalPoints item'
        = Js.Math_round (inject_Z (basePoints item) * pointsMultiplier cfg)) /\
  (forall env1 env2 auth1 auth2 h1 h2 w1 w2 item1 item2 choice,
      lastScannedItem h1 = Some item1 ->
      lastScannedItem h2 = Some item2 ->
      category item1 = category item2 ->
      basePoints item1 = basePoints item2 ->
      finalPoints <$> lastScannedItem (handleDisposalChoice env1 auth1 choice h1 w1).1.1
      = finalPoints <$> lastScannedItem (handleDisposalChoice env2 auth2 choice h2 w2).1.1) /\
  (pointsMultiplier <$> findChoice clothing donate = Some 2%Q /\
   pointsMultiplier <$> findChoice clothing trade = Some (18 # 10) /\
   pointsMultiplier <$> findChoice clothing discard = Some 1%Q /\
   pointsMultiplier <$> findChoice electronics trade = Some 2%Q /\
   pointsMultiplier <$> findChoice electronics recycle = Some (15 # 10) /\
   pointsMultiplier <$> findChoice electronics discard = Some (5 # 10) /\
   pointsMultiplier <$> findChoice hazardous special = Some 2%Q).
Proof.
  split; [| split].
  - intros env auth h w item choice cfg Hitem Hcfg.
    eexists. split; [apply handleDisposalChoice_item; exact Hitem |].
    simpl. rewrite (offered_multiplier _ _ _ Hcfg). auto.
  - intros env1 env2 auth1 auth2 h1 h2 w1 w2 item1 item2 choice H1 H2 Hc Hb.
    rewrite (handleDisposalChoice_item env1 auth1 choice h1 w1 item1 H1).
    rewrite (handleDisposalChoice_item env2 auth2 choice h2 w2 item2 H2).
    simpl. rewrite Hc, Hb. reflexivity.
  - repeat split; reflexivity.
Qed.

(** A clothing item worth 10 base points, donated: 20 final points. *)
Lemma handleDisposalChoice_finalPoints_witness :
  exists item',
    lastScannedItem (handleDisposalChoice Examples.env_ok Examples.guest donate
                       (Examples.hook_with (Examples.item_of clothing 10))
                       Examples.world_empty).1.1 = Some item' /\
    disposalChoice item' = Some donate /\
    basePoints item' = 10 /\
    finalPoints item' = 20.
Proof.
  destruct (proj1 handleDisposalChoice_finalPoints
              Examples.env_ok Examples.guest
              (Examples.hook_with (Examples.item_of clothing 10)) Examples.world_empty
              (Examples.item_of clothing 10) donate
              {| value := donate; pointsMultiplier := 2; isPrimary := true |}
              eq_refl eq_refl) as (item' & H1 & H2 & H3 & H4).
  exists item'. repeat split; assumption.
Defined.

(** What [handleDisposalChoice] does to the stats. *)
Lemma handleDisposalChoice_stats env auth choice h w item :
  lastScannedItem h = Some item ->
  let finalPoints :=
    Js.Math_round (inject_Z (basePoints item) *
      Js.or_mult (option_map pointsMultiplier (findChoice (category item) choice)) 1) in
  stats (handleDisposalChoice env auth choice h w).1.1
  = if bool_decide (choice = discard) then
      {| totalPoints := totalPoints (stats h) + finalPoints;
         level := calculateLevel (totalPoints (stats h) + finalPoints);
         scansToday := scansToday (stats h) + 1;
         streak := streak (stats h);
         itemsRecycled := itemsRecycled (stats h) + 1;
         pendingPoints := pendingPoints (stats h) |}
    else
      {| totalPoints := totalPoints (stats h);
         level := level (stats h);
         scansToday := scansToday (stats h) + 1;
         streak := streak (stats h);
         itemsRecycled := itemsRecycled (stats h);
         pendingPoints := pendingPoints (stats h) + finalPoints |}.
Proof.
  intros H. unfold handleDisposalChoice. rewrite H.
  destruct (bool_decide (choice = discard)); reflexivity.
Qed.

(** A choice other than discard never writes a profile. *)
Lemma handleDisposalChoice_profiles env auth choice h w :
  choice <> discard ->
  t_profiles (db (handleDisposalChoice env auth choice h w).1.2) = t_profiles (db w).
Proof.
  intros Hne. unfold handleDisposalChoice.
  destruct (lastScannedItem h) as [item |]; [| reflexivity].
  rewrite (bool_decide_eq_false_2 _ Hne). simpl.
  destruct (isGuest auth); [reflexivity |].
  destruct (user auth) as [uid |]; [| reflexivity].
  destruct (bool_decide (choice = trade));
    destruct (reply env "scan_history.insert"); reflexivity.
Qed.

(** A choice the table does not list is applied with multiplier 1: the
    final points are the base points. *)
Lemma handleDisposalChoice_unlisted env auth choice h w item :
  lastScannedItem h = Some item ->
  findChoice (category item) choice = None ->
  finalPoints <$> lastScannedItem (handleDisposalChoice env auth choice h w).1.1
  = Some (basePoints item).
Proof.
  intros Hitem Hnone.
  rewrite (handleDisposalChoice_item env auth choice h w item Hitem). simpl.
  rewrite Hnone. simpl. f_equal.
  rewrite <- (Math_round_integer (basePoints item)) at 2.
  unfold Js.Math_round. f_equal.
  unfold Qmult, Qplus, inject_Z. simpl. rewrite !Z.mul_1_r. reflexivity.
Qed.

(** C1, as stated, fails: a hazardous record worth 10 points to which
    discard is applied is approved on the spot and its points are credited. *)
Lemma hazardous_discard_is_approved :
  let h := Examples.hook_with (Examples.item_of hazardous 10) in
  let r := handleDisposalChoice Examples.env_ok Examples.guest discard h Examples.world_empty in
  exists item',
    lastScannedItem r.1.1 = Some item' /\
    category item' = hazardous /\
    disposalChoice item' = Some discard /\
    status item' = approved /\
    totalPoints (stats r.1.1) = totalPoints (stats h) + 10 /\
    r.2 = Some false.
Proof. vm_compute. eexists. repeat split. Qed.

(** C1, amended. For every hazardous record, discard is not among the
    choices offered (the only one is special, with multiplier 2), and applying
    an offered choice leaves the record pending: no credit to [totalPoints],
    no profile written. *)
Theorem hazardous_offered_choice_stays_pending :
  findChoice hazardous discard = None /\
  forall env auth h w item choice cfg,
    lastScannedItem h = Some item ->
    category item = hazardous ->
    findChoice (category item) choice = Some cfg ->
    choice = special /\
    pointsMultiplier cfg = 2%Q /\
    status <$> lastScannedItem (handleDisposalChoice env auth choice h w).1.1 = Some pending /\
    totalPoints (stats (handleDisposalChoice env auth choice h w).1.1) = totalPoints (stats h) /\
    level (stats (handleDisposalChoice env auth choice h w).1.1) = level (stats h) /\
    t_profiles (db (handleDisposalChoice env auth choice h w).1.2) = t_profiles (db w).
Proof.
  split; [reflexivity |].
  intros env auth h w item choice cfg Hitem Hcat Hcfg.
  rewrite Hcat in Hcfg.
  assert (choice = special /\ pointsMultiplier cfg = 2%Q) as [-> Hm].
  { destruct choice; vm_compute in Hcfg; try discriminate.
    injection Hcfg as <-. split; reflexivity. }
  split; [reflexivity |]. split; [exact Hm |].
  rewrite (handleDisposalChoice_item env auth special h w item Hitem).
  rewrite (handleDisposalChoice_stats env auth special h w item Hitem).
  rewrite handleDisposalChoice_profiles by discriminate.
  repeat split; reflexivity.
Qed.

Lemma hazardous_offered_choice_stays_pending_witness :
  let h := Examples.hook_with (Examples.item_of hazardous 10) in
  let r := handleDisposalChoice Examples.env_ok Examples.guest special h Examples.world_empty in
  status <$> lastScannedItem r.1.1 = Some pending /\
  totalPoints (stats r.1.1) = totalPoints (stats h).
Proof.
  destruct (proj2 hazardous_offered_choice_stays_pending
              Examples.env_ok Examples.guest
              (Examples.hook_with (Examples.item_of hazardous 10)) Examples.world_empty
              (Examples.item_of hazardous 10) special
              {| value := special; pointsMultiplier := 2; isPrimary := true |}
              eq_refl eq_refl eq_refl) as (_ & _ & H1 & H2 & _).
  split; assumption.
Defined.

(** Only the category "other" needs no choice. *)
Lemma needsChoice_other c : needsChoice (categoryInfo c) = negb (bool_decide (c = other)).
Proof. destruct c; reflexivity. Qed.

(** What the upload that opens [scanWithImage] leaves behind. *)
Lemma scan_upload env auth w :
  let up := match user auth with
            | Some _ => uploadScanImage env w
            | None => (None, w)
            end in
  up.1 = match user auth with Some _ => uploadedUrl env | None => None end /\
  db up.2 = db w /\
  localStorage up.2 = localStorage w /\
  scan_images up.2
  = (scan_images w
     ++ match user auth, uploadedUrl env with
        | Some _, Some url => [url]
        | _, _ => []
        end)%list.
Proof.
  unfold uploadScanImage.
  destruct (user auth); [destruct (uploadedUrl env) |]; simpl;
    repeat split; rewrite ?app_nil_r; reflexivity.
Qed.

(** The stats of the hook after a scan. *)
Lemma scanWithImage_stats env auth result h w :
  stats (scanWithImage env auth result h w).1
  = if r_isRetry result then stats h
    else if bool_decide (r_category result = other) then
      {| totalPoints := totalPoints (stats h) + r_points result;
         level := calculateLevel (totalPoints (stats h) + r_points result);
         scansToday := scansToday (stats h) + 1;
         streak := streak (stats h);
         itemsRecycled := itemsRecycled (stats h) + 1;
         pendingPoints := pendingPoints (stats h) |}
    else stats h.
Proof.
  unfold scanWithImage.
  destruct (match user auth with
            | Some _ => uploadScanImage env w
            | None => (None, w)
            end) as [img w0].
  destruct (r_isRetry result); [reflexivity |].
  rewrite needsChoice_other, negb_involutive.
  destruct (bool_decide (r_category result = other)); simpl.
  - unfold checkLevelUp.
    destruct (calculateLevel (totalPoints (stats h) + r_points result) >? level (stats h));
      reflexivity.
  - destruct h; reflexivity.
Qed.





(** The retry signal is shown and not recorded; the photo of a signed-in user
    has been uploaded by then. *)
Lemma scanWithImage_retry env auth result h w :
  r_isRetry result = true ->
  let r := scanWithImage env auth result h w in
  stats r.1 = stats h /\
  scanHistory r.1 = scanHistory h /\
  db r.2 = db w /\
  localStorage r.2 = localStorage w /\
  scan_images r.2
  = (scan_images w
     ++ match user auth, uploadedUrl env with
        | Some _, Some url => [url]
        | _, _ => []
        end)%list.
Proof.
  intros Hretry r. subst r. unfold scanWithImage.
  destruct (scan_upload env auth w) as (_ & Hdb & Hls & Hbucket).
  destruct (match user auth with
            | Some _ => uploadScanImage env w
            | None => (None, w)
            end) as [img w0].
  rewrite Hretry. simpl in *. repeat split; assumption.
Qed.

End Scanner.

(** ** The marketplace hook *)

Section Marketplace.
Import Store Market Try useMarketplace.

(** The two guards of [purchaseListing] that precede its [try] block: the
    buyer's own listing and a balance below the price end the call before
    anything is written. *)
Lemma purchaseListing_guards env uid listing buyerPoints d :
  (sellerId listing = uid ->
     purchaseListing env (Some uid) listing buyerPoints d = (d, false, toast_own_listing)) /\
  (sellerId listing <> uid -> buyerPoints < pricePoints listing ->
     purchaseListing env (Some uid) listing buyerPoints d
     = (d, false, toast_insufficient (pricePoints listing - buyerPoints))).
Proof.
  unfold purchaseListing. split.
  - intros H. rewrite (bool_decide_eq_true_2 _ H). reflexivity.
  - intros H Hlt. rewrite (bool_decide_eq_false_2 _ H).
    apply Z.ltb_lt in Hlt. rewrite Hlt. reflexivity.
Qed.




(** The balance passed in need not be the stored one: with 150 points
    stored, a call that passes 300 for a listing priced at 100 succeeds and
    leaves the buyer with 200. *)
Lemma purchaseListing_stale_balance :
  let d := Examples.db_market (Examples.profile_of 150 2) (Examples.profile_of 50 1)
             (Examples.listing_row ListingStatus.active 100) [] in
  let r := purchaseListing Examples.env_ok (Some "buyer")
             (Examples.listing_of ListingStatus.active 100) 300 d in
  r.1.2 = true /\
  profiles.total_points <$> t_profiles r.1.1 !! "buyer" = Some 200 /\
  profiles.total_points <$> t_profiles r.1.1 !! "seller" = Some 150.
Proof. vm_compute. repeat split. Qed.

(** C3: the guard on the listing status is missing.  A listing that is
    already sold in the store (one order on record) is bought again by a
    buyer with enough points, whether the snapshot the client holds still says
    [active] or already says [sold]: the call succeeds, a second order is
    written, the buyer is debited and the seller credited once more. *)
Theorem purchaseListing_buys_sold_listing :
  let first := Examples.order_of "first-buyer" 100 OrderStatus.pending in
  let d := Examples.db_market (Examples.profile_of 150 2) (Examples.profile_of 50 1)
             (Examples.listing_row ListingStatus.sold 100) [first] in
  forall snapshot_status,
    snapshot_status = ListingStatus.active \/ snapshot_status = ListingStatus.sold ->
    let r := purchaseListing Examples.env_ok (Some "buyer")
               (Examples.listing_of snapshot_status 100) 150 d in
    r.1.2 = true /\
    r.2 = toast_complete 100 /\
    orders_for "listing-1" r.1.1
    = [first; Examples.order_of "buyer" 100 OrderStatus.pending] /\
    profiles.total_points <$> t_profiles r.1.1 !! "buyer" = Some 50 /\
    profiles.total_points <$> t_profiles r.1.1 !! "seller" = Some 150 /\
    r.1.1 <> d.
Proof.
  intros first d st [-> | ->]; vm_compute;
    repeat (split; [reflexivity |]); intros H; discriminate H.
Qed.

Lemma purchaseListing_buys_sold_listing_witness :
  (purchaseListing Examples.env_ok (Some "buyer")
     (Examples.listing_of ListingStatus.active 100) 150
     (Examples.db_market (Examples.profile_of 150 2) (Examples.profile_of 50 1)
        (Examples.listing_row ListingStatus.sold 100)
        [Examples.order_of "first-buyer" 100 OrderStatus.pending])).1.2 = true.
Proof.
  exact (proj1 (purchaseListing_buys_sold_listing ListingStatus.active (or_introl eq_refl))).
Defined.

(** [purchaseListing] never reads the status of the listing it is given. *)
Lemma purchaseListing_status_unread env user listing buyerPoints d st :
  purchaseListing env user
    {| id := id listing; sellerId := sellerId listing; scanId := scanId listing;
       title := title listing; description := description listing;
       imageUrl := imageUrl listing; category := category listing;
       pricePoints := pricePoints listing; status := st |} buyerPoints d
  = purchaseListing env user listing buyerPoints d.
Proof. reflexivity. Qed.

(** C4: no step of [purchaseListing] is undone when a later one fails.
    (a) The buyer's update fails: the call reports failure, yet the order
    stays on record and the listing stays sold, with no points moved.
    (b) The seller's update fails (its error is not looked at): the call
    reports success with the buyer debited and the seller not credited. *)
Theorem purchaseListing_no_rollback :
  let d := Examples.db_market (Examples.profile_of 150 2) (Examples.profile_of 50 1)
             (Examples.listing_row ListingStatus.active 100) [] in
  let l := Examples.listing_of ListingStatus.active 100 in
  let a := purchaseListing (Examples.env_failing "profiles.update:buyer") (Some "buyer") l 150 d in
  let b := purchaseListing (Examples.env_failing "profiles.update:seller") (Some "buyer") l 150 d in
  (a.1.2 = false /\
   a.2 = toast_failed /\
   marketplace_listings.status <$> t_marketplace_listings a.1.1 !! "listing-1"
   = Some ListingStatus.sold /\
   orders_for "listing-1" a.1.1 = [Examples.order_of "buyer" 100 OrderStatus.pending] /\
   profiles.total_points <$> t_profiles a.1.1 !! "buyer" = Some 150 /\
   profiles.total_points <$> t_profiles a.1.1 !! "seller" = Some 50) /\
  (b.1.2 = true /\
   profiles.total_points <$> t_profiles b.1.1 !! "buyer" = Some 50 /\
   profiles.total_points <$> t_profiles b.1.1 !! "seller" = Some 50).
Proof. vm_compute. repeat split. Qed.

(** C6: the two legs of a purchase write [total_points] and leave [level]
    as it was.  A buyer at 150 points and level 2 pays 100: 50 points, still
    level 2 (the level of 50 points is 1).  The seller at 50 points and level
    1 receives 100: 150 points, still level 1 (the level of 150 points is 2). *)
Theorem purchaseListing_stale_level :
  let d := Examples.db_market (Examples.profile_of 150 2) (Examples.profile_of 50 1)
             (Examples.listing_row ListingStatus.active 100) [] in
  let r := purchaseListing Examples.env_ok (Some "buyer")
             (Examples.listing_of ListingStatus.active 100) 150 d in
  r.1.2 = true /\
  t_profiles r.1.1 !! "buyer" = Some (Examples.profile_of 50 2) /\
  useWasteScanner.calculateLevel 50 = 1 /\
  t_profiles r.1.1 !! "seller" = Some (Examples.profile_of 150 1) /\
  useWasteScanner.calculateLevel 150 = 2.
Proof. vm_compute. repeat split. Qed.

Lemma same_levels_refl d : same_levels d d.
Proof. intros k. reflexivity. Qed.

Lemma same_levels_trans d1 d2 d3 :
  same_levels d1 d2 -> same_levels d2 d3 -> same_levels d1 d3.
Proof. intros H12 H23 k. rewrite H23. apply H12. Qed.

Lemma same_levels_bind {A B} (c : M A) (k : A -> M B) :
  (forall d, same_levels d (c d).1) ->
  (forall a d, same_levels d (k a d).1) ->
  forall d, same_levels d (bind c k d).1.
Proof.
  intros Hc Hk d. unfold bind. specialize (Hc d).
  destruct (c d) as [d' [a |]]; simpl in *.
  - eapply same_levels_trans; [exact Hc | apply Hk].
  - exact Hc.
Qed.

Lemma same_levels_update r k f d :
  (forall p, profiles.level (f p) = profiles.level p) ->
  same_levels d (with_profiles (update_by_id r k f) d).
Proof.
  intros Hf j. unfold update_by_id. destruct r; simpl; try reflexivity.
  rewrite lookup_alter. case_decide; [| reflexivity]. subst.
  destruct (t_profiles d !! j); simpl; [f_equal; apply Hf | reflexivity].
Qed.

(** In general: whatever the replies, no level is changed by a purchase. *)
Lemma purchaseListing_keeps_levels env user listing buyerPoints d :
  same_levels d (purchaseListing env user listing buyerPoints d).1.1.
Proof.
  unfold purchaseListing.
  destruct user as [uid |]; [| apply same_levels_refl].
  destruct (bool_decide (sellerId listing = uid)); [apply same_levels_refl |].
  destruct (buyerPoints <? pricePoints listing); [apply same_levels_refl |].
  assert (H : same_levels d (purchase_try env uid listing buyerPoints d).1).
  { revert d. unfold purchase_try.
    repeat (apply same_levels_bind; [| intros ?]); intros d;
      unfold write, throw_if, read, ret, throw;
      repeat match goal with
             | |- context [match ?x with Some _ => _ | None => _ end] => destruct x
             | |- context [if ?b then _ else _] => destruct b
             end;
      simpl;
      solve [ apply same_levels_refl
            | apply same_levels_update; intros; reflexivity
            | intros k; reflexivity ]. }
  destruct (purchase_try env uid listing buyerPoints d) as [d' [u |]]; exact H.
Qed.

End Marketplace.

(** ** The admin review panels *)

Section Review.
Import Store Try.

#[local] Arguments Js.or_num : simpl never.
#[local] Arguments PendingScansTab.listing_for_scan : simpl never.

(** C5, as stated, fails: nothing in the handlers looks at the status the
    record has in the store.  Approving the same scan a second time, after the
    first approval has completed and the record is approved, credits its 20
    points again; and a listing that was approved can still be rejected. *)
Lemma approve_twice_credits_twice :
  let scan := Examples.pending_scan Waste.donate in
  let r1 := PendingScansTab.handleApprove Examples.env_ok scan Examples.scans_idle
              (Examples.db_review Waste.donate 0 1) in
  let r2 := PendingScansTab.handleApprove Examples.env_ok scan r1.1.1 r1.1.2 in
  let l := Examples.pending_listing in
  let s1 := PendingListingsTab.handleApprove Examples.env_ok l Examples.listings_idle
              (Examples.db_market (Examples.profile_of 0 1) (Examples.profile_of 0 1)
                 (Examples.listing_row Market.ListingStatus.pending_review 100) []) in
  let s2 := PendingListingsTab.handleReject Examples.env_ok l s1.1.1 s1.1.2 in
  (scan_history.status <$> t_scan_history r1.1.2 !! "scan-1" = Some (Some Waste.approved) /\
   profiles.total_points <$> t_profiles r1.1.2 !! "u1" = Some 20 /\
   profiles.total_points <$> t_profiles r2.1.2 !! "u1" = Some 40 /\
   r2.1.2 <> r1.1.2) /\
  (marketplace_listings.status <$> t_marketplace_listings s1.1.2 !! "listing-1"
   = Some Market.ListingStatus.active /\
   marketplace_listings.status <$> t_marketplace_listings s2.1.2 !! "listing-1"
   = Some Market.ListingStatus.cancelled).
Proof.
  vm_compute.
  split; [repeat (split; [reflexivity |]); intros H; discriminate H
         | split; reflexivity].
Qed.

(** All four handlers return at once when the panel is processing. *)
Lemma review_handlers_busy :
  (forall env scan p d,
      PendingScansTab.processing p = true ->
      PendingScansTab.handleApprove env scan p d = (p, d, None) /\
      PendingScansTab.handleReject env scan p d = (p, d, None)) /\
  (forall env listing p d,
      PendingListingsTab.processing p = true ->
      PendingListingsTab.handleApprove env listing p d = (p, d, None) /\
      PendingListingsTab.handleReject env listing p d = (p, d, None)).
Proof.
  split; intros env x p d H.
  - unfold PendingScansTab.handleApprove, PendingScansTab.handleReject.
    rewrite H. split; reflexivity.
  - unfold PendingListingsTab.handleApprove, PendingListingsTab.handleReject.
    rewrite H. split; reflexivity.
Qed.

(** An approval whose store calls are all executed credits the owner. *)
Lemma handleApprove_run_credits env scan p d row pr :
  (forall call, reply env call = ok) ->
  t_scan_history d !! PendingScansTab.id scan = Some row ->
  t_profiles d !! PendingScansTab.user_id scan = Some pr ->
  let r := PendingScansTab.handleApprove_run env scan p d in
  PendingScansTab.processing r.1.1 = false /\
  scan_history.status <$> t_scan_history r.1.2 !! PendingScansTab.id scan
  = Some (Some Waste.approved) /\
  t_profiles r.1.2 !! PendingScansTab.user_id scan
  = Some {| profiles.total_points := profiles.total_points pr + PendingScansTab.final_points scan;
            profiles.level :=
              useWasteScanner.calculateLevel
                (profiles.total_points pr + PendingScansTab.final_points scan);
            profiles.streak := profiles.streak pr;
            profiles.items_recycled := profiles.items_recycled pr + 1;
            profiles.username := profiles.username pr |}.
Proof.
  intros Hok Hrow Hpr.
  unfold PendingScansTab.handleApprove_run, PendingScansTab.approve_status,
    PendingScansTab.approve_rest, bind, write, read, throw_if, ret, throw.
  rewrite !Hok. simpl. rewrite Hrow. simpl.
  destruct (bool_decide (PendingScansTab.disposal_choice scan = Some Waste.trade));
    simpl;
    [ destruct (PendingScansTab.listing_for_scan ok (PendingScansTab.id scan)
                  (t_marketplace_listings d)); simpl |];
    repeat first [ rewrite Hpr | rewrite Hrow | rewrite lookup_alter_eq | progress simpl ];
    rewrite !or_num_zero; repeat split.
Qed.

(** C5, amended. Every approve and reject handler of the review panels (for
    scans and for listings) is guarded on the panel's [processing] flag, not
    on the status of the record: a click that arrives while an approval or
    rejection is in flight changes nothing.  In particular a double click on
    approve for a pending scan credits the account once: the second click is
    dropped, and the first one, once its store calls are executed, adds
    [final_points] to [total_points] and clears the flag. *)
Theorem review_handlers_guarded_by_processing :
  (forall env scan p d,
      PendingScansTab.processing p = true ->
      PendingScansTab.handleApprove env scan p d = (p, d, None) /\
      PendingScansTab.handleReject env scan p d = (p, d, None)) /\
  (forall env listing p d,
      PendingListingsTab.processing p = true ->
      PendingListingsTab.handleApprove env listing p d = (p, d, None) /\
      PendingListingsTab.handleReject env listing p d = (p, d, None)) /\
  (forall env env' scan p d row pr,
      PendingScansTab.processing p = false ->
      (forall call, reply env call = ok) ->
      t_scan_history d !! PendingScansTab.id scan = Some row ->
      t_profiles d !! PendingScansTab.user_id scan = Some pr ->
      let in_flight := PendingScansTab.setProcessing true p in
      let first := PendingScansTab.handleApprove env scan p d in
      PendingScansTab.handleApprove env' scan in_flight d = (in_flight, d, None) /\
      first.1.1 = (PendingScansTab.handleApprove_run env scan in_flight d).1.1 /\
      first.1.2 = (PendingScansTab.handleApprove_run env scan in_flight d).1.2 /\
      PendingScansTab.processing first.1.1 = false /\
      profiles.total_points <$> t_profiles first.1.2 !! PendingScansTab.user_id scan
      = Some (profiles.total_points pr + PendingScansTab.final_points scan)).
Proof.
  destruct review_handlers_busy as [Hs Hl].
  split; [exact Hs |]. split; [exact Hl |].
  intros env env' scan p d row pr Hp Hok Hrow Hpr in_flight first.
  split; [apply Hs; reflexivity |].
  assert (Hfirst : first = PendingScansTab.handleApprove env scan p d) by reflexivity.
  unfold PendingScansTab.handleApprove in Hfirst. rewrite Hp in Hfirst.
  fold in_flight in Hfirst.
  destruct (handleApprove_run_credits env scan in_flight d row pr Hok Hrow Hpr)
    as (Hproc & _ & Hprof).
  destruct (PendingScansTab.handleApprove_run env scan in_flight d) as [[p' d'] t].
  rewrite Hfirst. simpl in *.
  repeat (split; [reflexivity |]).
  split; [exact Hproc |]. rewrite Hprof. reflexivity.
Qed.

Lemma review_handlers_guarded_by_processing_witness :
  let scan := Examples.pending_scan Waste.donate in
  let d := Examples.db_review Waste.donate 0 1 in
  let in_flight := PendingScansTab.setProcessing true Examples.scans_idle in
  PendingScansTab.handleApprove Examples.env_ok scan in_flight d = (in_flight, d, None) /\
  profiles.total_points <$>
    t_profiles (PendingScansTab.handleApprove Examples.env_ok scan Examples.scans_idle d).1.2
      !! "u1" = Some 20.
Proof.
  destruct review_handlers_guarded_by_processing as (_ & _ & H).
  destruct (H Examples.env_ok Examples.env_ok (Examples.pending_scan Waste.donate)
              Examples.scans_idle (Examples.db_review Waste.donate 0 1)
              (Examples.scan_row Waste.donate) (Examples.profile_of 0 1)
              eq_refl (fun _ => eq_refl) eq_refl eq_refl) as (H1 & _ & _ & _ & H2).
  split; [exact H1 | exact H2].
Defined.

End Review.

(** ** Guest migration *)

Section Migration.
Import Store Auth.

Lemma auth_keys_differ (deviceId : string) :
  guest_key GUEST_HISTORY_KEY deviceId <> guest_key GUEST_STATS_KEY deviceId.
Proof.
  unfold guest_key, GUEST_HISTORY_KEY, GUEST_STATS_KEY.
  intros H. injection H. intros. discriminate.
Qed.

(** With nothing stored for the device, migration writes nothing. *)
Lemma migrateGuestData_nothing_stored env deviceId userId w :
  localStorage w !! guest_key GUEST_STATS_KEY deviceId = None ->
  localStorage w !! guest_key GUEST_HISTORY_KEY deviceId = None ->
  migrateGuestData env deviceId userId w = (w, true).
Proof.
  intros Hs Hh. unfold migrateGuestData, migrate_try.
  rewrite Hs, Hh. simpl. unfold with_localStorage.
  rewrite (delete_id _ _ Hs), (delete_id _ _ Hh).
  destruct w; reflexivity.
Qed.

(** A migration that returns true has cleared both keys of the device. *)
Lemma migrateGuestData_clears env deviceId userId w :
  (migrateGuestData env deviceId userId w).2 = true ->
  localStorage (migrateGuestData env deviceId userId w).1
    !! guest_key GUEST_STATS_KEY deviceId = None /\
  localStorage (migrateGuestData env deviceId userId w).1
    !! guest_key GUEST_HISTORY_KEY deviceId = None.
Proof.
  unfold migrateGuestData, migrate_try.
  destruct (present (localStorage w !! guest_key GUEST_STATS_KEY deviceId));
    [destruct (localStorage w !! guest_key GUEST_STATS_KEY deviceId ≫= parse_stats) |];
    simpl; try discriminate;
    (destruct (present (localStorage w !! guest_key GUEST_HISTORY_KEY deviceId));
     [destruct (localStorage w !! guest_key GUEST_HISTORY_KEY deviceId ≫= parse_history) |];
     simpl; try discriminate);
    try match goal with |- context [if ?b then _ else _] => destruct b end;
    simpl; intros _;
    (split;
     [ rewrite lookup_delete_ne by apply auth_keys_differ; apply lookup_delete_eq
     | apply lookup_delete_eq ]).
Qed.

(** Even a run that threw can be repeated: under the same replies the second
    run ends in the state the first one left. *)
Lemma migrateGuestData_retry env deviceId userId w :
  migrateGuestData env deviceId userId (migrateGuestData env deviceId userId w).1
  = migrateGuestData env deviceId userId w.
Proof.
  destruct ((migrateGuestData env deviceId userId w).2) eqn:Hr.
  - destruct (migrateGuestData_clears env deviceId userId w Hr) as [Hs Hh].
    rewrite (migrateGuestData_nothing_stored env deviceId userId _ Hs Hh).
    rewrite <- Hr. destruct (migrateGuestData env deviceId userId w); reflexivity.
  - revert Hr. unfold migrateGuestData, migrate_try.
    destruct (present (localStorage w !! guest_key GUEST_STATS_KEY deviceId)) eqn:Eps;
      [destruct (localStorage w !! guest_key GUEST_STATS_KEY deviceId ≫= parse_stats)
         as [stats |] eqn:Es |];
      simpl;
      (destruct (present (localStorage w !! guest_key GUEST_HISTORY_KEY deviceId)) eqn:Eph;
       [destruct (localStorage w !! guest_key GUEST_HISTORY_KEY deviceId ≫= parse_history)
          as [hist |] eqn:Eh |];
       simpl);
      try match goal with |- context [if ?b then _ else _] => destruct b end;
      simpl; try discriminate; intros _;
      rewrite ?Eps, ?Es, ?Eph, ?Eh; simpl; try reflexivity.
    all: f_equal; unfold with_db, with_profiles; simpl; f_equal; f_equal;
      unfold update_by_id; destruct (reply env "profiles.update"); try reflexivity;
      rewrite alter_alter_eq; apply alter_ext; intros; reflexivity.
Qed.

(** C8. Whatever the device holds, if [migrateGuestData] has run to its end
    (it returned true, after which the guest store of the device is cleared),
    running it again is a no-op: the store and localStorage are left exactly as
    they were, so no scan record is inserted twice and no point is credited
    again.  A run that threw before clearing leaves, when repeated under the
    same replies, the state it had left.  And the stats are merged by
    overwrite: after the first run the profile holds the guest's totals, not
    the sum with what it held before. *)
Theorem migrateGuestData_second_run_is_noop env1 env2 deviceId userId w :
  let first := migrateGuestData env1 deviceId userId w in
  (first.2 = true ->
     migrateGuestData env2 deviceId userId first.1 = (first.1, true)) /\
  (migrateGuestData env1 deviceId userId first.1).1 = first.1 /\
  (forall stats p,
     localStorage w !! guest_key GUEST_STATS_KEY deviceId = Some (JStats stats) ->
     reply env1 "profiles.update" = ok ->
     t_profiles (db w) !! userId = Some p ->
     t_profiles (db first.1) !! userId
     = Some {| profiles.total_points := Js.or_field (s_totalPoints stats) 0;
               profiles.level := Js.or_field (s_level stats) 1;
               profiles.streak := Js.or_field (s_streak stats) 0;
               profiles.items_recycled := Js.or_field (s_itemsRecycled stats) 0;
               profiles.username := profiles.username p |}).
Proof.
  intros first. split; [| split].
  - intros Htrue.
    destruct (migrateGuestData_clears env1 deviceId userId w Htrue) as [Hs Hh].
    apply migrateGuestData_nothing_stored; assumption.
  - subst first. rewrite migrateGuestData_retry. reflexivity.
  - intros stats p Hstats Hok Hp. subst first.
    unfold migrateGuestData, migrate_try. rewrite Hstats, Hok. simpl.
    destruct (present (localStorage w !! guest_key GUEST_HISTORY_KEY deviceId));
      [destruct (localStorage w !! guest_key GUEST_HISTORY_KEY deviceId ≫= parse_history) |];
      simpl;
      try match goal with |- context [if ?b then _ else _] => destruct b end;
      simpl; rewrite lookup_alter_eq, Hp; reflexivity.
Qed.

(** A guest with 120 points signs in to an account that holds 5: the account
    ends with 120, and a second run leaves everything as it is. *)
Lemma migrateGuestData_second_run_is_noop_witness :
  let first := migrateGuestData Examples.env_ok "device-1" "u1" Examples.world_guest in
  first.2 = true /\
  migrateGuestData Examples.env_ok "device-1" "u1" first.1 = (first.1, true) /\
  profiles.total_points <$> t_profiles (db first.1) !! "u1" = Some 120.
Proof.
  destruct (migrateGuestData_second_run_is_noop Examples.env_ok Examples.env_ok
              "device-1" "u1" Examples.world_guest) as (H1 & _ & H2).
  split; [reflexivity |]. split; [apply H1; reflexivity |].
  rewrite (H2 Examples.guest_stats (Examples.profile_of 5 1) eq_refl eq_refl eq_refl).
  reflexivity.
Defined.

End Migration.

(** ** The compliance endpoint *)

Section ComplianceCheck.
Import Compliance.

Lemma normalize_riskScore_range v : 1 <= normalize_riskScore v <= 10.
Proof. unfold normalize_riskScore. lia. Qed.

Lemma action_of_spec riskScore :
  (action_of riskScore = auto_approve <-> riskScore < 7) /\
  (action_of riskScore = needs_review <-> 7 <= riskScore <= 8) /\
  (action_of riskScore = auto_reject <-> 8 < riskScore).
Proof.
  unfold action_of.
  destruct (Z.ltb_spec riskScore 7); [| destruct (Z.leb_spec riskScore 8)];
    repeat split; intros; try discriminate; try lia; reflexivity.
Qed.

(** Whatever the [try] block returns was normalized. *)
Lemma serve_try_shape req up resp :
  serve_try req up = Some resp ->
  exists v violations summary,
    resp = Json (normalize_riskScore v) violations summary
             (action_of (normalize_riskScore v)).
Proof.
  unfold serve_try. destruct (body req) as [b |]; [| discriminate].
  destruct (GEMINI_API_KEY up), (gemini up), (OPENAI_API_KEY up), (openai up),
    (heuristic b); simpl; intros H; try discriminate; injection H as <-; eauto.
Qed.

(** C10. The endpoint answers every request other than the CORS preflight
    with a [riskScore] that is an integer between 1 and 10, and the action is
    a function of that score: [auto_approve] exactly below 7, [needs_review]
    exactly for 7 and 8, [auto_reject] exactly above 8.  When the handler
    throws, it fails open: score 2, no violations, [auto_approve]. *)
Theorem serve_riskScore_and_action req up :
  match serve req up with
  | Preflight => method req = "OPTIONS"
  | Json riskScore violations summary action =>
      1 <= riskScore <= 10 /\
      (action = auto_approve <-> riskScore < 7) /\
      (action = needs_review <-> 7 <= riskScore <= 8) /\
      (action = auto_reject <-> 8 < riskScore) /\
      (serve_try req up = None ->
         riskScore = 2 /\ violations = [] /\ action = auto_approve)
  end.
Proof.
  unfold serve.
  destruct (String.eqb (method req) "OPTIONS") eqn:Hm.
  - apply String.eqb_eq. exact Hm.
  - destruct (serve_try req up) as [resp |] eqn:Htry.
    + destruct (serve_try_shape req up resp Htry) as (v & viol & s & ->).
      split; [apply normalize_riskScore_range |].
      destruct (action_of_spec (normalize_riskScore v)) as (H1 & H2 & H3).
      split; [exact H1 |]. split; [exact H2 |]. split; [exact H3 |].
      intros H; discriminate H.
    + split; [lia |].
      split; [split; intros; [lia | reflexivity] |].
      split; [split; intros; [discriminate | lia] |].
      split; [split; intros; [discriminate | lia] |].
      intros _. repeat split.
Qed.

(** A body that is not JSON: the handler throws and the answer is the
    fail-open one. *)
Lemma serve_riskScore_and_action_witness :
  serve Examples.request_garbled Examples.no_upstream
  = Json 2 [] "Auto-approved (check unavailable)" auto_approve.
Proof.
  pose proof (serve_riskScore_and_action Examples.request_garbled Examples.no_upstream) as H.
  destruct (serve Examples.request_garbled Examples.no_upstream) as [| rs viol s a] eqn:E.
  - discriminate H.
  - destruct H as (_ & _ & _ & _ & H). destruct (H eq_refl) as (-> & -> & ->).
    vm_compute in E. injection E as <-. reflexivity.
Defined.

(** The local heuristic: a prohibited word sends the listing to review. *)
Example serve_heuristic_bad_word :
  serve (Examples.request_titled "Toy GUN, barely used") Examples.no_upstream
  = Json 7 ["Potential policy violation detected"] "Manual review recommended" needs_review.
Proof. reflexivity. Qed.

Example serve_heuristic_clean :
  serve (Examples.request_titled "Wooden chair") Examples.no_upstream
  = Json 2 [] "Looks good, no obvious issues" auto_approve.
Proof. reflexivity. Qed.

Example parseInt_examples :
  parseInt (JString "  8.5 high") = Some 8 /\
  parseInt (JString "0x1f") = Some 31 /\
  parseInt (JString "high") = None /\
  normalize_riskScore (JString "high") = 2 /\
  parseInt JNull = None /\
  normalize_riskScore (JNum "0") = 2 /\
  normalize_riskScore (JNum "7.9") = 7 /\
  normalize_riskScore (JNum "-3") = 1 /\
  normalize_riskScore (JNum "42") = 10.
Proof. repeat split; reflexivity. Qed.

End ComplianceCheck.

(* ===================================================================== *)
(** * Further properties of the code *)
(* ===================================================================== *)

(** ** Rounding and the multiplier table *)

Section Rounding.
Import Waste useWasteScanner.

Lemma Math_round_mono (x y : Q) : (x <= y)%Q -> Js.Math_round x <= Js.Math_round y.
Proof.
  intros H. unfold Js.Math_round. apply Qfloor_resp_le.
  apply Qplus_le_compat; [exact H | apply Qle_refl].
Qed.




End Rounding.

(** ** More on the scanner hook *)

Section ScannerMore.
Import Waste Store useWasteScanner.

(** The history and the animation flag [handleDisposalChoice] leaves. *)
Lemma handleDisposalChoice_history env auth choice h w item :
  lastScannedItem h = Some item ->
  let finalPoints' :=
    Js.Math_round (inject_Z (basePoints item) *
      Js.or_mult (option_map pointsMultiplier (findChoice (category item) choice)) 1) in
  exists item',
    lastScannedItem (handleDisposalChoice env auth choice h w).1.1 = Some item' /\
    scanHistory (handleDisposalChoice env auth choice h w).1.1 = item' :: scanHistory h /\
    showLevelUp (handleDisposalChoice env auth choice h w).1.1
    = (if bool_decide (choice = discard)
       then showLevelUp
              (checkLevelUp (level (stats h))
                 (calculateLevel (totalPoints (stats h) + finalPoints')) h)
       else showLevelUp h).
Proof.
  intros H fp. subst fp. unfold handleDisposalChoice, checkLevelUp. rewrite H.
  destruct (bool_decide (choice = discard)); simpl;
    try match goal with |- context [if ?c then _ else _] => destruct c end;
    eexists; repeat split.
Qed.

(** X1. Discarding is settled on the spot, for every category: the record is
    approved, its final points are added to [totalPoints], the level is
    recomputed from the new total, [itemsRecycled] grows by one and
    [pendingPoints] is untouched; for a signed-in user whose profile update is
    executed, the profile row receives the same totals. *)
Theorem discard_is_credited_at_once env auth h w item :
  lastScannedItem h = Some item ->
  let r := handleDisposalChoice env auth discard h w in
  exists item',
    lastScannedItem r.1.1 = Some item' /\
    status item' = approved /\
    disposalChoice item' = Some discard /\
    scanHistory r.1.1 = item' :: scanHistory h /\
    totalPoints (stats r.1.1) = totalPoints (stats h) + finalPoints item' /\
    level (stats r.1.1) = calculateLevel (totalPoints (stats r.1.1)) /\
    itemsRecycled (stats r.1.1) = itemsRecycled (stats h) + 1 /\
    pendingPoints (stats r.1.1) = pendingPoints (stats h) /\
    (forall uid p,
        isGuest auth = false -> user auth = Some uid ->
        reply env "profiles.update" = ok ->
        t_profiles (db w) !! uid = Some p ->
        t_profiles (db r.1.2) !! uid
        = Some {| profiles.total_points := totalPoints (stats r.1.1);
                  profiles.level := level (stats r.1.1);
                  profiles.streak := profiles.streak p;
                  profiles.items_recycled := itemsRecycled (stats r.1.1);
                  profiles.username := profiles.username p |}).
Proof.
  intros Hitem r.
  destruct (handleDisposalChoice_history env auth discard h w item Hitem)
    as (item' & Hlast & Hhist & _).
  pose proof (handleDisposalChoice_item env auth discard h w item Hitem) as Hi.
  pose proof (handleDisposalChoice_stats env auth discard h w item Hitem) as Hs.
  simpl in Hs.
  exists item'. subst r. rewrite Hlast in Hi. injection Hi as Hi.
  split; [exact Hlast |]. rewrite Hs, Hi. simpl.
  repeat (split; [first [reflexivity | rewrite <- Hi; exact Hhist] |]).
  intros uid p Hg Hu Hok Hp.
  unfold handleDisposalChoice. rewrite Hitem, Hg, Hu, Hok. simpl.
  destruct (reply env "scan_history.insert"); simpl;
    rewrite lookup_alter_eq, Hp; reflexivity.
Qed.

Lemma discard_is_credited_at_once_witness :
  let r := handleDisposalChoice Examples.env_ok Examples.signed_in discard
             (Examples.hook_at 95 (Some (Examples.item_of clothing 10)))
             (Examples.world_u1 95 1) in
  totalPoints (stats r.1.1) = 105 /\
  level (stats r.1.1) = 2 /\
  profiles.total_points <$> t_profiles (db r.1.2) !! "u1" = Some 105.
Proof.
  destruct (discard_is_credited_at_once Examples.env_ok Examples.signed_in
              (Examples.hook_at 95 (Some (Examples.item_of clothing 10)))
              (Examples.world_u1 95 1) (Examples.item_of clothing 10) eq_refl)
    as (item' & Hl & _ & _ & _ & Ht & Hlv & _ & _ & Hp).
  cbv zeta.
  rewrite (Hp "u1" (Examples.profile_of 95 1) eq_refl eq_refl eq_refl eq_refl).
  vm_compute. repeat split.
Defined.

(** X2. Every choice other than discard leaves the record pending: its final
    points go to [pendingPoints] only; [totalPoints], the level and
    [itemsRecycled] stay as they are and no profile row is written. *)
Theorem other_choices_wait_for_review env auth choice h w item :
  lastScannedItem h = Some item ->
  choice <> discard ->
  let r := handleDisposalChoice env auth choice h w in
  exists item',
    lastScannedItem r.1.1 = Some item' /\
    status item' = pending /\
    disposalChoice item' = Some choice /\
    pendingPoints (stats r.1.1) = pendingPoints (stats h) + finalPoints item' /\
    totalPoints (stats r.1.1) = totalPoints (stats h) /\
    level (stats r.1.1) = level (stats h) /\
    itemsRecycled (stats r.1.1) = itemsRecycled (stats h) /\
    showLevelUp r.1.1 = showLevelUp h /\
    t_profiles (db r.1.2) = t_profiles (db w).
Proof.
  intros Hitem Hne r.
  destruct (handleDisposalChoice_history env auth choice h w item Hitem)
    as (item' & Hlast & _ & Hshow).
  pose proof (handleDisposalChoice_item env auth choice h w item Hitem) as Hi.
  pose proof (handleDisposalChoice_stats env auth choice h w item Hitem) as Hs.
  simpl in Hs. rewrite (bool_decide_eq_false_2 _ Hne) in Hi, Hs, Hshow.
  exists item'. subst r. rewrite Hlast in Hi. injection Hi as Hi.
  split; [exact Hlast |]. rewrite Hs, Hi, Hshow. simpl.
  repeat (split; [reflexivity |]).
  apply handleDisposalChoice_profiles. exact Hne.
Qed.

Lemma other_choices_wait_for_review_witness :
  let r := handleDisposalChoice Examples.env_ok Examples.signed_in donate
             (Examples.hook_at 95 (Some (Examples.item_of clothing 10)))
             (Examples.world_u1 95 1) in
  pendingPoints (stats r.1.1) = 20 /\ totalPoints (stats r.1.1) = 95.
Proof.
  destruct (other_choices_wait_for_review Examples.env_ok Examples.signed_in donate
              (Examples.hook_at 95 (Some (Examples.item_of clothing 10)))
              (Examples.world_u1 95 1) (Examples.item_of clothing 10) eq_refl)
    as (item' & Hl & _ & _ & Hp & Ht & _); [discriminate |].
  cbv zeta. split; [| exact Ht]. rewrite Hp. vm_compute in Hl. injection Hl as <-. reflexivity.
Defined.



(** X4. The hook keeps [level] in step with [totalPoints]: if the stats
    satisfy [level = floor (totalPoints / 100) + 1] before a scan or a
    disposal choice, they satisfy it afterwards, whatever the result, the
    choice and the replies of the store. *)
Theorem hook_keeps_level_consistent env auth h w :
  level (stats h) = calculateLevel (totalPoints (stats h)) ->
  (forall result,
      level (stats (scanWithImage env auth result h w).1)
      = calculateLevel (totalPoints (stats (scanWithImage env auth result h w).1))) /\
  (forall choice,
      level (stats (handleDisposalChoice env auth choice h w).1.1)
      = calculateLevel (totalPoints (stats (handleDisposalChoice env auth choice h w).1.1))).
Proof.
  intros Hinv. split.
  - intros result. rewrite scanWithImage_stats.
    destruct (r_isRetry result); [exact Hinv |].
    destruct (bool_decide (r_category result = other)); [reflexivity | exact Hinv].
  - intros choice.
    destruct (lastScannedItem h) as [item |] eqn:Hitem.
    + rewrite (handleDisposalChoice_stats env auth choice h w item Hitem).
      destruct (bool_decide (choice = discard)); simpl; [reflexivity | exact Hinv].
    + unfold handleDisposalChoice. rewrite Hitem. exact Hinv.
Qed.

Lemma hook_keeps_level_consistent_witness :
  level (stats (scanWithImage Examples.env_ok Examples.guest (Examples.result_of other 8)
                  (Examples.hook_at 95 None) Examples.world_empty).1) = 2.
Proof.
  rewrite (proj1 (hook_keeps_level_consistent Examples.env_ok Examples.guest
                    (Examples.hook_at 95 None) Examples.world_empty eq_refl)
             (Examples.result_of other 8)).
  reflexivity.
Defined.




(** A level held out of step is replaced, not raised: the profile is loaded
    with the level as stored, which a purchase leaves stale.  With 50 points
    held at level 2, discarding an item worth 10 points gives level 1. *)
Lemma discard_replaces_a_stale_level :
  let h := setStats {| totalPoints := 50; level := 2; scansToday := 0; streak := 0;
                       itemsRecycled := 0; pendingPoints := 0 |}
             (Examples.hook_at 0 (Some (Examples.item_of clothing 10))) in
  let r := handleDisposalChoice Examples.env_ok Examples.guest discard h
             Examples.world_empty in
  totalPoints (stats r.1.1) = 60 /\ level (stats r.1.1) = 1.
Proof. vm_compute. split; reflexivity. Qed.

(** X6. A result flagged as the retry signal is not recorded: it becomes the
    last scanned item, the reward is not shown, and the stats, the history,
    the tables and localStorage stay exactly as they were.  The photo of a
    signed-in user has been uploaded to the bucket by then, and stays there;
    for a caller without a user nothing at all is written. *)
Theorem retry_signal_is_not_recorded env auth result h w :
  r_isRetry result = true ->
  let r := scanWithImage env auth result h w in
  isRetry <$> lastScannedItem r.1 = Some true /\
  showReward r.1 = false /\
  stats r.1 = stats h /\
  scanHistory r.1 = scanHistory h /\
  showLevelUp r.1 = showLevelUp h /\
  db r.2 = db w /\
  localStorage r.2 = localStorage w /\
  scan_images r.2
  = (scan_images w
     ++ match user auth, uploadedUrl env with
        | Some _, Some url => [url]
        | _, _ => []
        end)%list /\
  (user auth = None -> r.2 = w).
Proof.
  intros Hretry r. subst r. unfold scanWithImage.
  destruct (scan_upload env auth w) as (_ & Hdb & Hls & Hbucket).
  assert (Hnone : user auth = None ->
                  (match user auth with
                   | Some _ => uploadScanImage env w
                   | None => (None, w)
                   end).2 = w) by (intros ->; reflexivity).
  destruct (match user auth with
            | Some _ => uploadScanImage env w
            | None => (None, w)
            end) as [img w0].
  rewrite Hretry. simpl in *.
  split; [reflexivity |]. split; [reflexivity |]. split; [reflexivity |].
  split; [reflexivity |]. split; [reflexivity |].
  split; [exact Hdb |]. split; [exact Hls |]. split; [exact Hbucket | exact Hnone].
Qed.

(** The retry of a signed-in user, whose upload succeeds: the tables are as
    before and the bucket holds the photo. *)
Lemma retry_signal_is_not_recorded_witness :
  let r := scanWithImage Examples.env_uploading Examples.signed_in
             wasteClassifierBinary.unidentified
             (Examples.hook_at 95 None) (Examples.world_u1 95 1) in
  stats r.1 = stats (Examples.hook_at 95 None) /\
  db r.2 = db (Examples.world_u1 95 1) /\
  scan_images r.2 = ["https://storage.example/scan-images/u1/1.jpg"].
Proof.
  destruct (retry_signal_is_not_recorded Examples.env_uploading Examples.signed_in
              wasteClassifierBinary.unidentified (Examples.hook_at 95 None)
              (Examples.world_u1 95 1) eq_refl) as (_ & _ & H1 & _ & _ & H2 & _ & H3 & _).
  cbv zeta. split; [exact H1 |]. split; [exact H2 | exact H3].
Defined.

Lemma spread_stats_toStored s : spread_stats (toStored s) = s.
Proof. destruct s; reflexivity. Qed.

Lemma load_item_id item :
  (basePoints item = 0 -> points item = 0) ->
  (finalPoints item = 0 -> points item = 0) ->
  load_item item = item.
Proof.
  intros Hb Hf. destruct item as [i n c p im st dc b f ai hc cs ih ir]. simpl in *.
  unfold load_item, Js.or_num. simpl.
  destruct (Z.eqb_spec b 0) as [-> | _], (Z.eqb_spec f 0) as [-> | _];
    rewrite ?Hb, ?Hf by reflexivity; reflexivity.
Qed.

(** X7. What [saveGuestData] stores, [loadGuestData] reads back: on the same
    day the stats are exactly the saved ones and the history is the saved
    list, provided no item has zero base or final points while its [points]
    are not zero (such a field is replaced by [points] on loading); on a later
    day only [scansToday] differs, reset to 0. *)
Theorem guest_data_round_trip deviceId s l ls h :
  Forall (fun i => (basePoints i = 0 -> points i = 0) /\
                   (finalPoints i = 0 -> points i = 0)) l ->
  let stored := saveGuestData deviceId s l ls in
  stats (loadGuestData true deviceId stored h) = s /\
  scanHistory (loadGuestData true deviceId stored h) = l /\
  lastScannedItem (loadGuestData true deviceId stored h) = lastScannedItem h /\
  stats (loadGuestData false deviceId stored h)
  = {| totalPoints := totalPoints s; level := level s; scansToday := 0;
       streak := streak s; itemsRecycled := itemsRecycled s;
       pendingPoints := pendingPoints s |} /\
  scanHistory (loadGuestData false deviceId stored h) = l.
Proof.
  intros Hl stored.
  assert (Hmap : List.map load_item l = l).
  { induction Hl as [| i l' [Hb Hf] _ IH]; [reflexivity |].
    simpl. rewrite IH, (load_item_id i Hb Hf). reflexivity. }
  assert (Hs : stored !! guest_key GUEST_STATS_KEY deviceId = Some (JStats (toStored s)))
    by apply saveGuestData_stats.
  assert (Hh : stored !! guest_key GUEST_HISTORY_KEY deviceId = Some (JHistory l))
    by apply lookup_insert_eq.
  unfold loadGuestData. rewrite Hs, Hh. simpl. rewrite Hmap.
  rewrite spread_stats_toStored. destruct s; repeat split.
Qed.

Lemma guest_data_round_trip_witness :
  let stored := saveGuestData "device-1"
                  (stats (Examples.hook_at 95 None)) [Examples.item_of clothing 10] ∅ in
  stats (loadGuestData true "device-1" stored Examples.hook_idle)
  = stats (Examples.hook_at 95 None) /\
  scanHistory (loadGuestData true "device-1" stored Examples.hook_idle)
  = [Examples.item_of clothing 10].
Proof.
  destruct (guest_data_round_trip "device-1" (stats (Examples.hook_at 95 None))
              [Examples.item_of clothing 10] ∅ Examples.hook_idle) as (H1 & H2 & _).
  - constructor; [split; discriminate | constructor].
  - split; [exact H1 | exact H2].
Defined.

(** X8. The edges of [loadGuestData].  With nothing stored for the device the
    hook is left as it is.  Stats that cannot be read (text that is not JSON,
    or [null]) abort the whole load: nothing is set, not even a readable
    history.  A history that cannot be read aborts after the stats were set:
    the stats are loaded and the history held is kept. *)
Theorem loadGuestData_edges storedToday deviceId ls h :
  (ls !! guest_key GUEST_STATS_KEY deviceId = None ->
   ls !! guest_key GUEST_HISTORY_KEY deviceId = None ->
   loadGuestData storedToday deviceId ls h = h) /\
  (forall v,
      ls !! guest_key GUEST_STATS_KEY deviceId = Some v ->
      saved (Some v) = true -> load_stats storedToday v = None ->
      loadGuestData storedToday deviceId ls h = h) /\
  (forall parsed v,
      ls !! guest_key GUEST_STATS_KEY deviceId = Some (JStats parsed) ->
      ls !! guest_key GUEST_HISTORY_KEY deviceId = Some v ->
      saved (Some v) = true -> load_history v = None ->
      loadGuestData storedToday deviceId ls h
      = setStats (spread_stats (if storedToday then parsed else reset_scansToday parsed)) h).
Proof.
  unfold loadGuestData. split; [| split].
  - intros Hs Hh. rewrite Hs, Hh. reflexivity.
  - intros v Hs Hsaved Hload. rewrite Hs, Hsaved. simpl. rewrite Hload. reflexivity.
  - intros parsed v Hs Hh Hsaved Hload. rewrite Hs, Hh, Hsaved. simpl.
    rewrite Hload. reflexivity.
Qed.

Lemma loadGuestData_edges_witness :
  loadGuestData true "device-1"
    (<["ecoscan_guest_history_device-1" := JHistory [Examples.item_of clothing 10]]>
       (<["ecoscan_guest_stats_device-1" := JText "{broken"]> ∅))
    Examples.hook_idle
  = Examples.hook_idle.
Proof.
  apply (proj1 (proj2 (loadGuestData_edges true "device-1"
                         (<["ecoscan_guest_history_device-1" :=
                              JHistory [Examples.item_of clothing 10]]>
                            (<["ecoscan_guest_stats_device-1" := JText "{broken"]> ∅))
                         Examples.hook_idle)) (JText "{broken"));
    reflexivity.
Defined.

(** X9. Discarding never pays more than another choice: for an item with
    non-negative base points, the final points of discard are at most the
    final points of any other choice applied to the same item. *)
Theorem discard_pays_least env auth h w item choice :
  lastScannedItem h = Some item ->
  0 <= basePoints item ->
  exists low high,
    finalPoints <$> lastScannedItem (handleDisposalChoice env auth discard h w).1.1 = Some low /\
    finalPoints <$> lastScannedItem (handleDisposalChoice env auth choice h w).1.1 = Some high /\
    low <= high.
Proof.
  intros Hitem Hb.
  rewrite (handleDisposalChoice_item env auth discard h w item Hitem).
  rewrite (handleDisposalChoice_item env auth choice h w item Hitem).
  simpl. eexists _, _. split; [reflexivity |]. split; [reflexivity |].
  apply Math_round_mono.
  rewrite !(Qmult_comm (inject_Z (basePoints item))).
  apply Qmult_le_compat_r.
  - destruct (category item), choice; vm_compute; discriminate.
  - change 0%Q with (inject_Z 0). rewrite <- Zle_Qle. exact Hb.
Qed.

Lemma discard_pays_least_witness :
  exists low high,
    finalPoints <$> lastScannedItem
      (handleDisposalChoice Examples.env_ok Examples.guest discard
         (Examples.hook_with (Examples.item_of electronics 9)) Examples.world_empty).1.1
    = Some low /\
    finalPoints <$> lastScannedItem
      (handleDisposalChoice Examples.env_ok Examples.guest recycle
         (Examples.hook_with (Examples.item_of electronics 9)) Examples.world_empty).1.1
    = Some high /\
    low <= high.
Proof.
  apply (discard_pays_least Examples.env_ok Examples.guest
           (Examples.hook_with (Examples.item_of electronics 9)) Examples.world_empty
           (Examples.item_of electronics 9) recycle eq_refl).
  simpl. lia.
Defined.

End ScannerMore.

(** ** The classification pipeline *)

Section Classifier.
Import Waste useWasteScanner ClassifyWaste.

(** What [normalize] returns, field by field. *)
Lemma normalize_fields r c :
  normalize r = Some c ->
  let cat :=
    match category r ≫= valid_category with
    | Some c' => c'
    | None => if bool_decide (category r = Some "creative") then recyclable else other
    end in
  let creative :=
    match category r ≫= valid_category with
    | Some _ => hasCreativePotential r
    | None => if bool_decide (category r = Some "creative") then is_true
              else hasCreativePotential r
    end in
  let basePoints := (fun p => Z.max 5 (Z.min 30 p)) <$> points_or_10 (points r) in
  let should := bool_decide (cat = recyclable) || bool_decide (cat = clothing)
                || bool_decide (creative = is_true) in
  c_category c = cat /\
  c_points c = (if holds creative then (fun b => Z.min 30 (b + 5)) <$> basePoints
                else basePoints) /\
  c_hasCreativePotential c = should /\
  c_name c = name r /\
  c_canTrade c = canTrade r /\
  c_aiSuggestion c = (if given (aiSuggestion r) then aiSuggestion r
                      else Compliance.text (getDefaultSuggestion cat (canTrade r))) /\
  (exists valid, hasValidItemName (name r) = Some valid /\
                 c_isHuman c = if valid then falsy else isHuman r) /\
  (should = false -> c_creativeSuggestion c = Compliance.absent) /\
  (should = true -> given (creativeSuggestion r) = true ->
     c_creativeSuggestion c = creativeSuggestion r) /\
  (should = true -> given (creativeSuggestion r) = false ->
     exists n, lower_name (name r) = Some n /\
               c_creativeSuggestion c = Compliance.text (getDefaultCreativeSuggestion n cat)).
Proof.
  unfold normalize.
  destruct (category r ≫= valid_category) as [c' |];
    [| destruct (bool_decide (category r = Some "creative"))];
    cbv beta iota zeta;
    (match goal with
     | |- context [if ?b then (if given _ then _ else _) else Some Compliance.absent] =>
         destruct b eqn:Hshould
     end);
    (destruct (given (creativeSuggestion r)) eqn:Hgiven);
    try (destruct (lower_name (name r)) as [n |] eqn:Hlower; simpl; [| discriminate]);
    (destruct (hasValidItemName (name r)) as [valid |] eqn:Hvalid; [| discriminate]);
    intros H; injection H as <-; simpl;
    repeat (split; [reflexivity |]);
    (split; [exists valid; split; reflexivity |]);
    repeat split; intros; try discriminate; try reflexivity; eauto.
Qed.



(** Points that are not a number: the classification carries NaN, which is
    sent as null, and the client makes it 10. *)
Lemma points_not_a_number_become_10 :
  exists c result,
    parseClassification
      (object {| name := Compliance.text "glass bottle"; category := Some "other";
                 points := not_a_number; canTrade := false;
                 aiSuggestion := Compliance.absent; hasCreativePotential := falsy;
                 creativeSuggestion := Compliance.absent; isHuman := falsy |}) = Some c /\
    c_points c = None /\
    wasteClassifierBinary.classifyWasteImageBinary (wasteClassifierBinary.classified c)
    = Some result /\
    r_points result = 10.
Proof. eexists _, _. repeat split. Qed.

Lemma valid_category_name c : valid_category (category_name c) = Some c.
Proof. destruct c; reflexivity. Qed.

Lemma valid_category_inv s c : valid_category s = Some c -> s = category_name c.
Proof.
  unfold valid_category.
  repeat match goal with
         | |- context [String.eqb s ?x] => destruct (String.eqb_spec s x) as [-> | _]
         end; intros H; try discriminate; injection H as <-; reflexivity.
Qed.

(** X11. The category of a classification is always one of the six of the
    client.  The names the endpoint accepts are exactly the names of those
    six; a category named by the model is kept; "creative" becomes recyclable
    with creative potential; anything else becomes other. *)
Theorem parseClassification_category :
  (forall c, valid_category (category_name c) = Some c) /\
  (forall s c, valid_category s = Some c -> s = category_name c) /\
  (forall r c,
      parseClassification (object r) = Some c ->
      (forall cat, category r = Some (category_name cat) -> c_category c = cat) /\
      (category r = Some "creative" ->
         c_category c = recyclable /\ c_hasCreativePotential c = true) /\
      (category r ≫= valid_category = None -> category r <> Some "creative" ->
         c_category c = other)).
Proof.
  split; [exact valid_category_name |]. split; [exact valid_category_inv |].
  intros r c H. simpl in H.
  destruct (normalize_fields r c H) as (Hcat & _ & Hcp & _). simpl in Hcat, Hcp.
  split; [| split].
  - intros cat Hr. rewrite Hcat, Hr. simpl. rewrite valid_category_name. reflexivity.
  - intros Hr. rewrite Hcat, Hcp, Hr. simpl. split; reflexivity.
  - intros Hnone Hne. rewrite Hcat, Hnone.
    rewrite (bool_decide_eq_false_2 _ Hne). reflexivity.
Qed.

Lemma parseClassification_category_witness :
  exists c,
    parseClassification
      (object {| name := Compliance.text "old jeans"; category := Some "creative";
                 points := number 12; canTrade := true;
                 aiSuggestion := Compliance.absent; hasCreativePotential := falsy;
                 creativeSuggestion := Compliance.absent; isHuman := falsy |}) = Some c /\
    c_category c = recyclable /\ c_hasCreativePotential c = true.
Proof.
  eexists. split; [reflexivity |].
  apply (proj2 (proj2 parseClassification_category)
           {| name := Compliance.text "old jeans"; category := Some "creative";
              points := number 12; canTrade := true;
              aiSuggestion := Compliance.absent; hasCreativePotential := falsy;
              creativeSuggestion := Compliance.absent; isHuman := falsy |});
    reflexivity.
Defined.

Lemma getDefaultCreativeSuggestion_given n cat :
  Js.truthy (getDefaultCreativeSuggestion n cat) = true.
Proof.
  unfold getDefaultCreativeSuggestion.
  repeat match goal with |- context [if ?b then _ else _] => destruct b end; reflexivity.
Qed.

Lemma getDefaultSuggestion_given cat b : Js.truthy (getDefaultSuggestion cat b) = true.
Proof. destruct cat, b; reflexivity. Qed.

(** X12. The fields a classification always carries: a suggestion for the
    disposal; creative potential for every recyclable or clothing item; a
    creative suggestion exactly when there is creative potential (null
    otherwise); and a name that is a string or missing. *)
Theorem parseClassification_fields t c :
  parseClassification t = Some c ->
  given (c_aiSuggestion c) = true /\
  (c_category c = recyclable \/ c_category c = clothing -> c_hasCreativePotential c = true) /\
  (c_hasCreativePotential c = true -> given (c_creativeSuggestion c) = true) /\
  (c_hasCreativePotential c = false -> c_creativeSuggestion c = Compliance.absent) /\
  c_name c <> Compliance.non_text.
Proof.
  intros H.
  assert (Hn : exists r, normalize r = Some c).
  { destruct t as [| | | r]; simpl in H; try discriminate; eauto. }
  destruct Hn as (r & Hr).
  destruct (normalize_fields r c Hr)
    as (Hcat & _ & Hcp & Hname & _ & Hai & (valid & Hvalid & _) & Hno & Hkeep & Hdef).
  simpl in *.
  split; [| split; [| split; [| split]]].
  - rewrite Hai. destruct (given (aiSuggestion r)) eqn:Hg; [exact Hg |].
    simpl. apply getDefaultSuggestion_given.
  - intros Hc. rewrite Hcp, <- Hcat.
    destruct Hc as [-> | ->]; reflexivity.
  - intros Htrue. rewrite Hcp in Htrue.
    destruct (given (creativeSuggestion r)) eqn:Hg.
    + rewrite (Hkeep Htrue eq_refl). exact Hg.
    + destruct (Hdef Htrue eq_refl) as (n & _ & ->). simpl.
      apply getDefaultCreativeSuggestion_given.
  - intros Hfalse. rewrite Hcp in Hfalse. exact (Hno Hfalse).
  - rewrite Hname. intros Hnt. rewrite Hnt in Hvalid. discriminate.
Qed.

Lemma parseClassification_fields_witness :
  exists c,
    parseClassification unparsable = Some c /\
    given (c_aiSuggestion c) = true /\ c_creativeSuggestion c = Compliance.absent.
Proof.
  eexists. split; [reflexivity |].
  destruct (parseClassification_fields unparsable _ eq_refl) as (H1 & _ & _ & H4 & _).
  split; [exact H1 | apply H4; reflexivity].
Defined.

(** The three kinds of result the client returns. *)
Lemma classifyWasteImageBinary_cases a result :
  wasteClassifierBinary.classifyWasteImageBinary a = Some result ->
  result = wasteClassifierBinary.unidentified \/
  (result = wasteClassifierBinary.human_detected /\
   exists data, a = wasteClassifierBinary.classified data /\ c_isHuman data = is_true) \/
  (exists data name,
      a = wasteClassifierBinary.classified data /\
      c_name data = Compliance.text name /\
      c_isHuman data <> is_true /\
      r_isRetry result = false /\
      r_isHuman result = false /\
      r_category result = c_category data /\
      r_points result = Js.or_field (c_points data) 10 /\
      r_hasCreativePotential result = c_hasCreativePotential data /\
      r_aiSuggestion result
      = Some (default (wasteClassifierBinary.defaultDisposalSuggestion (c_category data))
                (wasteClassifierBinary.usable_text (c_aiSuggestion data))) /\
      r_creativeSuggestion result
      = (if c_hasCreativePotential data then
           match wasteClassifierBinary.usable_text (c_creativeSuggestion data) with
           | Some s => Some s
           | None =>
               wasteClassifierBinary.defaultCreativeSuggestion
                 (wasteClassifierBinary.normalizePackagingName name (c_category data))
                 (c_category data)
           end
         else None)).
Proof.
  unfold wasteClassifierBinary.classifyWasteImageBinary.
  destruct a as [| | data]; [discriminate | intros H; injection H as <-; auto |].
  destruct (bool_decide (c_isHuman data = is_true)) eqn:Hh.
  - intros H. injection H as <-. right. left. split; [reflexivity |].
    exists data. split; [reflexivity |]. exact (bool_decide_eq_true_1 _ Hh).
  - apply bool_decide_eq_false_1 in Hh.
    destruct (lower_name (c_name data)) as [lowered |]; [| discriminate].
    match goal with |- context [if ?b then _ else _] => destruct b end;
      [intros H; injection H as <-; auto |].
    destruct (c_name data) as [| name |] eqn:Hname; try discriminate.
    intros H. injection H as <-. right. right.
    exists data, name. repeat split; try assumption; reflexivity.
Qed.

(** X13. An item with a proper name is never taken for a person: when the
    model names an item (a non-blank name other than "human", "null" and
    "unknown"), the result the hook receives is not the human detection, even
    if the model also flagged a human. *)
Theorem named_item_is_never_human r result :
  hasValidItemName (name r) = Some true ->
  wasteClassifierBinary.classify (object r) = Some result ->
  r_isHuman result = false /\ result <> wasteClassifierBinary.human_detected.
Proof.
  intros Hvalid H. unfold wasteClassifierBinary.classify in H.
  destruct (parseClassification (object r)) as [c |] eqn:Hc; [| discriminate].
  simpl in Hc.
  destruct (normalize_fields r c Hc) as (_ & _ & _ & _ & _ & _ & (v & Hv & Hhuman) & _).
  rewrite Hvalid in Hv. injection Hv as <-.
  assert (Hr : r_isHuman result = false).
  { destruct (classifyWasteImageBinary_cases _ _ H)
      as [-> | [(_ & data & Hd & Htrue) | (data & n & _ & _ & _ & _ & Hf & _)]].
    - reflexivity.
    - injection Hd as <-. rewrite Hhuman in Htrue. discriminate.
    - exact Hf. }
  split; [exact Hr |]. intros ->. discriminate Hr.
Qed.

Lemma named_item_is_never_human_witness :
  exists result,
    wasteClassifierBinary.classify
      (object {| name := Compliance.text "plastic bottle"; category := Some "recyclable";
                 points := number 12; canTrade := false;
                 aiSuggestion := Compliance.absent; hasCreativePotential := falsy;
                 creativeSuggestion := Compliance.absent; isHuman := is_true |})
    = Some result /\ r_isHuman result = false.
Proof.
  eexists. split; [reflexivity |].
  apply (named_item_is_never_human
           {| name := Compliance.text "plastic bottle"; category := Some "recyclable";
              points := number 12; canTrade := false;
              aiSuggestion := Compliance.absent; hasCreativePotential := falsy;
              creativeSuggestion := Compliance.absent; isHuman := is_true |});
    reflexivity.
Defined.

(** A name that is only a no-break space (U+00A0) is blank, so it names no
    item: a human flagged with it stays a human. *)
Lemma no_break_space_names_no_item :
  let nbsp := String (ascii_of_nat 194) (String (ascii_of_nat 160) EmptyString) in
  hasValidItemName (Compliance.text nbsp) = Some false /\
  wasteClassifierBinary.classify
    (object {| name := Compliance.text nbsp; category := Some "other";
               points := number 10; canTrade := false;
               aiSuggestion := Compliance.absent; hasCreativePotential := falsy;
               creativeSuggestion := Compliance.absent; isHuman := is_true |})
  = Some wasteClassifierBinary.human_detected.
Proof. vm_compute. split; reflexivity. Qed.

Lemma parseClassification_some_points t c p :
  parseClassification t = Some c -> c_points c = Some p -> 5 <= p <= 30.
Proof.
  intros H.
  assert (Hn : exists r, normalize r = Some c).
  { destruct t as [| | | r]; simpl in H; try discriminate; eauto. }
  destruct Hn as (r & Hr).
  destruct (normalize_fields r c Hr) as (_ & Hp & _). simpl in Hp.
  rewrite Hp.
  destruct (points_or_10 (points r)) as [given |]; destruct (holds _); simpl;
    intros E; try discriminate; injection E as <-; lia.
Qed.

(** What the client makes of the points: they are kept, and NaN becomes 10. *)
Lemma parseClassification_range t c :
  parseClassification t = Some c ->
  Js.or_field (c_points c) 10 = default 10 (c_points c) /\
  5 <= Js.or_field (c_points c) 10 <= 30.
Proof.
  intros H. pose proof (parseClassification_some_points t c) as Hsome.
  unfold Js.or_field, Js.or_num.
  destruct (c_points c) as [p |]; simpl; [| split; [reflexivity | lia]].
  specialize (Hsome p H eq_refl).
  destruct (Z.eqb_spec p 0); [lia |]. split; [reflexivity | lia].
Qed.

(** X14. What reaches the hook, from the text of the model through the
    endpoint and the client: either the retry signal or the human detection,
    both in category "other" with 0 points, or a result that is neither, with
    the category of the classification and between 5 and 30 points. *)
Theorem classify_outcomes t result :
  wasteClassifierBinary.classify t = Some result ->
  (result = wasteClassifierBinary.unidentified /\ r_isRetry result = true
     /\ r_points result = 0 /\ r_category result = other) \/
  (result = wasteClassifierBinary.human_detected /\ r_isHuman result = true
     /\ r_points result = 0 /\ r_category result = other) \/
  (r_isRetry result = false /\ r_isHuman result = false /\
   5 <= r_points result <= 30 /\
   exists c, parseClassification t = Some c /\
             r_category result = c_category c /\
             r_points result = default 10 (c_points c)).
Proof.
  intros H. unfold wasteClassifierBinary.classify in H.
  destruct (classifyWasteImageBinary_cases _ _ H)
    as [-> | [(-> & _) | (data & n & Ha & _ & _ & Hr & Hh & Hc & Hp & _)]].
  - left. repeat split.
  - right. left. repeat split.
  - right. right.
    destruct (parseClassification t) as [c |] eqn:Ht; [| discriminate].
    injection Ha as <-.
    destruct (parseClassification_range t c Ht) as [Hkept Hrange].
    split; [exact Hr |]. split; [exact Hh |]. split; [rewrite Hp; exact Hrange |].
    exists c. split; [reflexivity |]. split; [exact Hc |].
    rewrite Hp. exact Hkept.
Qed.

Lemma classify_outcomes_witness :
  exists result,
    wasteClassifierBinary.classify unparsable = Some result /\
    r_isRetry result = false /\ 5 <= r_points result <= 30.
Proof.
  eexists. split; [reflexivity |].
  destruct (classify_outcomes unparsable _ eq_refl)
    as [(_ & H & _) | [(_ & H & _) | (H1 & _ & H2 & _)]];
    [discriminate H | discriminate H | split; assumption].
Defined.

Lemma defaultDisposalSuggestion_no_CJK cat :
  JsString.containsCJK (wasteClassifierBinary.defaultDisposalSuggestion cat) = false.
Proof. destruct cat; vm_compute; reflexivity. Qed.

Lemma defaultCreativeSuggestion_no_CJK name cat s :
  wasteClassifierBinary.defaultCreativeSuggestion name cat = Some s ->
  JsString.containsCJK s = false.
Proof.
  unfold wasteClassifierBinary.defaultCreativeSuggestion.
  repeat match goal with |- context [if ?b then _ else _] => destruct b end;
    intros H; try discriminate; injection H as <-; vm_compute; reflexivity.
Qed.

Lemma usable_text_no_CJK f s :
  wasteClassifierBinary.usable_text f = Some s -> JsString.containsCJK s = false.
Proof.
  destruct f as [| x |]; simpl; try discriminate.
  destruct (Js.truthy (JsString.trim x)); simpl; [| discriminate].
  destruct (JsString.containsCJK x) eqn:E; simpl; [discriminate |].
  intros H. injection H as <-. exact E.
Qed.

(** X15. No text with Chinese characters is ever shown as a suggestion: the
    disposal suggestion of every result the client returns is present and
    holds no character of U+4E00..U+9FFF, and neither does its creative
    suggestion (such a text from the model is replaced by the English
    default). *)
Theorem suggestions_hold_no_CJK a result :
  wasteClassifierBinary.classifyWasteImageBinary a = Some result ->
  (exists s, r_aiSuggestion result = Some s /\ JsString.containsCJK s = false) /\
  (forall s, r_creativeSuggestion result = Some s -> JsString.containsCJK s = false).
Proof.
  intros H.
  destruct (classifyWasteImageBinary_cases _ _ H)
    as [-> | [(-> & _) | (data & n & _ & _ & _ & _ & _ & _ & _ & _ & Hai & Hcs)]].
  - split; [eexists; split; [reflexivity | vm_compute; reflexivity] |].
    intros s Hs. discriminate Hs.
  - split; [eexists; split; [reflexivity | vm_compute; reflexivity] |].
    intros s Hs. discriminate Hs.
  - split.
    + eexists. split; [exact Hai |].
      destruct (wasteClassifierBinary.usable_text (c_aiSuggestion data)) as [x |] eqn:E; simpl.
      * exact (usable_text_no_CJK _ _ E).
      * apply defaultDisposalSuggestion_no_CJK.
    + intros s Hs. rewrite Hcs in Hs.
      destruct (c_hasCreativePotential data); [| discriminate].
      destruct (wasteClassifierBinary.usable_text (c_creativeSuggestion data)) as [x |] eqn:E.
      * injection Hs as <-. exact (usable_text_no_CJK _ _ E).
      * exact (defaultCreativeSuggestion_no_CJK _ _ _ Hs).
Qed.

(** A suggestion in Chinese is replaced by the default for the category. *)
Lemma suggestions_hold_no_CJK_witness :
  exists result,
    wasteClassifierBinary.classifyWasteImageBinary
      (wasteClassifierBinary.classified
         {| c_name := Compliance.text "battery"; c_category := hazardous;
            c_points := Some 20; c_canTrade := false;
            c_aiSuggestion := Compliance.text "请送至有害垃圾回收点";
            c_hasCreativePotential := false;
            c_creativeSuggestion := Compliance.absent; c_isHuman := falsy |})
    = Some result /\
    r_aiSuggestion result
    = Some (wasteClassifierBinary.defaultDisposalSuggestion hazardous) /\
    exists s, r_aiSuggestion result = Some s /\ JsString.containsCJK s = false.
Proof.
  eexists. split; [reflexivity |]. split; [reflexivity |].
  apply (suggestions_hold_no_CJK
           (wasteClassifierBinary.classified
              {| c_name := Compliance.text "battery"; c_category := hazardous;
                 c_points := Some 20; c_canTrade := false;
                 c_aiSuggestion := Compliance.text "请送至有害垃圾回收点";
                 c_hasCreativePotential := false;
                 c_creativeSuggestion := Compliance.absent; c_isHuman := falsy |})).
  reflexivity.
Defined.

Lemma classify_cases_points t result :
  wasteClassifierBinary.classify t = Some result -> r_points result = 0 \/ 5 <= r_points result <= 30.
Proof.
  intros H. unfold wasteClassifierBinary.classify in H.
  destruct (classifyWasteImageBinary_cases _ _ H)
    as [-> | [(-> & _) | (data & n & Ha & _ & _ & _ & _ & _ & Hp & _)]];
    [left; reflexivity | left; reflexivity |].
  right. destruct (parseClassification t) as [c |] eqn:Ht; [| discriminate].
  injection Ha as <-. rewrite Hp. exact (proj2 (parseClassification_range t c Ht)).
Qed.

(** X16. What one scan can credit, whatever the model answered: the total
    never drops and rises by at most 30 points, and it rises only for a result
    in category "other" that is not the retry signal.  In particular a reply
    of the model that is not JSON is recorded as an item of category "other"
    worth 5 points, credited at once. *)
Theorem scan_credits_at_most_30 t result env auth h w :
  wasteClassifierBinary.classify t = Some result ->
  let h' := (scanWithImage env auth result h w).1 in
  totalPoints (stats h) <= totalPoints (stats h') <= totalPoints (stats h) + 30 /\
  (totalPoints (stats h') <> totalPoints (stats h) ->
     r_category result = other /\ r_isRetry result = false) /\
  (t = unparsable ->
     r_name result = "Unknown Item" /\
     totalPoints (stats h') = totalPoints (stats h) + 5).
Proof.
  intros H h'.
  assert (Hpts : 0 <= r_points result <= 30).
  { destruct (classify_cases_points t result H); lia. }
  assert (Hh' : totalPoints (stats h')
                = if r_isRetry result then totalPoints (stats h)
                  else if bool_decide (r_category result = other)
                       then totalPoints (stats h) + r_points result
                       else totalPoints (stats h)).
  { subst h'. rewrite scanWithImage_stats.
    destruct (r_isRetry result); [reflexivity |].
    destruct (bool_decide (r_category result = other)); reflexivity. }
  rewrite Hh'. split; [| split].
  - destruct (r_isRetry result); [lia |].
    destruct (bool_decide (r_category result = other)); lia.
  - destruct (r_isRetry result); [intros Hne; contradiction |].
    destruct (bool_decide (r_category result = other)) eqn:E;
      [| intros Hne; contradiction].
    intros _. split; [exact (bool_decide_eq_true_1 _ E) | reflexivity].
  - intros ->. vm_compute in H. injection H as <-. simpl. split; reflexivity.
Qed.

Lemma scan_credits_at_most_30_witness :
  exists result,
    wasteClassifierBinary.classify unparsable = Some result /\
    r_name result = "Unknown Item" /\
    totalPoints (stats (scanWithImage Examples.env_ok Examples.signed_in result
                          (Examples.hook_at 95 None) (Examples.world_u1 95 1)).1)
    = totalPoints (stats (Examples.hook_at 95 None)) + 5.
Proof.
  eexists. split; [reflexivity |].
  exact (proj2 (proj2 (scan_credits_at_most_30 unparsable _ Examples.env_ok
                         Examples.signed_in (Examples.hook_at 95 None)
                         (Examples.world_u1 95 1) eq_refl)) eq_refl).
Defined.

End Classifier.

(* ===================================================================== *)
(** ** The marketplace hook, further *)
(* ===================================================================== *)

Section MarketplaceMore.
Import Store Market Try useMarketplace.

Lemma with_marketplace_listings_same g d :
  g (t_marketplace_listings d) = t_marketplace_listings d ->
  with_marketplace_listings g d = d.
Proof. destruct d; simpl. intros H. unfold with_marketplace_listings. simpl. rewrite H. reflexivity. Qed.

(** A relation on the tables that holds of every step holds of the whole
    [try] block. *)
Lemma bind_preserves (R : Db -> Db -> Prop) {A B} (c : M A) (k : A -> M B) :
  (forall d1 d2 d3, R d1 d2 -> R d2 d3 -> R d1 d3) ->
  (forall d, R d (c d).1) ->
  (forall a d, R d (k a d).1) ->
  forall d, R d (bind c k d).1.
Proof.
  intros Htrans Hc Hk d. unfold bind. specialize (Hc d).
  destruct (c d) as [d' [a |]]; simpl in *.
  - eapply Htrans; [exact Hc | apply Hk].
  - exact Hc.
Qed.

(** X17. The guards of a purchase.  A call without a user, for the buyer's
    own listing or with a balance below the price writes nothing and returns
    false without having tried; a call that returns true was made by a user
    who is not the seller, with a balance that covers the price, and none of
    the order insert, the listing update and the buyer update came back with
    an error. *)
Theorem purchaseListing_guarded env user listing buyerPoints d :
  let r := purchaseListing env user listing buyerPoints d in
  (user = None \/ user = Some (sellerId listing) \/ buyerPoints < pricePoints listing ->
     r.1.1 = d /\ r.1.2 = false /\ r.2 <> toast_failed) /\
  (r.1.2 = true ->
     (exists uid, user = Some uid /\ uid <> sellerId listing) /\
     pricePoints listing <= buyerPoints /\
     r.2 = toast_complete (pricePoints listing) /\
     reply env "orders.insert" <> failed /\
     reply env "marketplace_listings.update" <> failed /\
     reply env "profiles.update:buyer" <> failed).
Proof.
  intros r. subst r. unfold purchaseListing. split.
  - intros [-> | [-> | Hlt]].
    + repeat split. discriminate.
    + rewrite bool_decide_eq_true_2 by reflexivity. repeat split. discriminate.
    + destruct user as [uid |]; [| repeat split; discriminate].
      destruct (bool_decide (sellerId listing = uid)); [repeat split; discriminate |].
      apply Z.ltb_lt in Hlt. rewrite Hlt. repeat split. discriminate.
  - destruct user as [uid |]; [| discriminate].
    destruct (bool_decide (sellerId listing = uid)) eqn:Hown; [discriminate |].
    destruct (buyerPoints <? pricePoints listing) eqn:Hlt; [discriminate |].
    apply bool_decide_eq_false_1 in Hown. apply Z.ltb_ge in Hlt.
    unfold purchase_try, bind, write, throw_if, throw, ret, read.
    destruct (reply env "orders.insert"); simpl; try discriminate;
      destruct (reply env "marketplace_listings.update"); simpl; try discriminate;
      destruct (reply env "profiles.update:buyer"); simpl; try discriminate;
      intros _;
      (split; [exists uid; split; [reflexivity | congruence] |]);
      (split; [exact Hlt |]);
      (split; [destruct (select_by_id _ _ _); reflexivity |]);
      repeat split; discriminate.
Qed.

Lemma purchaseListing_guarded_witness :
  let d := Examples.db_market (Examples.profile_of 50 1) (Examples.profile_of 50 1)
             (Examples.listing_row ListingStatus.active 100) [] in
  let r := purchaseListing Examples.env_ok (Some "buyer")
             (Examples.listing_of ListingStatus.active 100) 50 d in
  r.1.1 = d /\ r.1.2 = false /\ r.2 <> toast_failed.
Proof.
  cbv zeta.
  apply (proj1 (purchaseListing_guarded Examples.env_ok (Some "buyer")
                  (Examples.listing_of ListingStatus.active 100) 50
                  (Examples.db_market (Examples.profile_of 50 1) (Examples.profile_of 50 1)
                     (Examples.listing_row ListingStatus.active 100) []))).
  right. right. simpl. lia.
Defined.

Lemma listing_kept_refl lid k o : listing_kept lid k o o.
Proof. destruct o; simpl; [repeat split; auto | exact I]. Qed.

Lemma listing_kept_trans lid k o1 o2 o3 :
  listing_kept lid k o1 o2 -> listing_kept lid k o2 o3 -> listing_kept lid k o1 o3.
Proof.
  destruct o1 as [l1 |], o2 as [l2 |], o3 as [l3 |]; simpl; try tauto.
  intros (A1 & A2 & A3 & A4 & A5 & A6 & A7 & A8) (B1 & B2 & B3 & B4 & B5 & B6 & B7 & B8).
  repeat (split; [congruence |]).
  destruct B8 as [B8 | B8]; [| right; exact B8].
  destruct A8 as [A8 | A8]; [left; congruence | right; split; [tauto | ]].
  destruct A8 as [_ A8]. congruence.
Qed.

Lemma purchase_frame_refl uid listing d : purchase_frame uid listing d d.
Proof.
  repeat split; auto using listing_kept_refl; exists []; symmetry; apply app_nil_r.
Qed.

Lemma purchase_frame_trans uid listing d1 d2 d3 :
  purchase_frame uid listing d1 d2 -> purchase_frame uid listing d2 d3 ->
  purchase_frame uid listing d1 d3.
Proof.
  intros (A1 & A2 & A3 & A4 & (la & A5) & (lb & A6) & (lc & A7))
         (B1 & B2 & B3 & B4 & (la' & B5) & (lb' & B6) & (lc' & B7)).
  split; [congruence |].
  split; [intros k; eapply listing_kept_trans; [apply A2 | apply B2] |].
  split; [intros k H1 H2; rewrite B3, A3 by assumption; reflexivity |].
  split; [intros k; rewrite B4; apply A4 |].
  split; [exists (la ++ la')%list; rewrite B5, A5, app_assoc; reflexivity |].
  split; [exists (lb ++ lb')%list; rewrite B6, A6, app_assoc; reflexivity |].
  exists (lc ++ lc')%list; rewrite B7, A7, app_assoc; reflexivity.
Qed.

Lemma append_row_grows {R} r (x : R) t : exists l, append_row r x t = (t ++ l)%list.
Proof.
  destruct r; simpl; [exists [x]; reflexivity | |];
    exists []; symmetry; apply app_nil_r.
Qed.

Lemma purchase_frame_append uid listing d :
  (forall r x, purchase_frame uid listing d (with_orders (append_row r x) d)) /\
  (forall r x, purchase_frame uid listing d (with_system_notifications (append_row r x) d)) /\
  (forall r x, purchase_frame uid listing d (with_messages (append_row r x) d)).
Proof.
  repeat split; simpl; auto using listing_kept_refl, append_row_grows;
    exists []; symmetry; apply app_nil_r.
Qed.

Lemma purchase_frame_profile uid listing r k f d :
  k = uid \/ k = sellerId listing ->
  purchase_frame uid listing d (with_profiles (update_by_id r k f) d).
Proof.
  intros Hk.
  assert (Hfar : forall j, j <> uid -> j <> sellerId listing ->
                           update_by_id r k f (t_profiles d) !! j = t_profiles d !! j).
  { intros j H1 H2. destruct r; simpl; try reflexivity.
    apply lookup_alter_ne. destruct Hk; congruence. }
  assert (Hdom : forall j, is_Some (update_by_id r k f (t_profiles d) !! j)
                           <-> is_Some (t_profiles d !! j)).
  { intros j. destruct r; simpl; try reflexivity.
    rewrite lookup_alter. case_decide; [| reflexivity].
    subst. apply fmap_is_Some. }
  repeat split; simpl; auto using listing_kept_refl;
    try apply Hdom; exists []; symmetry; apply app_nil_r.
Qed.

Lemma purchase_frame_sold uid listing r f d :
  (forall l,
      marketplace_listings.seller_id (f l) = marketplace_listings.seller_id l /\
      marketplace_listings.scan_id (f l) = marketplace_listings.scan_id l /\
      marketplace_listings.title (f l) = marketplace_listings.title l /\
      marketplace_listings.description (f l) = marketplace_listings.description l /\
      marketplace_listings.image_url (f l) = marketplace_listings.image_url l /\
      marketplace_listings.category (f l) = marketplace_listings.category l /\
      marketplace_listings.price_points (f l) = marketplace_listings.price_points l /\
      marketplace_listings.status (f l) = ListingStatus.sold) ->
  purchase_frame uid listing d
    (with_marketplace_listings (update_by_id r (id listing) f) d).
Proof.
  intros Hf.
  assert (Hk : forall k, listing_kept (id listing) k (t_marketplace_listings d !! k)
                 (update_by_id r (id listing) f (t_marketplace_listings d) !! k)).
  { intros k. destruct r; simpl; try apply listing_kept_refl.
    rewrite lookup_alter. case_decide as Hid; [| apply listing_kept_refl].
    subst k. destruct (t_marketplace_listings d !! id listing) as [l |]; simpl; [| exact I].
    destruct (Hf l) as (H1 & H2 & H3 & H4 & H5 & H6 & H7 & H8).
    repeat (split; [assumption |]). right. split; [congruence | assumption]. }
  repeat split; simpl; auto; exists []; symmetry; apply app_nil_r.
Qed.

(** Whatever the replies, a purchase stays within [purchase_frame]. *)
Lemma purchaseListing_in_frame env uid listing buyerPoints d :
  purchase_frame uid listing d (purchaseListing env (Some uid) listing buyerPoints d).1.1.
Proof.
  unfold purchaseListing.
  destruct (bool_decide (sellerId listing = uid)); [apply purchase_frame_refl |].
  destruct (buyerPoints <? pricePoints listing); [apply purchase_frame_refl |].
  assert (H : purchase_frame uid listing d (purchase_try env uid listing buyerPoints d).1).
  { revert d. unfold purchase_try.
    repeat (apply bind_preserves; [apply purchase_frame_trans | | intros ?]); intros d;
      unfold write, throw_if, read, ret, throw;
      repeat match goal with
             | |- context [match ?x with Some _ => _ | None => _ end] => destruct x
             | |- context [if ?b then _ else _] => destruct b
             end;
      simpl;
      solve [ apply purchase_frame_refl
            | apply purchase_frame_append
            | apply purchase_frame_profile; auto
            | apply purchase_frame_sold; intros l; repeat split ]. }
  destruct (purchase_try env uid listing buyerPoints d) as [d' [u |]]; exact H.
Qed.

(** X18. What a purchase never touches, whatever the replies of the store:
    the scan history; every listing but the one bought, of which it changes
    nothing but the status, to sold; every profile but the buyer's and the
    seller's.  It creates and deletes no profile and no listing, and the
    orders, notifications and messages on record stay on record. *)
Theorem purchaseListing_frame env user listing buyerPoints d :
  let d' := (purchaseListing env user listing buyerPoints d).1.1 in
  t_scan_history d' = t_scan_history d /\
  (forall k, k <> id listing -> t_marketplace_listings d' !! k = t_marketplace_listings d !! k) /\
  (forall k, user <> Some k -> k <> sellerId listing ->
             t_profiles d' !! k = t_profiles d !! k) /\
  (forall k, is_Some (t_profiles d' !! k) <-> is_Some (t_profiles d !! k)) /\
  (forall k, is_Some (t_marketplace_listings d' !! k)
             <-> is_Some (t_marketplace_listings d !! k)) /\
  (forall l', t_marketplace_listings d' !! id listing = Some l' ->
     exists l, t_marketplace_listings d !! id listing = Some l /\
               (l' = l \/
                l' = PendingListingsTab.set_listing_status ListingStatus.sold l)) /\
  (exists l, t_orders d' = (t_orders d ++ l)%list) /\
  (exists l, t_system_notifications d' = (t_system_notifications d ++ l)%list) /\
  (exists l, t_messages d' = (t_messages d ++ l)%list).
Proof.
  intros d'. subst d'.
  destruct user as [uid |].
  2:{ simpl.
      split; [reflexivity |]. split; [reflexivity |]. split; [reflexivity |].
      split; [reflexivity |]. split; [reflexivity |].
      split; [intros l' Hl'; exists l'; split; [exact Hl' | left; reflexivity] |].
      split; [| split]; exists []; symmetry; apply app_nil_r. }
  destruct (purchaseListing_in_frame env uid listing buyerPoints d)
    as (H1 & H2 & H3 & H4 & H5 & H6 & H7).
  set (d' := (purchaseListing env (Some uid) listing buyerPoints d).1.1) in *.
  split; [exact H1 |].
  split.
  { intros k Hk. specialize (H2 k). unfold listing_kept in H2.
    destruct (t_marketplace_listings d !! k) as [l |],
             (t_marketplace_listings d' !! k) as [l' |]; try tauto.
    destruct H2 as (A1 & A2 & A3 & A4 & A5 & A6 & A7 & [A8 | [A8 _]]); [| contradiction].
    destruct l, l'; simpl in *. congruence. }
  split; [intros k Hk1 Hk2; apply H3; congruence |].
  split; [exact H4 |].
  split.
  { intros k. specialize (H2 k). unfold listing_kept in H2.
    destruct (t_marketplace_listings d !! k), (t_marketplace_listings d' !! k);
      split; intros [? ?]; try discriminate; try tauto; eauto. }
  split; [| split; [exact H5 | split; [exact H6 | exact H7]]].
  intros l' Hl'. specialize (H2 (id listing)). unfold listing_kept in H2.
  rewrite Hl' in H2.
  destruct (t_marketplace_listings d !! id listing) as [l |]; [| contradiction].
  exists l. split; [reflexivity |].
  destruct H2 as (A1 & A2 & A3 & A4 & A5 & A6 & A7 & A8).
  destruct l, l'; simpl in *. subst.
  destruct A8 as [-> | [_ ->]]; [left | right]; reflexivity.
Qed.

(** The listings table after a purchase that returned true, when the
    update of the listing was executed. *)
Lemma purchaseListing_marks_sold env uid listing buyerPoints d :
  reply env "marketplace_listings.update" = ok ->
  (purchaseListing env (Some uid) listing buyerPoints d).1.2 = true ->
  marketplace_listings.status
    <$> t_marketplace_listings (purchaseListing env (Some uid) listing buyerPoints d).1.1
        !! id listing
  = (fun _ => ListingStatus.sold) <$> t_marketplace_listings d !! id listing.
Proof.
  intros Hupd. unfold purchaseListing.
  destruct (bool_decide (sellerId listing = uid)); [discriminate |].
  destruct (buyerPoints <? pricePoints listing); [discriminate |].
  unfold purchase_try, bind, write, throw_if, throw, ret, read. rewrite Hupd.
  destruct (reply env "orders.insert"); simpl; try discriminate;
    destruct (reply env "profiles.update:buyer"); simpl; try discriminate;
    intros _; destruct (select_by_id _ _ _); simpl;
    rewrite lookup_alter_eq; destruct (t_marketplace_listings d !! id listing); reflexivity.
Qed.

Lemma fetchListings_lookup env d m k :
  fetchListings env d = Some m ->
  reply env "marketplace_listings.select" = ok ->
  m !! k = match t_marketplace_listings d !! k with
           | Some l =>
               if bool_decide (marketplace_listings.status l = ListingStatus.active)
               then Some (listing_of_row k l) else None
           | None => None
           end.
Proof.
  unfold fetchListings. intros H Hok. rewrite Hok in H. injection H as <-.
  rewrite map_lookup_imap. destruct (t_marketplace_listings d !! k); reflexivity.
Qed.

Lemma fetchListings_blocked env d m :
  fetchListings env d = Some m ->
  reply env "marketplace_listings.select" <> ok -> m = ∅.
Proof.
  unfold fetchListings. destruct (reply env "marketplace_listings.select");
    intros H Hne; [contradiction | discriminate | congruence].
Qed.

(** X19. A purchase takes the listing off the market: when the update of the
    listing was executed and the purchase returned true, the active listings
    fetched afterwards are those fetched before, without the one bought. *)
Theorem sold_listing_leaves_the_market env env' uid listing buyerPoints d m m' :
  reply env "marketplace_listings.update" = ok ->
  (purchaseListing env (Some uid) listing buyerPoints d).1.2 = true ->
  fetchListings env' d = Some m ->
  fetchListings env' (purchaseListing env (Some uid) listing buyerPoints d).1.1 = Some m' ->
  m' = delete (id listing) m.
Proof.
  intros Hupd Htrue Hm Hm'.
  assert (Hcase : reply env' "marketplace_listings.select" = ok
                  \/ reply env' "marketplace_listings.select" <> ok)
    by (destruct (reply env' "marketplace_listings.select"); auto; right; discriminate).
  destruct Hcase as [Hok | Hne].
  2:{ rewrite (fetchListings_blocked _ _ _ Hm Hne), (fetchListings_blocked _ _ _ Hm' Hne).
      symmetry. apply delete_empty. }
  pose proof (purchaseListing_marks_sold env uid listing buyerPoints d Hupd Htrue) as Hsold.
  destruct (purchaseListing_in_frame env uid listing buyerPoints d) as (_ & Hkept & _).
  apply map_eq. intros k.
  rewrite (fetchListings_lookup _ _ _ k Hm' Hok).
  destruct (decide (k = id listing)) as [-> | Hk].
  - rewrite lookup_delete_eq.
    destruct (t_marketplace_listings _ !! id listing) as [l' |]; [| reflexivity].
    destruct (t_marketplace_listings d !! id listing); simpl in Hsold; [| discriminate].
    injection Hsold as Hsold. rewrite Hsold. reflexivity.
  - rewrite lookup_delete_ne by congruence.
    rewrite (fetchListings_lookup _ _ _ k Hm Hok).
    specialize (Hkept k). unfold listing_kept in Hkept.
    destruct (t_marketplace_listings d !! k) as [l |],
             (t_marketplace_listings _ !! k) as [l' |]; try tauto.
    destruct Hkept as (A1 & A2 & A3 & A4 & A5 & A6 & A7 & [A8 | [A8 _]]); [| contradiction].
    destruct l, l'; simpl in *. subst. reflexivity.
Qed.

Lemma sold_listing_leaves_the_market_witness :
  let d := Examples.db_market (Examples.profile_of 150 2) (Examples.profile_of 50 1)
             (Examples.listing_row ListingStatus.active 100) [] in
  let l := Examples.listing_of ListingStatus.active 100 in
  exists m m',
    fetchListings Examples.env_ok d = Some m /\
    m !! "listing-1" = Some l /\
    fetchListings Examples.env_ok (purchaseListing Examples.env_ok (Some "buyer") l 150 d).1.1
    = Some m' /\
    m' = delete "listing-1" m.
Proof.
  cbv zeta. eexists _, _.
  split; [reflexivity |]. split; [vm_compute; reflexivity |]. split; [reflexivity |].
  apply (sold_listing_leaves_the_market Examples.env_ok Examples.env_ok "buyer"
           (Examples.listing_of ListingStatus.active 100) 150
           (Examples.db_market (Examples.profile_of 150 2) (Examples.profile_of 50 1)
              (Examples.listing_row ListingStatus.active 100) []));
    solve [reflexivity | vm_compute; reflexivity].
Defined.

(** X20. A listing created through the hook is published directly.  When
    [createListing] returns an id, the caller is signed in and the row of that
    id belongs to them, carries the price given and is active, so that the
    next fetch of the market shows it; no other listing is changed.  When it
    returns null, nothing was written. *)
Theorem createListing_publishes_at_once env env' user listing d :
  let r := createListing env user listing d in
  match r.2 with
  | Some new =>
      exists uid l,
        user = Some uid /\
        t_marketplace_listings r.1 !! new = Some l /\
        marketplace_listings.seller_id l = uid /\
        marketplace_listings.price_points l = n_pricePoints listing /\
        marketplace_listings.scan_id l = n_scanId listing /\
        marketplace_listings.status l = ListingStatus.active /\
        (forall k, k <> new ->
                   t_marketplace_listings r.1 !! k = t_marketplace_listings d !! k) /\
        (reply env' "marketplace_listings.select" = ok ->
         exists m, fetchListings env' r.1 = Some m /\ m !! new = Some (listing_of_row new l))
  | None => r.1 = d
  end.
Proof.
  unfold createListing. destruct user as [uid |]; [| reflexivity].
  destruct (reply env "marketplace_listings.insert"); [| reflexivity | reflexivity].
  simpl. eexists uid, _. split; [reflexivity |].
  split; [apply lookup_insert_eq |].
  split; [reflexivity |]. split; [reflexivity |]. split; [reflexivity |].
  split; [reflexivity |].
  split; [intros k Hk; apply lookup_insert_ne; congruence |].
  intros Hok. unfold fetchListings. rewrite Hok. eexists. split; [reflexivity |].
  rewrite map_lookup_imap. simpl. rewrite lookup_insert_eq. reflexivity.
Qed.

Lemma update_by_id_where_other {R} r id (p : R -> bool) f (t : gmap string R) :
  (forall x, t !! id = Some x -> p x = false) ->
  update_by_id_where r id p f t = t.
Proof.
  intros H. destruct r; simpl; try reflexivity.
  apply map_eq. intros k. rewrite lookup_alter. case_decide; [| reflexivity].
  subst. destruct (t !! k) as [x |] eqn:E; simpl; [| reflexivity].
  rewrite (H x eq_refl). reflexivity.
Qed.

(** X21. Only the seller edits or cancels a listing.  For a listing that does
    not exist or belongs to someone else, [updateListing] and [cancelListing]
    leave the store as it is; they still return true (and toast success)
    unless the store reported an error.  Without a user they return false. *)
Theorem only_the_seller_changes_a_listing env uid lid updates d :
  (forall l, t_marketplace_listings d !! lid = Some l ->
             marketplace_listings.seller_id l <> uid) ->
  (updateListing env (Some uid) lid updates d).1 = d /\
  (cancelListing env (Some uid) lid d).1 = d /\
  (reply env "marketplace_listings.update" <> failed ->
     (updateListing env (Some uid) lid updates d).2 = true /\
     (cancelListing env (Some uid) lid d).2 = true) /\
  updateListing env None lid updates d = (d, false) /\
  cancelListing env None lid d = (d, false).
Proof.
  intros Hother.
  assert (Hp : forall l, t_marketplace_listings d !! lid = Some l -> sold_by uid l = false).
  { intros l Hl. apply bool_decide_eq_false_2. exact (Hother l Hl). }
  assert (Hsame : forall r f,
             with_marketplace_listings (update_by_id_where r lid (sold_by uid) f) d = d).
  { intros r f. apply with_marketplace_listings_same, update_by_id_where_other, Hp. }
  unfold updateListing, cancelListing.
  destruct (reply env "marketplace_listings.update") eqn:Hr; simpl;
    rewrite ?Hsame; repeat split; try reflexivity; congruence.
Qed.

Lemma only_the_seller_changes_a_listing_witness :
  let d := Examples.db_market (Examples.profile_of 150 2) (Examples.profile_of 50 1)
             (Examples.listing_row ListingStatus.active 100) [] in
  cancelListing Examples.env_ok (Some "buyer") "listing-1" d = (d, true).
Proof.
  cbv zeta.
  destruct (only_the_seller_changes_a_listing Examples.env_ok "buyer" "listing-1"
              {| u_title := None; u_description := None; u_pricePoints := None |}
              (Examples.db_market (Examples.profile_of 150 2) (Examples.profile_of 50 1)
                 (Examples.listing_row ListingStatus.active 100) []))
    as (_ & H1 & H2 & _).
  - intros l Hl. vm_compute in Hl. injection Hl as <-. discriminate.
  - destruct (H2 ltac:(discriminate)) as [_ H3].
    destruct (cancelListing _ _ _ _) as [d' b]. simpl in *. congruence.
Defined.

(** X22. The seller's cancellation does not look at the status.  When the
    update is executed, the listing of the caller becomes cancelled whatever
    it was, also when it was already sold; the orders and the profiles stay as
    they are (nothing is refunded), and the listing is not among the active
    ones fetched afterwards. *)
Theorem cancelListing_by_seller env env' lid d l :
  reply env "marketplace_listings.update" = ok ->
  t_marketplace_listings d !! lid = Some l ->
  let r := cancelListing env (Some (marketplace_listings.seller_id l)) lid d in
  r.2 = true /\
  t_marketplace_listings r.1 !! lid = Some (cancel_row l) /\
  (forall k, k <> lid -> t_marketplace_listings r.1 !! k = t_marketplace_listings d !! k) /\
  t_orders r.1 = t_orders d /\
  t_profiles r.1 = t_profiles d /\
  (forall m, fetchListings env' r.1 = Some m -> m !! lid = None).
Proof.
  intros Hok Hl r. subst r. unfold cancelListing. rewrite Hok. simpl.
  assert (Hrow : alter (fun x => if sold_by (marketplace_listings.seller_id l) x
                                 then cancel_row x else x) lid
                   (t_marketplace_listings d) !! lid = Some (cancel_row l)).
  { rewrite lookup_alter_eq, Hl. simpl. unfold sold_by.
    rewrite bool_decide_eq_true_2 by reflexivity. reflexivity. }
  split; [reflexivity |]. split; [exact Hrow |].
  split; [intros k Hk; apply lookup_alter_ne; congruence |].
  split; [reflexivity |]. split; [reflexivity |].
  intros m. unfold fetchListings.
  destruct (reply env' "marketplace_listings.select"); intros Hm; [| discriminate |].
  - injection Hm as <-. rewrite map_lookup_imap. simpl. rewrite Hrow. reflexivity.
  - injection Hm as <-. apply lookup_empty.
Qed.

(** The seller cancels a listing that is sold; its order stays on record. *)
Lemma cancelListing_by_seller_witness :
  let d := Examples.db_market (Examples.profile_of 50 1) (Examples.profile_of 150 1)
             (Examples.listing_row ListingStatus.sold 100)
             [Examples.order_of "buyer" 100 OrderStatus.pending] in
  let r := cancelListing Examples.env_ok (Some "seller") "listing-1" d in
  marketplace_listings.status <$> t_marketplace_listings r.1 !! "listing-1"
  = Some ListingStatus.cancelled /\
  t_orders r.1 = [Examples.order_of "buyer" 100 OrderStatus.pending].
Proof.
  cbv zeta.
  destruct (cancelListing_by_seller Examples.env_ok Examples.env_ok "listing-1"
              (Examples.db_market (Examples.profile_of 50 1) (Examples.profile_of 150 1)
                 (Examples.listing_row ListingStatus.sold 100)
                 [Examples.order_of "buyer" 100 OrderStatus.pending])
              (Examples.listing_row ListingStatus.sold 100) eq_refl eq_refl)
    as (_ & H1 & _ & H2 & _).
  split; [| exact H2].
  etransitivity; [exact (f_equal (fmap marketplace_listings.status) H1) | reflexivity].
Defined.

(** X23. Editing a listing changes its title, description and price at most:
    whatever the replies and whoever calls, [updateListing] leaves the
    status, the seller, the category, the image and the scan of every listing
    as they are, creates and deletes no listing, and touches no other table. *)
Theorem updateListing_keeps_status_and_seller env user lid updates d k :
  let d' := (updateListing env user lid updates d).1 in
  marketplace_listings.status <$> t_marketplace_listings d' !! k
  = marketplace_listings.status <$> t_marketplace_listings d !! k /\
  marketplace_listings.seller_id <$> t_marketplace_listings d' !! k
  = marketplace_listings.seller_id <$> t_marketplace_listings d !! k /\
  marketplace_listings.category <$> t_marketplace_listings d' !! k
  = marketplace_listings.category <$> t_marketplace_listings d !! k /\
  marketplace_listings.image_url <$> t_marketplace_listings d' !! k
  = marketplace_listings.image_url <$> t_marketplace_listings d !! k /\
  marketplace_listings.scan_id <$> t_marketplace_listings d' !! k
  = marketplace_listings.scan_id <$> t_marketplace_listings d !! k /\
  (k <> lid -> t_marketplace_listings d' !! k = t_marketplace_listings d !! k) /\
  t_profiles d' = t_profiles d /\
  t_orders d' = t_orders d /\
  t_scan_history d' = t_scan_history d /\
  t_system_notifications d' = t_system_notifications d /\
  t_messages d' = t_messages d.
Proof.
  intros d'. subst d'. unfold updateListing.
  destruct user as [uid |]; [| simpl; repeat split; reflexivity].
  destruct (reply env "marketplace_listings.update"); simpl;
    try (repeat split; reflexivity).
  rewrite lookup_alter. case_decide as Hk.
  - subst k. destruct (t_marketplace_listings d !! lid) as [l |]; simpl;
      [destruct (sold_by uid l) |]; repeat split; try reflexivity; intros; congruence.
  - repeat split; reflexivity.
Qed.

End MarketplaceMore.

(* ===================================================================== *)
(** ** The review panels and their queues, further *)
(* ===================================================================== *)

Section ReviewMore.
Import Store Try.

#[local] Arguments Js.or_num : simpl never.
#[local] Arguments PendingScansTab.listing_for_scan : simpl never.

(** Walks through the binds of a [try] block with a relation [R] on the
    tables, leaving each single step to [leaf]. *)
Ltac through_try R trans leaf :=
  first
    [ apply (bind_preserves R);
      [ exact trans | through_try R trans leaf | intros ?; through_try R trans leaf ]
    | match goal with
      | |- context [if ?b then _ else _] => destruct b; through_try R trans leaf
      | |- context [match ?x with Some _ => _ | None => _ end] =>
          destruct x; through_try R trans leaf
      end
    | intros ?; unfold write, read, throw_if, ret, throw;
      repeat match goal with
             | |- context [if ?b then _ else _] => destruct b
             end;
      simpl; leaf ].

Lemma with_scan_history_same g d :
  g (t_scan_history d) = t_scan_history d -> with_scan_history g d = d.
Proof. destruct d; simpl. intros H. unfold with_scan_history. simpl. rewrite H. reflexivity. Qed.

Lemma update_by_id_missing {R} r k (f : R -> R) (t : gmap string R) :
  rows_updated r k t = 0%nat -> update_by_id r k f t = t.
Proof.
  destruct r; simpl; try reflexivity.
  destruct (t !! k) eqn:E; [discriminate |]. intros _.
  apply map_eq. intros j. rewrite lookup_alter. case_decide; [| reflexivity].
  subst. rewrite E. reflexivity.
Qed.

(** Step 1 of the scan handlers: it either throws and leaves the store as it
    was, or it has set the status of the row, which exists. *)
Lemma scan_status_step env scan s d :
  let c : M unit :=
    bind (read (fun d => rows_updated (reply env "scan_history.update")
                           (PendingScansTab.id scan) (t_scan_history d)))
      (fun rows =>
         bind (write (with_scan_history
                        (update_by_id (reply env "scan_history.update")
                           (PendingScansTab.id scan) (PendingScansTab.set_scan_status s))))
           (fun _ => bind (throw_if (errored (reply env "scan_history.update")))
                       (fun _ => throw_if (Nat.eqb rows 0)))) in
  (rows_updated (reply env "scan_history.update") (PendingScansTab.id scan) (t_scan_history d)
   = 0%nat /\ c d = (d, None)) \/
  (exists row, reply env "scan_history.update" = ok /\
               t_scan_history d !! PendingScansTab.id scan = Some row /\
               c d = (with_scan_history
                        (alter (PendingScansTab.set_scan_status s) (PendingScansTab.id scan)) d,
                      Some tt)).
Proof.
  intros c. subst c. unfold bind, read, write, throw_if, throw, ret.
  destruct (rows_updated (reply env "scan_history.update") (PendingScansTab.id scan)
              (t_scan_history d)) as [| n] eqn:Hrows.
  - left. split; [reflexivity |].
    rewrite (with_scan_history_same _ _ (update_by_id_missing _ _ _ _ Hrows)).
    destruct (errored _); reflexivity.
  - right. unfold rows_updated in Hrows.
    destruct (reply env "scan_history.update"); try discriminate.
    destruct (t_scan_history d !! PendingScansTab.id scan) as [row |]; [| discriminate].
    exists row. repeat split.
Qed.

Lemma approve_rest_keeps_scans env scan d :
  t_scan_history (PendingScansTab.approve_rest env scan d).1 = t_scan_history d.
Proof.
  revert d. unfold PendingScansTab.approve_rest.
  through_try (fun d d' : Db => t_scan_history d' = t_scan_history d)
    (fun (d1 d2 d3 : Db) (H12 : t_scan_history d2 = t_scan_history d1)
         (H23 : t_scan_history d3 = t_scan_history d2) => eq_trans H23 H12)
    idtac;
    reflexivity.
Qed.

Lemma reject_rest_notifies_only env scan d :
  let d' := (PendingScansTab.reject_rest env scan d).1 in
  t_scan_history d' = t_scan_history d /\ t_profiles d' = t_profiles d /\
  t_marketplace_listings d' = t_marketplace_listings d /\ t_orders d' = t_orders d /\
  t_messages d' = t_messages d.
Proof.
  unfold PendingScansTab.reject_rest, bind, write, throw_if, throw, ret.
  destruct (reply env "system_notifications.insert"); simpl; repeat split.
Qed.

(** X24. A review that cannot set the status does nothing.  When the scan's
    row is missing, or the status update is refused or fails, approving and
    rejecting both end with 'Action Failed', the store exactly as it was (no
    points, no listing, no notification) and the panel free again. *)
Theorem review_needs_the_row env scan p d :
  t_scan_history d !! PendingScansTab.id scan = None \/
  reply env "scan_history.update" <> ok ->
  PendingScansTab.handleApprove_run env scan p d
  = (PendingScansTab.setProcessing false p, d, PendingScansTab.toast_action_failed) /\
  PendingScansTab.handleReject_run env scan p d
  = (PendingScansTab.setProcessing false p, d, PendingScansTab.toast_action_failed).
Proof.
  intros Hmiss.
  unfold PendingScansTab.handleApprove_run, PendingScansTab.handleReject_run,
    PendingScansTab.approve_status, PendingScansTab.reject_status.
  split.
  - destruct (scan_status_step env scan Waste.approved d) as [[_ ->] | (row & Hok & Hrow & _)];
      [reflexivity |].
    exfalso. destruct Hmiss; congruence.
  - destruct (scan_status_step env scan Waste.rejected d) as [[_ ->] | (row & Hok & Hrow & _)];
      [reflexivity |].
    exfalso. destruct Hmiss; congruence.
Qed.

Lemma review_needs_the_row_witness :
  PendingScansTab.handleApprove_run Examples.env_ok (Examples.pending_scan Waste.donate)
    Examples.scans_idle Examples.db_empty
  = (Examples.scans_idle, Examples.db_empty, PendingScansTab.toast_action_failed).
Proof.
  exact (proj1 (review_needs_the_row Examples.env_ok (Examples.pending_scan Waste.donate)
                  Examples.scans_idle Examples.db_empty (or_introl eq_refl))).
Defined.

(** X25. Rejecting a scan credits nobody: whatever the replies, and whether
    it ends in 'Rejected' or in 'Action Failed', [handleReject] leaves every
    profile, listing and order as it was, changes no other scan, and changes
    nothing but the status of the scan reviewed, which it leaves as it was or
    sets to rejected or, rolling back, to pending. *)
Theorem handleReject_never_credits env scan p d :
  let d' := (PendingScansTab.handleReject env scan p d).1.2 in
  t_profiles d' = t_profiles d /\
  t_marketplace_listings d' = t_marketplace_listings d /\
  t_orders d' = t_orders d /\
  t_messages d' = t_messages d /\
  (forall k, k <> PendingScansTab.id scan -> t_scan_history d' !! k = t_scan_history d !! k) /\
  (forall row', t_scan_history d' !! PendingScansTab.id scan = Some row' ->
     exists row, t_scan_history d !! PendingScansTab.id scan = Some row /\
                 (row' = row \/
                  row' = PendingScansTab.set_scan_status Waste.rejected row \/
                  row' = PendingScansTab.set_scan_status Waste.pending row)).
Proof.
  intros d'. subst d'. unfold PendingScansTab.handleReject.
  assert (Hsame : t_profiles d = t_profiles d /\
                  t_marketplace_listings d = t_marketplace_listings d /\
                  t_orders d = t_orders d /\
                  t_messages d = t_messages d /\
                  (forall k, k <> PendingScansTab.id scan ->
                             t_scan_history d !! k = t_scan_history d !! k) /\
                  (forall row', t_scan_history d !! PendingScansTab.id scan = Some row' ->
                     exists row, t_scan_history d !! PendingScansTab.id scan = Some row /\
                                 (row' = row \/
                                  row' = PendingScansTab.set_scan_status Waste.rejected row \/
                                  row' = PendingScansTab.set_scan_status Waste.pending row))).
  { split; [reflexivity |]. split; [reflexivity |]. split; [reflexivity |].
    split; [reflexivity |]. split; [reflexivity |].
    intros row' Hrow'. exists row'. split; [exact Hrow' | left; reflexivity]. }
  destruct (PendingScansTab.processing p); [exact Hsame |].
  unfold PendingScansTab.handleReject_run, PendingScansTab.reject_status.
  destruct (scan_status_step env scan Waste.rejected d) as [[_ ->] | (row & _ & Hrow & ->)];
    [exact Hsame |].
  clear Hsame.
  pose proof (reject_rest_notifies_only env scan
                (with_scan_history
                   (alter (PendingScansTab.set_scan_status Waste.rejected)
                      (PendingScansTab.id scan)) d)) as (H1 & H2 & H3 & H4 & H5).
  destruct (PendingScansTab.reject_rest _ _ _) as [d2 [u |]]; simpl in *.
  - rewrite H1, H2, H3, H4, H5.
    split; [reflexivity |]. split; [reflexivity |]. split; [reflexivity |].
    split; [reflexivity |].
    split; [intros k Hk; apply lookup_alter_ne; congruence |].
    intros row'. rewrite lookup_alter_eq, Hrow. simpl. intros H. injection H as <-.
    exists row. split; [reflexivity |]. right. left. reflexivity.
  - unfold PendingScansTab.rollback_status. simpl. rewrite H1, H2, H3, H4, H5.
    split; [reflexivity |]. split; [reflexivity |]. split; [reflexivity |].
    split; [reflexivity |].
    split.
    + intros k Hk. unfold update_by_id.
      destruct (reply env "scan_history.rollback");
        rewrite ?lookup_alter_ne by congruence; reflexivity.
    + intros row'. unfold update_by_id.
      destruct (reply env "scan_history.rollback");
        rewrite ?lookup_alter_eq, Hrow; simpl; intros H; injection H as <-;
        exists row; (split; [reflexivity |]); destruct row; simpl; auto.
Qed.

(** X26. A scan that was reviewed is gone from the queue: after an approval
    or a rejection that did not end in 'Action Failed', the pending scans the
    admin page loads next do not hold the scan. *)
Theorem reviewed_scan_leaves_the_queue env env' scan p d m :
  let a := PendingScansTab.handleApprove_run env scan p d in
  let r := PendingScansTab.handleReject_run env scan p d in
  (a.2 <> PendingScansTab.toast_action_failed ->
   Admin.loadPendingScans env' a.1.2 = Some m -> m !! PendingScansTab.id scan = None) /\
  (r.2 <> PendingScansTab.toast_action_failed ->
   Admin.loadPendingScans env' r.1.2 = Some m -> m !! PendingScansTab.id scan = None).
Proof.
  assert (Hgone : forall s d',
             s <> Waste.pending ->
             t_scan_history d'
             = alter (PendingScansTab.set_scan_status s) (PendingScansTab.id scan)
                 (t_scan_history d) ->
             Admin.loadPendingScans env' d' = Some m ->
             m !! PendingScansTab.id scan = None).
  { intros s d' Hs Hd'. unfold Admin.loadPendingScans.
    destruct (reply env' "scan_history.select"); intros H; [| discriminate |];
      injection H as <-; [| apply lookup_empty].
    rewrite map_lookup_imap, Hd', lookup_alter_eq.
    destruct (t_scan_history d !! PendingScansTab.id scan) as [row |]; [| reflexivity].
    simpl. rewrite bool_decide_eq_false_2; [reflexivity |]. congruence. }
  intros a r. subst a r.
  unfold PendingScansTab.handleApprove_run, PendingScansTab.handleReject_run,
    PendingScansTab.approve_status, PendingScansTab.reject_status.
  split.
  - destruct (scan_status_step env scan Waste.approved d) as [[_ ->] | (row & _ & _ & ->)];
      [simpl; congruence |].
    pose proof (approve_rest_keeps_scans env scan
                  (with_scan_history
                     (alter (PendingScansTab.set_scan_status Waste.approved)
                        (PendingScansTab.id scan)) d)) as Hkeep.
    destruct (PendingScansTab.approve_rest _ _ _) as [d2 [u |]]; simpl in *; [| congruence].
    intros _. apply (Hgone Waste.approved); [discriminate | exact Hkeep].
  - destruct (scan_status_step env scan Waste.rejected d) as [[_ ->] | (row & _ & _ & ->)];
      [simpl; congruence |].
    pose proof (reject_rest_notifies_only env scan
                  (with_scan_history
                     (alter (PendingScansTab.set_scan_status Waste.rejected)
                        (PendingScansTab.id scan)) d)) as (Hkeep & _).
    destruct (PendingScansTab.reject_rest _ _ _) as [d2 [u |]]; simpl in *; [| congruence].
    intros _. apply (Hgone Waste.rejected); [discriminate | exact Hkeep].
Qed.

Lemma reviewed_scan_leaves_the_queue_witness :
  let d := Examples.db_review Waste.donate 0 1 in
  let scan := Examples.pending_scan Waste.donate in
  exists m m',
    Admin.loadPendingScans Examples.env_ok d = Some m /\
    is_Some (m !! "scan-1") /\
    Admin.loadPendingScans Examples.env_ok
      (PendingScansTab.handleApprove_run Examples.env_ok scan Examples.scans_idle d).1.2
    = Some m' /\
    m' !! "scan-1" = None.
Proof.
  cbv zeta. eexists _, _.
  split; [reflexivity |]. split; [vm_compute; eauto |]. split; [reflexivity |].
  apply (proj1 (reviewed_scan_leaves_the_queue Examples.env_ok Examples.env_ok
                  (Examples.pending_scan Waste.donate) Examples.scans_idle
                  (Examples.db_review Waste.donate 0 1) _)).
  - vm_compute. discriminate.
  - reflexivity.
Defined.

(** X27. An approval is not undone with its status.  When every call is
    executed except the insert of the notification, which is refused or fails,
    approving ends in 'Action Failed' and the scan is set back to pending, so
    that it is queued for review again, while the points credited to its owner
    stay credited. *)
Theorem failed_notification_keeps_the_credit env scan p d row pr :
  (forall call, call <> "system_notifications.insert" -> reply env call = ok) ->
  reply env "system_notifications.insert" <> ok ->
  t_scan_history d !! PendingScansTab.id scan = Some row ->
  scan_history.status row = Some Waste.pending ->
  t_profiles d !! PendingScansTab.user_id scan = Some pr ->
  let r := PendingScansTab.handleApprove_run env scan p d in
  r.2 = PendingScansTab.toast_action_failed /\
  t_scan_history r.1.2 = t_scan_history d /\
  profiles.total_points <$> t_profiles r.1.2 !! PendingScansTab.user_id scan
  = Some (profiles.total_points pr + PendingScansTab.final_points scan) /\
  (forall m, Admin.loadPendingScans env r.1.2 = Some m ->
             is_Some (m !! PendingScansTab.id scan)).
Proof.
  intros Hok Hnot Hrow Hpending Hpr.
  assert (H1 : reply env "scan_history.update" = ok) by (apply Hok; discriminate).
  assert (H2 : reply env "marketplace_listings.select" = ok) by (apply Hok; discriminate).
  assert (H3 : reply env "marketplace_listings.insert" = ok) by (apply Hok; discriminate).
  assert (H4 : reply env "profiles.select" = ok) by (apply Hok; discriminate).
  assert (H5 : reply env "profiles.update" = ok) by (apply Hok; discriminate).
  assert (H6 : reply env "scan_history.rollback" = ok) by (apply Hok; discriminate).
  assert (H7 : reply env "scan_history.select" = ok) by (apply Hok; discriminate).
  assert (Hback : alter (PendingScansTab.set_scan_status Waste.pending) (PendingScansTab.id scan)
                    (alter (PendingScansTab.set_scan_status Waste.approved)
                       (PendingScansTab.id scan) (t_scan_history d))
                  = t_scan_history d).
  { apply map_eq. intros k.
    destruct (decide (k = PendingScansTab.id scan)) as [-> | Hk];
      [| rewrite !lookup_alter_ne by congruence; reflexivity].
    rewrite !lookup_alter_eq, Hrow. simpl. f_equal. clear Hrow.
    destruct row; simpl in *. rewrite Hpending. reflexivity. }
  intros r. subst r.
  assert (Hq : forall d',
             t_scan_history d' = t_scan_history d ->
             forall m, Admin.loadPendingScans env d' = Some m ->
                       is_Some (m !! PendingScansTab.id scan)).
  { intros d' Hd' m. unfold Admin.loadPendingScans. rewrite H7. intros H. injection H as <-.
    rewrite map_lookup_imap, Hd', Hrow. simpl.
    rewrite bool_decide_eq_true_2 by exact Hpending. eauto. }
  unfold PendingScansTab.handleApprove_run, PendingScansTab.approve_status,
    PendingScansTab.approve_rest, PendingScansTab.rollback_status,
    bind, write, read, throw_if, ret, throw.
  rewrite H1, H2, H3, H4, H5, H6. simpl. rewrite Hrow. simpl.
  destruct (bool_decide (PendingScansTab.disposal_choice scan = Some Waste.trade));
    simpl;
    [ destruct (PendingScansTab.listing_for_scan ok (PendingScansTab.id scan)
                  (t_marketplace_listings d)); simpl |];
    repeat first [ rewrite Hpr | rewrite lookup_alter_eq | progress simpl ];
    (destruct (reply env "system_notifications.insert"); [contradiction | |]);
    simpl; rewrite ?lookup_alter_eq, ?Hpr, ?or_num_zero; simpl;
    (split; [reflexivity |]); (split; [exact Hback |]); (split; [reflexivity |]);
    apply Hq; exact Hback.
Qed.

Lemma failed_notification_keeps_the_credit_witness :
  let d := Examples.db_review Waste.donate 0 1 in
  let r := PendingScansTab.handleApprove_run
             (Examples.env_failing "system_notifications.insert")
             (Examples.pending_scan Waste.donate) Examples.scans_idle d in
  r.2 = PendingScansTab.toast_action_failed /\
  t_scan_history r.1.2 = t_scan_history d /\
  profiles.total_points <$> t_profiles r.1.2 !! "u1" = Some 20.
Proof.
  cbv zeta.
  destruct (failed_notification_keeps_the_credit
              (Examples.env_failing "system_notifications.insert")
              (Examples.pending_scan Waste.donate) Examples.scans_idle
              (Examples.db_review Waste.donate 0 1)
              (Examples.scan_row Waste.donate) (Examples.profile_of 0 1))
    as (H1 & H2 & H3 & _).
  - intros call Hcall. simpl. destruct (String.eqb_spec call "system_notifications.insert");
      [contradiction | reflexivity].
  - discriminate.
  - reflexivity.
  - reflexivity.
  - reflexivity.
  - split; [exact H1 |]. split; [exact H2 | exact H3].
Defined.

Lemma bind_Some {A B} (c : M A) (k : A -> M B) d d' b :
  bind c k d = (d', Some b) -> exists d1 a, c d = (d1, Some a) /\ k a d1 = (d', Some b).
Proof.
  unfold bind. destruct (c d) as [d1 [a |]]; [eauto | discriminate].
Qed.

Lemma listing_for_scan_found r sid t k :
  PendingScansTab.listing_for_scan r sid t = Some k ->
  exists l, t !! k = Some l /\ marketplace_listings.scan_id l = Some sid.
Proof.
  unfold PendingScansTab.listing_for_scan. destruct r; try discriminate.
  destruct (List.find _ _) as [[k' l] |] eqn:E; simpl; [| discriminate].
  intros H. injection H as <-.
  apply List.find_some in E as [Hin Hb]. simpl in Hb.
  exists l. split.
  - apply elem_of_map_to_list, list_elem_of_In. exact Hin.
  - apply bool_decide_eq_true_1 in Hb. exact Hb.
Qed.

(** X28. Approving a trade scan leaves its owner with a listing to submit.
    After an approval that toasts 'Scan Approved' for a trade item there is a
    listing made from that scan; when one is found beforehand, such as the
    draft seeded at the time of the choice, it is kept and no second one is
    inserted. *)
Theorem trade_approval_ensures_a_listing env scan p d :
  let r := PendingScansTab.handleApprove_run env scan p d in
  r.2 = PendingScansTab.toast_trade_approved ->
  PendingScansTab.disposal_choice scan = Some Waste.trade /\
  (exists k l, t_marketplace_listings r.1.2 !! k = Some l /\
               marketplace_listings.scan_id l = Some (PendingScansTab.id scan)) /\
  (forall k, PendingScansTab.listing_for_scan (reply env "marketplace_listings.select")
               (PendingScansTab.id scan) (t_marketplace_listings d) = Some k ->
             t_marketplace_listings r.1.2 = t_marketplace_listings d).
Proof.
  intros r. subst r. unfold PendingScansTab.handleApprove_run, PendingScansTab.approve_status.
  destruct (scan_status_step env scan Waste.approved d) as [[_ ->] | (row & _ & _ & ->)];
    [discriminate |].
  set (d1 := with_scan_history _ d).
  assert (Hd1 : t_marketplace_listings d1 = t_marketplace_listings d) by reflexivity.
  clearbody d1.
  destruct (PendingScansTab.approve_rest env scan d1) as [d2 [[] |]] eqn:Hrest;
    [| discriminate].
  simpl. intros Htoast.
  assert (Htrade : PendingScansTab.disposal_choice scan = Some Waste.trade).
  { destruct (bool_decide _) eqn:E in Htoast; [| discriminate].
    exact (bool_decide_eq_true_1 _ E). }
  split; [exact Htrade |].
  unfold PendingScansTab.approve_rest in Hrest.
  apply bind_Some in Hrest as (d1' & [] & Hblock & Hrest).
  assert (Hkeep : t_marketplace_listings d2 = t_marketplace_listings d1').
  { match type of Hrest with
    | ?c _ = _ =>
        assert (H : forall d0, t_marketplace_listings (c d0).1 = t_marketplace_listings d0)
    end.
    { through_try (fun d d' : Db => t_marketplace_listings d' = t_marketplace_listings d)
        (fun (a b c : Db) (H12 : t_marketplace_listings b = t_marketplace_listings a)
             (H23 : t_marketplace_listings c = t_marketplace_listings b) => eq_trans H23 H12)
        idtac;
        reflexivity. }
    specialize (H d1'). rewrite Hrest in H. exact H. }
  rewrite (bool_decide_eq_true_2 _ Htrade) in Hblock.
  unfold bind, read, write, throw_if, throw, ret in Hblock.
  rewrite Hkeep. rewrite Hd1 in Hblock.
  destruct (PendingScansTab.listing_for_scan (reply env "marketplace_listings.select")
              (PendingScansTab.id scan) (t_marketplace_listings d)) as [k |] eqn:Hfind.
  - destruct (errored (reply env "marketplace_listings.select")); [discriminate |].
    injection Hblock as <-. rewrite Hd1.
    destruct (listing_for_scan_found _ _ _ _ Hfind) as (l & Hl & Hs).
    split; [exists k, l; split; assumption |]. intros _ _. reflexivity.
  - split; [| intros k Hk; discriminate Hk].
    destruct (errored (reply env "marketplace_listings.select")); [discriminate |].
    destruct (reply env "marketplace_listings.insert"); simpl in Hblock; try discriminate.
    injection Hblock as <-. simpl. eexists _, _. split; [apply lookup_insert_eq | reflexivity].
Qed.

Lemma trade_approval_ensures_a_listing_witness :
  let r := PendingScansTab.handleApprove_run Examples.env_ok
             (Examples.pending_scan Waste.trade) Examples.scans_idle
             (Examples.db_review Waste.trade 0 1) in
  exists k l, t_marketplace_listings r.1.2 !! k = Some l /\
              marketplace_listings.scan_id l = Some "scan-1".
Proof.
  cbv zeta.
  destruct (trade_approval_ensures_a_listing Examples.env_ok
              (Examples.pending_scan Waste.trade) Examples.scans_idle
              (Examples.db_review Waste.trade 0 1)) as (_ & H & _).
  - vm_compute. reflexivity.
  - exact H.
Defined.

End ReviewMore.

(* ===================================================================== *)
(** ** Listings under review: the editor and the admin panel *)
(* ===================================================================== *)

Section ListingReview.
Import Store Try.

(** X29. The editor publishes by the compliance result on hand.  Without a
    result, submitting only runs the check and writes nothing; with an
    [auto_reject] result it refuses and writes nothing.  Otherwise what is
    written, if anything, is the listing edited and no other, with status
    active for [auto_approve] and pending_review for [needs_review]; its
    seller stays, and no profile is touched. *)
Theorem handleSubmit_follows_the_check env uid lid resp e d :
  let r := DraftListingEditor.handleSubmit env uid lid resp e d in
  (DraftListingEditor.complianceResult e = None ->
     r.1.2 = d /\ r.2 <> DraftListingEditor.toast_listed
     /\ r.2 <> DraftListingEditor.toast_submitted) /\
  (forall c, DraftListingEditor.complianceResult e = Some c ->
             DraftListingEditor.action c = Compliance.auto_reject ->
             r.1.2 = d /\ r.2 <> DraftListingEditor.toast_listed
             /\ r.2 <> DraftListingEditor.toast_submitted) /\
  (forall k, k <> lid -> t_marketplace_listings r.1.2 !! k = t_marketplace_listings d !! k) /\
  (forall l l', t_marketplace_listings d !! lid = Some l ->
                t_marketplace_listings r.1.2 !! lid = Some l' ->
                marketplace_listings.seller_id l' = marketplace_listings.seller_id l /\
                (l' = l \/
                 exists c, DraftListingEditor.complianceResult e = Some c /\
                           marketplace_listings.status l'
                           = match DraftListingEditor.action c with
                             | Compliance.auto_approve => Market.ListingStatus.active
                             | _ => Market.ListingStatus.pending_review
                             end /\
                           DraftListingEditor.action c <> Compliance.auto_reject)) /\
  t_profiles r.1.2 = t_profiles d.
Proof.
  intros r. subst r. unfold DraftListingEditor.handleSubmit.
  assert (Hsame : forall x : DraftListingEditor.Editor * Db * DraftListingEditor.Toast,
             x.1.2 = d ->
             x.2 <> DraftListingEditor.toast_listed ->
             x.2 <> DraftListingEditor.toast_submitted ->
             (DraftListingEditor.complianceResult e = None ->
                x.1.2 = d /\ x.2 <> DraftListingEditor.toast_listed
                /\ x.2 <> DraftListingEditor.toast_submitted) /\
             (forall c, DraftListingEditor.complianceResult e = Some c ->
                        DraftListingEditor.action c = Compliance.auto_reject ->
                        x.1.2 = d /\ x.2 <> DraftListingEditor.toast_listed
                        /\ x.2 <> DraftListingEditor.toast_submitted) /\
             (forall k, k <> lid ->
                        t_marketplace_listings x.1.2 !! k = t_marketplace_listings d !! k) /\
             (forall l l', t_marketplace_listings d !! lid = Some l ->
                t_marketplace_listings x.1.2 !! lid = Some l' ->
                marketplace_listings.seller_id l' = marketplace_listings.seller_id l /\
                (l' = l \/
                 exists c, DraftListingEditor.complianceResult e = Some c /\
                           marketplace_listings.status l'
                           = match DraftListingEditor.action c with
                             | Compliance.auto_approve => Market.ListingStatus.active
                             | _ => Market.ListingStatus.pending_review
                             end /\
                           DraftListingEditor.action c <> Compliance.auto_reject)) /\
             t_profiles x.1.2 = t_profiles d).
  { intros x -> Ht1 Ht2.
    split; [intros _; auto |]. split; [intros c _ _; auto |].
    split; [intros k _; reflexivity |].
    split; [| reflexivity].
    intros l l' Hl Hl'. split; [congruence | left; congruence]. }
  destruct (_ || _); [apply Hsame; [reflexivity | discriminate | discriminate] |].
  destruct (DraftListingEditor.complianceResult e) as [c |] eqn:Hc.
  2:{ unfold DraftListingEditor.checkCompliance.
      destruct (JsString.is_empty _);
        [apply Hsame; [reflexivity | discriminate | discriminate] |].
      destruct resp as [| res]; (apply Hsame; [reflexivity | |]); simpl.
      1,2: match goal with
           | |- context [if ?b then Compliance.needs_review else _] => destruct b
           end; discriminate.
      all: destruct (DraftListingEditor.action res); discriminate. }
  destruct (DraftListingEditor.action c) eqn:Ha; simpl;
    [| | apply (Hsame (e, d, DraftListingEditor.toast_cannot_submit));
         [reflexivity | discriminate | discriminate]].
  all: destruct (Compliance.parseInt_string (DraftListingEditor.pricePoints e)) as [price |];
    [| apply (Hsame (e, d, DraftListingEditor.toast_submit_failed));
       [reflexivity | discriminate | discriminate]].
  all: destruct (reply env "marketplace_listings.update");
    [| apply (Hsame (e, d, DraftListingEditor.toast_submit_failed));
       [reflexivity | discriminate | discriminate] |]; simpl.
  all: split; [intros H; discriminate H |].
  all: split; [intros c' Hc' Ha'; injection Hc' as <-; congruence |].
  all: split; [intros k Hk; rewrite ?lookup_alter_ne by congruence; reflexivity |].
  all: split; [| reflexivity].
  all: intros l l' Hl; rewrite ?lookup_alter_eq, Hl; simpl; intros Hl'; injection Hl' as <-.
  all: split; [reflexivity |].
  all: first [ left; reflexivity
             | right; exists c; rewrite Ha; repeat split; discriminate ].
Qed.

(** A draft checked as [auto_approve] goes live at the price typed in. *)
Lemma handleSubmit_follows_the_check_witness :
  let e := {| DraftListingEditor.title := "lamp";
              DraftListingEditor.description := "";
              DraftListingEditor.pricePoints := "80";
              DraftListingEditor.imageUrl := "";
              DraftListingEditor.complianceResult :=
                Some {| DraftListingEditor.riskScore := 2;
                        DraftListingEditor.violations := [];
                        DraftListingEditor.summary := "Looks good";
                        DraftListingEditor.action := Compliance.auto_approve |} |} in
  let d := Examples.db_market (Examples.profile_of 0 1) (Examples.profile_of 0 1)
             (Examples.listing_row Market.ListingStatus.draft 100) [] in
  let r := DraftListingEditor.handleSubmit Examples.env_ok "seller" "listing-1"
             DraftListingEditor.invoke_error e d in
  t_marketplace_listings r.1.2 !! "listing-1"
  = Some (Examples.listing_row Market.ListingStatus.active 80) /\
  t_profiles r.1.2 = t_profiles d.
Proof.
  cbv zeta. split; [vm_compute; reflexivity |].
  apply (handleSubmit_follows_the_check Examples.env_ok "seller" "listing-1"
           DraftListingEditor.invoke_error).
Defined.

Lemma listing_status_step env listing s d :
  (rows_updated (reply env "marketplace_listings.update") (PendingListingsTab.id listing)
     (t_marketplace_listings d) = 0%nat /\
   PendingListingsTab.review_status env listing s d = (d, None)) \/
  (exists l, reply env "marketplace_listings.update" = ok /\
             t_marketplace_listings d !! PendingListingsTab.id listing = Some l /\
             PendingListingsTab.review_status env listing s d
             = (with_marketplace_listings
                  (alter (PendingListingsTab.set_listing_status s)
                     (PendingListingsTab.id listing)) d,
                Some tt)).
Proof.
  unfold PendingListingsTab.review_status, bind, read, write, throw_if, throw, ret.
  destruct (rows_updated (reply env "marketplace_listings.update")
              (PendingListingsTab.id listing) (t_marketplace_listings d)) as [| n] eqn:Hrows.
  - left. split; [reflexivity |].
    rewrite (with_marketplace_listings_same _ _ (update_by_id_missing _ _ _ _ Hrows)).
    destruct (errored _); reflexivity.
  - right. unfold rows_updated in Hrows.
    destruct (reply env "marketplace_listings.update"); try discriminate.
    destruct (t_marketplace_listings d !! PendingListingsTab.id listing) as [l |];
      [| discriminate].
    exists l. repeat split.
Qed.

Lemma review_notify_notifies_only env listing ttl kind d :
  let d' := (PendingListingsTab.review_notify env listing ttl kind d).1 in
  t_marketplace_listings d' = t_marketplace_listings d /\ t_profiles d' = t_profiles d.
Proof.
  unfold PendingListingsTab.review_notify, bind, write, throw_if, throw, ret.
  destruct (reply env "system_notifications.insert"); simpl; split; reflexivity.
Qed.

Lemma loadPendingListings_lookup env d m k :
  PendingListingsTab.loadPendingListings env d = Some m ->
  (forall l, t_marketplace_listings d !! k = Some l ->
             marketplace_listings.status l <> Market.ListingStatus.pending_review) ->
  m !! k = None.
Proof.
  unfold PendingListingsTab.loadPendingListings.
  destruct (reply env "marketplace_listings.select"); intros H Hl; [| discriminate |];
    injection H as <-; [| apply lookup_empty].
  rewrite map_lookup_imap.
  destruct (t_marketplace_listings d !! k) as [l |]; [| reflexivity].
  simpl. rewrite bool_decide_eq_false_2; [reflexivity | exact (Hl l eq_refl)].
Qed.

(** The two handlers of the panel share their shape: the status update,
    then the notification. *)
Lemma listing_run_cases env listing s ttl kind d :
  match PendingListingsTab.review_status env listing s d with
  | (d1, None) => d1 = d
  | (d1, Some _) =>
      exists l,
        t_marketplace_listings d !! PendingListingsTab.id listing = Some l /\
        t_profiles d1 = t_profiles d /\
        match PendingListingsTab.review_notify env listing ttl kind d1 with
        | (d2, Some _) =>
            t_profiles d2 = t_profiles d /\
            t_marketplace_listings d2 !! PendingListingsTab.id listing
            = Some (PendingListingsTab.set_listing_status s l)
        | (d2, None) => t_profiles d2 = t_profiles d
        end
  end.
Proof.
  destruct (listing_status_step env listing s d) as [[_ ->] | (l & _ & Hl & ->)];
    [reflexivity |].
  exists l. split; [exact Hl |]. split; [reflexivity |].
  pose proof (review_notify_notifies_only env listing ttl kind
                (with_marketplace_listings
                   (alter (PendingListingsTab.set_listing_status s)
                      (PendingListingsTab.id listing)) d)) as (H1 & H2).
  destruct (PendingListingsTab.review_notify _ _ _ _ _) as [d2 [u |]]; simpl in *.
  - split; [exact H2 |]. rewrite H1, lookup_alter_eq, Hl. reflexivity.
  - exact H2.
Qed.

(** X30. The admin's decision on a listing.  After an approval that toasts
    'Approved' the listing is active, with nothing else about it changed: it
    has left the queue of pending listings and is among the active listings
    the market fetches.  After a rejection that toasts 'Rejected' it is
    cancelled, and in neither list.  Whatever the outcome, neither handler
    touches a profile. *)
Theorem listing_review_outcome env env' listing p d :
  let a := PendingListingsTab.handleApprove_run env listing p d in
  let r := PendingListingsTab.handleReject_run env listing p d in
  (a.2 = PendingListingsTab.toast_approved ->
     (exists l, t_marketplace_listings d !! PendingListingsTab.id listing = Some l /\
                t_marketplace_listings a.1.2 !! PendingListingsTab.id listing
                = Some (PendingListingsTab.set_listing_status Market.ListingStatus.active l)) /\
     (forall m, PendingListingsTab.loadPendingListings env' a.1.2 = Some m ->
                m !! PendingListingsTab.id listing = None) /\
     (forall m, useMarketplace.fetchListings env' a.1.2 = Some m ->
                reply env' "marketplace_listings.select" = ok ->
                is_Some (m !! PendingListingsTab.id listing))) /\
  (r.2 = PendingListingsTab.toast_rejected ->
     (exists l, t_marketplace_listings d !! PendingListingsTab.id listing = Some l /\
                t_marketplace_listings r.1.2 !! PendingListingsTab.id listing
                = Some (PendingListingsTab.set_listing_status
                          Market.ListingStatus.cancelled l)) /\
     (forall m, PendingListingsTab.loadPendingListings env' r.1.2 = Some m ->
                m !! PendingListingsTab.id listing = None) /\
     (forall m, useMarketplace.fetchListings env' r.1.2 = Some m ->
                m !! PendingListingsTab.id listing = None)) /\
  t_profiles a.1.2 = t_profiles d /\
  t_profiles r.1.2 = t_profiles d.
Proof.
  intros a r. subst a r.
  unfold PendingListingsTab.handleApprove_run, PendingListingsTab.handleReject_run.
  pose proof (listing_run_cases env listing Market.ListingStatus.active
                "Listing Approved! 🎉" "reward" d) as Ha.
  pose proof (listing_run_cases env listing Market.ListingStatus.cancelled
                "Listing Rejected" "alert" d) as Hr.
  split; [| split; [| split]].
  - clear Hr.
    destruct (PendingListingsTab.review_status _ _ _ _) as [d1 [u |]]; [| discriminate].
    destruct Ha as (l & Hl & _ & Ha).
    destruct (PendingListingsTab.review_notify _ _ _ _ _) as [d2 [u2 |]]; [| discriminate].
    destruct Ha as [_ Hrow]. simpl. intros _.
    split; [exists l; split; assumption |]. split.
    + intros m Hm. apply (loadPendingListings_lookup env' d2 m _ Hm).
      intros l0 Hl0. rewrite Hrow in Hl0. injection Hl0 as <-. discriminate.
    + intros m Hm Hok. rewrite (fetchListings_lookup env' d2 m _ Hm Hok), Hrow. simpl. eauto.
  - clear Ha.
    destruct (PendingListingsTab.review_status _ _ _ _) as [d1 [u |]]; [| discriminate].
    destruct Hr as (l & Hl & _ & Hr).
    destruct (PendingListingsTab.review_notify _ _ _ _ _) as [d2 [u2 |]]; [| discriminate].
    destruct Hr as [_ Hrow]. simpl. intros _.
    split; [exists l; split; assumption |]. split.
    + intros m Hm. apply (loadPendingListings_lookup env' d2 m _ Hm).
      intros l0 Hl0. rewrite Hrow in Hl0. injection Hl0 as <-. discriminate.
    + intros m. unfold useMarketplace.fetchListings.
      destruct (reply env' "marketplace_listings.select"); intros Hm; [| discriminate |];
        injection Hm as <-; [| apply lookup_empty].
      rewrite map_lookup_imap, Hrow. reflexivity.
  - clear Hr.
    destruct (PendingListingsTab.review_status _ _ _ _) as [d1 [u |]];
      [| simpl; congruence].
    destruct Ha as (l & _ & _ & Ha).
    destruct (PendingListingsTab.review_notify _ _ _ _ _) as [d2 [u2 |]]; simpl;
      [exact (proj1 Ha) | exact Ha].
  - clear Ha.
    destruct (PendingListingsTab.review_status _ _ _ _) as [d1 [u |]];
      [| simpl; congruence].
    destruct Hr as (l & _ & _ & Hr).
    destruct (PendingListingsTab.review_notify _ _ _ _ _) as [d2 [u2 |]]; simpl;
      [exact (proj1 Hr) | exact Hr].
Qed.

Lemma listing_review_outcome_witness :
  let d := Examples.db_market (Examples.profile_of 0 1) (Examples.profile_of 0 1)
             (Examples.listing_row Market.ListingStatus.pending_review 100) [] in
  let a := PendingListingsTab.handleApprove_run Examples.env_ok Examples.pending_listing
             Examples.listings_idle d in
  exists m, useMarketplace.fetchListings Examples.env_ok a.1.2 = Some m /\
            is_Some (m !! "listing-1").
Proof.
  cbv zeta. eexists. split; [reflexivity |].
  destruct (listing_review_outcome Examples.env_ok Examples.env_ok Examples.pending_listing
              Examples.listings_idle
              (Examples.db_market (Examples.profile_of 0 1) (Examples.profile_of 0 1)
                 (Examples.listing_row Market.ListingStatus.pending_review 100) []))
    as (H & _).
  destruct (H ltac:(vm_compute; reflexivity)) as (_ & _ & Hfetch).
  apply (Hfetch _ eq_refl eq_refl).
Defined.

End ListingReview.
